(** * BC COVID-19 survey cleaning pipeline: sleep-time arithmetic, subject
    reconciliation, range checks and scale scores.

    Shallow embedding of [11f_COVID19_Format_Clean.py].  Conventions:

    - a pandas [Timedelta] is its integer number of nanoseconds ([Z]);
    - a float column is modelled by exact rationals ([Q]), float rounding
      is not modelled; [NaN]/[NaT] is [None];
    - a [Series] is the list of its values in row order; two columns taken
      from one frame share their index and are combined position by position;
    - a Python exception is an [outcome] other than [Returns];
    - the roster and the corrections file hold at least two entries each
      ([squeeze()] turns a single entry into a scalar, on which the script
      stops with an [AttributeError]);
    - a table has at least one row: on a column without rows pandas stops
      with a [TypeError] at line 102, and [calc_sleep_time] is not meant
      for such a column (the model gives back the empty column there);
      [calc_sleep_midpoint] and [mtq] stop on it with the [TypeError], as
      they do on any table none of whose rows has a duration;
    - an integer [Series] created without data is filled with 0 (as the
      quality-control script of the repository asserts of the 12-hour
      flags it reads back). *)

From Stdlib Require Import ZArith QArith Lia Lqa Bool Ascii.
From stdpp Require Import base option list gmap strings pretty sorting.

Local Open Scope Z_scope.

(** ** Exceptions *)

Inductive exn : Type :=
  | ValueError
  | AssertionError
  | AttributeError
  | TypeError.

Inductive outcome (A : Type) : Type :=
  | Returns (a : A)
  | Raises (e : exn).
Arguments Returns {A} a.
Arguments Raises {A} e.

#[global] Instance outcome_ret : MRet outcome := fun A a => Returns a.
#[global] Instance outcome_bind : MBind outcome := fun A B f m =>
  match m with
  | Returns a => f a
  | Raises e => Raises e
  end.

(** [assert c] and [if not c: raise ValueError(...)]. *)
Definition assert (c : bool) : outcome unit :=
  if c then Returns tt else Raises AssertionError.
Definition check_value (c : bool) : outcome unit :=
  if c then Returns tt else Raises ValueError.
(** An operation that the types of its operands forbid. *)
Definition check_type (c : bool) : outcome unit :=
  if c then Returns tt else Raises TypeError.

(** ** Series and clock times *)

Abbreviation Series A := (list (option A)) (only parsing).

Definition isna {A} (x : option A) : bool :=
  match x with None => true | Some _ => false end.

(** [pd.Timedelta(h, unit='hours')] and [pd.Timedelta(m, unit='min')] for
    whole [h], [m], in nanoseconds. *)
Definition ns_per_hour : Z := 3600000000000.
Definition ns_per_min : Z := 60000000000.
Definition Timedelta_hours (h : Z) : Z := h * ns_per_hour.
Definition Timedelta_min (m : Z) : Z := m * ns_per_min.
#[global] Arguments Timedelta_hours : simpl never.

(** A clock time written [hh:mm]. *)
Definition clock (hh mm : Z) : Z := Timedelta_hours hh + Timedelta_min mm.

(** Comparisons of a column with a scalar or another column: false on a
    missing operand. *)
Definition td_lt (a b : option Z) : bool :=
  match a, b with Some x, Some y => x <? y | _, _ => false end.
Definition td_ge (a b : option Z) : bool :=
  match a, b with Some x, Some y => y <=? x | _, _ => false end.
Definition td_between (lo hi : Z) (x : option Z) : bool :=
  match x with Some v => (lo <=? v) && (v <=? hi) | None => false end.

Definition Qlt_bool (x y : Q) : bool := negb (Qle_bool y x).

Definition fl_lt (a : option Q) (b : Q) : bool :=
  match a with Some x => Qlt_bool x b | None => false end.
Definition fl_between (lo hi : Q) (x : option Q) : bool :=
  match x with Some v => Qle_bool lo v && Qle_bool v hi | None => false end.

(** [x.total_seconds()/3600] *)
Definition total_seconds (d : Z) : Q := d # 1000000000.
Definition to_hours (d : Z) : Q := (total_seconds d / 3600)%Q.

(** [awake_time - bed_time] on one row. *)
Definition td_sub (a b : option Z) : option Z :=
  match a, b with Some x, Some y => Some (x - y) | _, _ => None end.

(** The five-way mask shared by the 12-hour correction and by the ambiguity
    floor: both times in [[1h, 13h)]. *)
Definition first_half (awake bed : option Z) : bool :=
  td_lt awake (Some (Timedelta_hours 13))
  && td_lt bed (Some (Timedelta_hours 13))
  && td_ge awake (Some (Timedelta_hours 1))
  && td_ge bed (Some (Timedelta_hours 1)).

(** [idx] of lines 106-110. *)
Definition idx_correct_12 (awake bed : option Z) : bool :=
  td_lt awake bed && first_half awake bed.

(** [idx] of lines 120-124. *)
Definition idx_min_12 (min_12 : Q) (st : option Q) (awake bed : option Z) : bool :=
  fl_lt st min_12 && first_half awake bed.

(** ** [calc_sleep_time] *)

Definition valid_times (s : Series Z) : bool :=
  forallb (fun x => td_between 0 (Timedelta_hours 24) x || isna x) s.

Definition calc_sleep_time (bed_time awake_time : Series Z)
    (correct_12 : bool) (min_12 : Q) : outcome (Series Q * option (list Z)) :=
  _ ← check_value (valid_times bed_time);
  _ ← check_value (valid_times awake_time);
  (* Get sleep time assuming 24 hour clock *)
  let st := zip_with td_sub awake_time bed_time in
  (* Convert to hours *)
  let st := fmap (M:=list) (fmap (M:=option) to_hours) st in
  (* Correct for circularity of time *)
  let st := fmap (M:=list)
              (fmap (M:=option) (fun x => if Qlt_bool x 0 then (x + 24)%Q else x)) st in
  (* Correct for 12-hour clock usage *)
  let idx := zip_with idx_correct_12 awake_time bed_time in
  let st := if correct_12
            then zip_with (fun (i : bool) x =>
                             if i then fmap (M:=option) (fun v => (v + -12)%Q) x else x)
                          idx st
            else st in
  let corr12 := if correct_12
                then Some (fmap (M:=list) (fun i : bool => if i then 1 else 0) idx)
                else None in
  (* Check for impossible values *)
  _ ← assert (forallb (fun x => fl_between 0 24 x || isna x) st);
  (* Do not try to distinguish values close to 0 from values just over 12 *)
  let st := if Qeq_bool min_12 0 then st
            else zip_with (fun x ab => if idx_min_12 min_12 x ab.1 ab.2 then None else x)
                          st (zip awake_time bed_time) in
  mret (st, corr12).

(** ** [calc_sleep_midpoint] *)

(** [round(x, 9)], as a number of billionths: the nearest one, ties to the
    even one. *)
Definition round_9 (x : Q) : Z :=
  let y := (x * inject_Z 1000000000)%Q in
  let quotient := Qnum y / Z.pos (Qden y) in
  let remainder := Qnum y mod Z.pos (Qden y) in
  if (Z.pos (Qden y) <? 2 * remainder)
     || ((2 * remainder =? Z.pos (Qden y)) && Z.odd quotient)
  then quotient + 1
  else quotient.

(** [pd.Timedelta(x, unit='hours')] for a float [x].  pandas converts the
    whole hours and the fraction of an hour separately, the fraction
    rounded to nine decimals first: [base = int(x)], [frac = round(x -
    base, 9)], and the value is [base * m + int(frac * m)] nanoseconds with
    [m] the 3.6e12 nanoseconds of an hour; a billionth of an hour is 3600
    of them. *)
Definition Timedelta_of_hours (x : Q) : Z :=
  let base := Z.quot (Qnum x) (Z.pos (Qden x)) in
  let frac := (x - inject_Z base)%Q in
  base * ns_per_hour + round_9 frac * 3600.
#[global] Arguments Timedelta_of_hours : simpl never.

(** A [timedelta64] column divided by an integer. *)
Definition td_div (d : Z) (x : option Z) : option Z :=
  fmap (M:=option) (fun v => Z.quot v d) x.

Definition td_add (a b : option Z) : option Z :=
  match a, b with Some x, Some y => Some (x + y) | _, _ => None end.

(** [round(freq)] of a [timedelta64] column: nearest multiple of [unit]
    (an even number of nanoseconds), ties to the even multiple. *)
Definition round_half_even (unit v : Z) : Z :=
  let quotient := v / unit in
  let remainder := v mod unit in
  if (unit / 2 <? remainder) || ((remainder =? unit / 2) && Z.odd quotient)
  then (quotient + 1) * unit
  else quotient * unit.

Definition calc_sleep_midpoint (bed_time awake_time : Series Z)
    (correct_12 : bool) (min_12 : Q) : outcome (Series Z) :=
  (* Calculate sleep duration and find uses of 12 hour clock *)
  r ← calc_sleep_time bed_time awake_time correct_12 min_12;
  match r.2 with
  | None =>
      (* a lone Series is unpacked into two names; with exactly two rows
         the second is a float, which has no [apply] *)
      if decide (length r.1 = 2%nat) then Raises AttributeError else Raises ValueError
  | Some corr12 =>
      let sleep_duration := r.1 in
      let corr12 := fmap (M:=list) (fun c : Z => negb (c =? 0)) corr12 in
      (* Calculate sleep midpoint: durations that are all missing convert
         to a column of NaT only, which pandas takes for dates and refuses
         to divide *)
      _ ← check_type (existsb (fun x => negb (isna x)) sleep_duration);
      let half := fmap (M:=list)
                    (fun x => td_div 2 (fmap (M:=option) Timedelta_of_hours x))
                    sleep_duration in
      let sleep_midpoint := zip_with td_add bed_time half in
      (* Deal with circular nature of time *)
      let sleep_midpoint :=
        zip_with (fun m (c : bool) =>
                    if td_ge m (Some (Timedelta_hours 24)) && negb c
                    then fmap (M:=option) (fun v => v + - Timedelta_hours 24) m else m)
                 sleep_midpoint corr12 in
      let sleep_midpoint :=
        zip_with (fun m (c : bool) =>
                    if td_ge m (Some (Timedelta_hours 13)) && c
                    then fmap (M:=option) (fun v => v + - Timedelta_hours 12) m else m)
                 sleep_midpoint corr12 in
      (* Round to nearest minute *)
      let sleep_midpoint :=
        fmap (M:=list) (fmap (M:=option) (round_half_even ns_per_min)) sleep_midpoint in
      (* Check that all sleep midpoints are valid clock times *)
      _ ← assert (forallb (fun x => td_between 0 (Timedelta_hours 24) x || isna x)
                          sleep_midpoint);
      mret sleep_midpoint
  end.

(** ** Row-wise reading of the vectorised sleep code

    Every step of [calc_sleep_time] acts on each row independently; these
    are the per-row values of [st] after lines 98-102, after lines 105-111
    and after lines 119-125, and of [corr12]. *)

Definition st_24 (awake bed : option Z) : option Q :=
  fmap (M:=option) (fun x => if Qlt_bool x 0 then (x + 24)%Q else x)
       (fmap (M:=option) to_hours (td_sub awake bed)).

Definition st_12 (correct_12 : bool) (awake bed : option Z) : option Q :=
  if correct_12 && idx_correct_12 awake bed
  then fmap (M:=option) (fun v => (v + -12)%Q) (st_24 awake bed)
  else st_24 awake bed.

Definition st_row (correct_12 : bool) (min_12 : Q) (awake bed : option Z) : option Q :=
  let x := st_12 correct_12 awake bed in
  if negb (Qeq_bool min_12 0) && idx_min_12 min_12 x awake bed then None else x.

Definition corr12_row (awake bed : option Z) : Z :=
  if idx_correct_12 awake bed then 1 else 0.

(** Whether some row of the table has a sleep duration: both clock times
    present, and the duration not set missing by the floor [min_12]. *)
Definition has_duration (bed_time awake_time : Series Z) (min_12 : Q) : bool :=
  existsb (fun x => negb (isna x)) (zip_with (st_row true min_12) awake_time bed_time).

(** The per-row value of [sleep_midpoint], with the correction enabled. *)
Definition midpoint_row (min_12 : Q) (awake bed : option Z) : option Z :=
  let d := st_row true min_12 awake bed in
  let c := negb (corr12_row awake bed =? 0) in
  let m := td_add bed (td_div 2 (fmap (M:=option) Timedelta_of_hours d)) in
  let m := if td_ge m (Some (Timedelta_hours 24)) && negb c
           then fmap (M:=option) (fun v => v + - Timedelta_hours 24) m else m in
  let m := if td_ge m (Some (Timedelta_hours 13)) && c
           then fmap (M:=option) (fun v => v + - Timedelta_hours 12) m else m in
  fmap (M:=option) (round_half_even ns_per_min) m.

(** * Subject corrections and exclusions *)

(** ** Strings

    Identifiers are byte strings.  [str_strip] removes the ASCII white space
    Python strips, [str_upper] maps the ASCII letters, and the zero-width
    space U+200B is its three UTF-8 bytes. *)

Definition is_space (c : ascii) : bool :=
  let n := Ascii.nat_of_ascii c in
  ((9 <=? n) && (n <=? 13) || (28 <=? n) && (n <=? 32))%nat.

Fixpoint lstrip (s : string) : string :=
  match s with
  | EmptyString => EmptyString
  | String c s' => if is_space c then lstrip s' else s
  end.

Definition str_strip (s : string) : string :=
  String.rev (lstrip (String.rev (lstrip s))).

Definition upper_ascii (c : ascii) : ascii :=
  let n := Ascii.nat_of_ascii c in
  if ((97 <=? n) && (n <=? 122))%nat then Ascii.ascii_of_nat (n - 32) else c.

Fixpoint str_upper (s : string) : string :=
  match s with
  | EmptyString => EmptyString
  | String c s' => String (upper_ascii c) (str_upper s')
  end.

(** [.str.replace(zwsp, '')], [zwsp] the zero-width space *)
Fixpoint remove_zwsp (s : string) : string :=
  match s with
  | EmptyString => EmptyString
  | String c1 s1 =>
      match s1 with
      | String c2 (String c3 s3) =>
          if (Ascii.nat_of_ascii c1 =? 226)%nat && (Ascii.nat_of_ascii c2 =? 128)%nat
             && (Ascii.nat_of_ascii c3 =? 139)%nat
          then remove_zwsp s3
          else String c1 (remove_zwsp s1)
      | _ => String c1 (remove_zwsp s1)
      end
  end.

Definition zwsp : string :=
  String (Ascii.ascii_of_nat 226)
    (String (Ascii.ascii_of_nat 128) (String (Ascii.ascii_of_nat 139) EmptyString)).

(** [.astype(str).str.strip().str.upper()] *)
Definition normalise (s : string) : string := str_upper (str_strip s).

(** ** Tables

    A row is its subject identifier, its record id (the [record_id] or
    [ResponseId] column, read as an integer rank) and the remaining cells. *)

Record row (I P : Type) : Type := Row {
  subj : I;
  record_id : Z;
  cells : P
}.
Arguments Row {I P} subj record_id cells.
Arguments subj {I P} r.
Arguments record_id {I P} r.
Arguments cells {I P} r.

Definition set_subj {I J P} (f : I → J) (r : row I P) : row J P :=
  Row (f (subj r)) (record_id r) (cells r).

(** [dropna(axis=0, subset=[id])] *)
Definition dropna_subj {P} (t : list (row (option string) P)) : list (row string P) :=
  omap (fun r => match subj r with
                 | Some s => Some (Row s (record_id r) (cells r))
                 | None => None
                 end) t.

(** Lines 259-261: the rows entered as [WSKA2_LSAS] leave the round 6 and
    daily tables. *)
Definition drop_lsas {P} (t : list (row string P)) : list (row string P) :=
  filter (fun r => subj r ≠ "WSKA2_LSAS") t.

(** Lines 263-276. *)
Definition excl_subs : list string := ["54DLL"; "A2YXX"; "7QU6Y"; "PMMTT"; "QMP33"].

Definition drop_excluded {P} (t : list (row string P)) : list (row string P) :=
  filter (fun r => subj r ∉ excl_subs) t.

(** [Series.replace(dict)]: one lookup, not chained. *)
Definition replace_dict (d : gmap string string) (s : string) : string :=
  default s (d !! s).

(** Lines 331-363. *)
Definition keep_valid {P} (valid_sub_ids : list string) (t : list (row string P))
    : list (row string P) :=
  filter (fun r => subj r ∈ valid_sub_ids) t.

(** The roster file [IDs_For_DEID_Data.csv]: columns [sub_id], [sub_num]. *)
Definition roster_ids (roster : list (string * Z)) : list string :=
  (fun r => normalise r.1) <$> roster.

(** Lines 367-372. *)
Definition load_sub_num_key (roster : list (string * Z)) : outcome (gmap string Z) :=
  let sub_num_key := (fun r => (normalise r.1, r.2)) <$> roster in
  _ ← assert (bool_decide (NoDup (sub_num_key.*1)));
  _ ← assert (bool_decide (NoDup (sub_num_key.*2)));
  mret (list_to_map sub_num_key).

(** Lines 373-405 for one table: the assertion on the key domain, then the
    replacement and [astype(int)] (which raises on a string left in place). *)
Definition replace_sub_num {P} (sub_num_key : gmap string Z) (t : list (row string P))
    : outcome (list (row Z P)) :=
  _ ← assert (forallb (fun r => bool_decide (is_Some (sub_num_key !! subj r))) t);
  mapM (M:=outcome)
    (fun r => match sub_num_key !! subj r with
              | Some n => Returns (Row n (record_id r) (cells r))
              | None => Raises ValueError
              end) t.

(** The stages of one table, in the order of the script: lines 209-255,
    259-276, 279-314. [lsas] is on for the daily and round 6 tables. *)
Definition stage_normalised {P} (t : list (row (option string) P)) : list (row string P) :=
  set_subj normalise <$> dropna_subj t.

Definition stage_excluded {P} (lsas : bool) (t : list (row (option string) P))
    : list (row string P) :=
  let t := stage_normalised t in
  let t := if lsas then drop_lsas t else t in
  drop_excluded t.

Definition stage_corrected {P} (lsas : bool) (sub_ids_corrections : gmap string string)
    (t : list (row (option string) P)) : list (row string P) :=
  let t := stage_excluded lsas t in
  let t := set_subj remove_zwsp <$> t in
  set_subj (replace_dict sub_ids_corrections) <$> t.

(** Lines 209-405 for one table. *)
Definition reconcile {P} (lsas : bool) (sub_ids_corrections : gmap string string)
    (roster : list (string * Z)) (t : list (row (option string) P))
    : outcome (list (row Z P)) :=
  let t := stage_corrected lsas sub_ids_corrections t in
  let valid_sub_ids := roster_ids roster in
  let t := keep_valid valid_sub_ids t in
  sub_num_key ← load_sub_num_key roster;
  replace_sub_num sub_num_key t.

(** * Index, sort and duplicates *)

(** Lines 420-455: each table is indexed by its record id, the index is
    asserted unique, and the rows are sorted by subject number, then record
    id. *)
Definition row_le {P} (r1 r2 : row Z P) : Prop :=
  subj r1 < subj r2 ∨ (subj r1 = subj r2 ∧ record_id r1 ≤ record_id r2).

#[global] Instance row_le_dec {P} : RelDecision (@row_le P).
Proof. intros r1 r2. unfold row_le. apply _. Defined.

Definition index_and_sort {P} (t : list (row Z P)) : outcome (list (row Z P)) :=
  _ ← assert (bool_decide (NoDup (record_id <$> t)));
  mret (merge_sort row_le t).

(** [drop_duplicates('sub_id', keep='first')]: a row goes when an earlier
    row of the table has its subject number. *)
Fixpoint drop_duplicates_from {P} (seen : list Z) (t : list (row Z P)) : list (row Z P) :=
  match t with
  | [] => []
  | r :: t' =>
      if bool_decide (subj r ∈ seen) then drop_duplicates_from seen t'
      else r :: drop_duplicates_from (subj r :: seen) t'
  end.

Definition drop_duplicates {P} (t : list (row Z P)) : list (row Z P) :=
  drop_duplicates_from [] t.

(** Rounds 1 to 9: lines 425-455, then 577-585. *)
Definition round_table {P} (t : list (row Z P)) : outcome (list (row Z P)) :=
  t ← index_and_sort t;
  mret (drop_duplicates t).

(** Demographics: lines 423-446, then the assertion of line 574. *)
Definition demo_table {P} (t : list (row Z P)) : outcome (list (row Z P)) :=
  t ← index_and_sort t;
  _ ← assert (bool_decide (NoDup (subj <$> t)));
  mret t.

(** ** Reference date of the daily survey (lines 661-679)

    A timestamp is its number of nanoseconds since the epoch;
    [todays_date] is present on every row (line 212). *)

Record daily_cells : Type := Daily {
  todays_date : Z;
  redcap_timestamp : option Z
}.

Definition ns_per_day : Z := 86400000000000.

(** [.dt.normalize()] *)
Definition normalize (t : Z) : Z := t - t mod ns_per_day.

(** [sub_date_duplicates(data, keep=False)]: every row whose subject and
    calendar day occur more than once. *)
Definition sub_date_duplicates (data : list (row Z daily_cells)) : list bool :=
  let sub_date := (fun r => (subj r, normalize (todays_date (cells r)))) <$> data in
  (fun k => bool_decide (1 < length (filter (fun k' => k' = k) sub_date))%nat) <$> sub_date.

(** [np.abs(todays_date - redcap_timestamp) > pd.Timedelta(1, unit='days')] *)
Definition far_from_timestamp (c : daily_cells) : bool :=
  match redcap_timestamp c with
  | Some ts => ns_per_day <? Z.abs (todays_date c - ts)
  | None => false
  end.

(** [between_time('00:00', '04:00')] on [todays_date], both ends included. *)
Definition early_morning (c : daily_cells) : bool :=
  todays_date c mod ns_per_day <=? Timedelta_hours 4.

(** The rows written to [ref_date_problems.csv], and the table with its new
    [ref_date] column. *)
Definition reference_date (data : list (row Z daily_cells))
    : list (row Z daily_cells) * list (row Z daily_cells * option Z) :=
  let idx := zip_with (fun dup r => dup || far_from_timestamp (cells r))
                      (sub_date_duplicates data) data in
  let problems := fst <$> filter (fun ri => ri.2 = true) (zip data idx) in
  (* rows without obvious date problems refer to the day before *)
  let ref := zip_with (fun r (i : bool) =>
                         if i then None else Some (todays_date (cells r) - ns_per_day))
                      data idx in
  (* early morning times refer to two days before *)
  let ref := zip_with (fun r (d : option Z) =>
                         if early_morning (cells r)
                         then fmap (M:=option) (fun v => v + - ns_per_day) d else d)
                      data ref in
  (* convert to date only *)
  let ref := fmap (M:=list) (fmap (M:=option) normalize) ref in
  (problems, zip data ref).

(** * Formatting of the daily survey: impossible values (lines 649-656) *)

Record daily_minutes : Type := DailyMinutes {
  sleepdiary_sleeplatency : option Q;
  sleepdiary_naptime : option Q;
  night_awakening_time : option Q;
  socialize_min : option Q;
  alcohol_bev : option Q
}.

(** [data.loc[data[col] > bound, col] = np.nan] on one cell. *)
Definition nan_above (bound : Q) (x : option Q) : option Q :=
  match x with
  | Some v => if Qlt_bool bound v then None else Some v
  | None => None
  end.

Definition remove_impossible (r : daily_minutes) : daily_minutes :=
  {| sleepdiary_sleeplatency := nan_above (24 * 60) (sleepdiary_sleeplatency r);
     sleepdiary_naptime := nan_above (24 * 60) (sleepdiary_naptime r);
     night_awakening_time := nan_above (24 * 60) (night_awakening_time r);
     socialize_min := nan_above (24 * 60) (socialize_min r);
     alcohol_bev := nan_above 48 (alcohol_bev r) |}.

(** * Calculated variables *)

(** ** Floats with infinities

    The sleep efficiency is a quotient that may have a zero divisor: a
    float is a rational, an infinity or NaN.  Zero is unsigned (the
    durations of [calc_sleep_time] are never the negative zero). *)

Inductive float : Type :=
  | Fin (q : Q)
  | PInf
  | NInf
  | NaN.

Definition float_of (x : option Q) : float :=
  match x with Some q => Fin q | None => NaN end.

Definition fadd (x y : float) : float :=
  match x, y with
  | NaN, _ | _, NaN => NaN
  | Fin a, Fin b => Fin (a + b)
  | PInf, NInf | NInf, PInf => NaN
  | PInf, _ | _, PInf => PInf
  | NInf, _ | _, NInf => NInf
  end.

Definition fopp (x : float) : float :=
  match x with
  | Fin a => Fin (- a)
  | PInf => NInf
  | NInf => PInf
  | NaN => NaN
  end.

Definition fsub (x y : float) : float := fadd x (fopp y).

Definition fdiv (x y : float) : float :=
  match x, y with
  | NaN, _ | _, NaN => NaN
  | Fin a, Fin b =>
      if Qeq_bool b 0
      then (if Qlt_bool 0 a then PInf else if Qlt_bool a 0 then NInf else NaN)
      else Fin (a / b)
  | Fin _, (PInf | NInf) => Fin 0
  | (PInf | NInf), (PInf | NInf) => NaN
  | PInf, Fin b => if Qlt_bool b 0 then NInf else PInf
  | NInf, Fin b => if Qlt_bool b 0 then PInf else NInf
  end.

(** [x < y], [x > y], [x == y]: false when an operand is NaN. *)
Definition flt (x y : float) : bool :=
  match x, y with
  | NaN, _ | _, NaN => false
  | Fin a, Fin b => Qlt_bool a b
  | NInf, (Fin _ | PInf) => true
  | Fin _, PInf => true
  | _, _ => false
  end.
Definition fgt (x y : float) : bool := flt y x.
Definition feq (x y : float) : bool :=
  match x, y with
  | Fin a, Fin b => Qeq_bool a b
  | PInf, PInf | NInf, NInf => true
  | _, _ => false
  end.

(** ** Sleep efficiency of the daily survey (lines 1317-1327) *)

Record sleep_vars : Type := SleepVars {
  SE : float;
  TST : float;
  TIB : float;
  sleepattempt : float
}.

(** [TST] after lines 1318-1320 and [SE] after line 1323, from the two
    durations of [calc_sleep_time] and the two minute counts of the row. *)
Definition TST_1320 (attempt night_awakening latency : float) : float :=
  let tst := fsub attempt (fdiv (fadd night_awakening latency) (Fin 60)) in
  if flt tst (Fin 0) then NaN else tst.

Definition SE_1323 (tib attempt night_awakening latency : float) : float :=
  fdiv (TST_1320 attempt night_awakening latency) tib.

Definition all_nan : sleep_vars := SleepVars NaN NaN NaN NaN.

Definition sleep_efficiency (tib attempt night_awakening latency : float)
    : sleep_vars :=
  let r := SleepVars (SE_1323 tib attempt night_awakening latency)
                     (TST_1320 attempt night_awakening latency)
                     tib attempt in
  (* Replace apparent mistakes with missing values *)
  let r := if fgt (SE r) (Fin 1) then all_nan else r in
  if feq (TIB r) (Fin 0) then all_nan else r.

(** The daily table: the four clock times and the two minute counts of each
    row, lines 1307-1327. *)
Record sleep_diary : Type := SleepDiary {
  sleepdiary_bedtime : option Z;
  sleepdiary_fallasleep : option Z;
  sleepdiary_waketime : option Z;
  sleepdiary_outofbed : option Z;
  diary_night_awakening_time : option Q;
  diary_sleeplatency : option Q
}.

Definition daily_sleep (data : list sleep_diary) : outcome (list sleep_vars) :=
  tib ← calc_sleep_time (sleepdiary_bedtime <$> data) (sleepdiary_outofbed <$> data)
                        true 3;
  att ← calc_sleep_time (sleepdiary_fallasleep <$> data) (sleepdiary_waketime <$> data)
                        true 2;
  mret (zip_with (fun (ta : option Q * option Q) r =>
                    sleep_efficiency (float_of ta.1) (float_of ta.2)
                      (float_of (diary_night_awakening_time r))
                      (float_of (diary_sleeplatency r)))
                 (zip tib.1 att.1) data).

(** ** Summed scales

    A row of item responses maps a column name to its integer code; a
    missing response is an absent key. *)

(** [data[cols].sum(axis=1, skipna=False)] on one row. *)
Definition sum_skipna_false (cols : list string) (r : gmap string Z) : option Z :=
  foldr (fun c acc => x ← r !! c; s ← acc; Some (x + s)) (Some 0) cols.

Definition panas_pa_vars : list string :=
  ["panas_interested3"; "panas_excited3"; "panas_strong3";
   "panas_enthusiastic3"; "panas_proud3"; "panas_alert3";
   "panas_inspired3"; "panas_determined3"; "panas_attentive3";
   "panas_active3"].

Definition panas_na_vars : list string :=
  ["panas_distressed3"; "panas_upset3"; "panas_guilty3";
   "panas_scared3"; "panas_hostile3"; "panas_irritable3";
   "panas_ashamed3"; "panas_nervous3"; "panas_jittery3";
   "panas_afraid3"].

Definition worry_vars : list string :=
  ["worry_health"; "family_health"; "community_1health";
   "national_health"; "worry_finances"].

Definition depression_vars : list string :=
  ["depression1"; "depression2"; "depression3"; "depression4";
   "depression5"; "depression6"; "depression7"; "depression8"].

Definition PANAS_PA := sum_skipna_false panas_pa_vars.
Definition PANAS_NA := sum_skipna_false panas_na_vars.
Definition worry_scale := sum_skipna_false worry_vars.
Definition PHQ9 := sum_skipna_false depression_vars.

(** Round 1, [PSQIDAYDYS] (lines 1408-1411). *)
Definition PSQIDAYDYS (r : gmap string Z) : option Z :=
  let x := sum_skipna_false ["psqi_8"; "psqi_9"] r in
  let x := if bool_decide (x = Some 1 ∨ x = Some 2) then Some 1 else x in
  let x := if bool_decide (x = Some 3 ∨ x = Some 4) then Some 2 else x in
  if bool_decide (x = Some 5 ∨ x = Some 6) then Some 3 else x.

(** Round 2, [PSS_TOTAL] (lines 1559-1560): forward items plus the
    reverse-scored ones. *)
Definition PSS_TOTAL (r : gmap string Z) : option Z :=
  a ← sum_skipna_false ["pss_1"; "pss_2"; "pss_3"; "pss_6"; "pss_9"; "pss_10"] r;
  b ← sum_skipna_false ["pss_4"; "pss_5"; "pss_7"; "pss_8"] ((fun v => 4 - v) <$> r);
  Some (a + b).

(** The scales above, with the items each one sums. *)
Definition summed_scales : list (list string * (gmap string Z → option Z)) :=
  [ (panas_pa_vars, PANAS_PA);
    (panas_na_vars, PANAS_NA);
    (worry_vars, worry_scale);
    (depression_vars, PHQ9);
    (["psqi_8"; "psqi_9"], PSQIDAYDYS);
    (["pss_1"; "pss_2"; "pss_3"; "pss_6"; "pss_9"; "pss_10";
      "pss_4"; "pss_5"; "pss_7"; "pss_8"], PSS_TOTAL) ].

(** Round 1, [PSQIDISTB] (lines 1387-1394).  [psqi_5j2] is the free-text
    companion of item [psqi_5j]; the columns from [psqi_5b] to [psqi_5j]
    are the nine items. *)
Definition psqi_5b_5j : list string :=
  ["psqi_5b"; "psqi_5c"; "psqi_5d"; "psqi_5e"; "psqi_5f"; "psqi_5g";
   "psqi_5h"; "psqi_5i"; "psqi_5j"].

Definition z_between (lo hi : Z) (x : option Z) : bool :=
  match x with Some v => (lo <=? v) && (v <=? hi) | None => false end.

Definition PSQIDISTB (psqi_5j2 : option string) (r : gmap string Z) : option Z :=
  let r := if isna psqi_5j2 || isna (r !! "psqi_5j") then <["psqi_5j" := 0]> r else r in
  let x := sum_skipna_false psqi_5b_5j r in
  let x := if z_between 1 9 x then Some 1 else x in
  let x := if z_between 10 18 x then Some 2 else x in
  match x with
  | Some v => if 18 <? v then Some 3 else x
  | None => None
  end.

(** The column over the table, with the assertion of line 1394. *)
Definition PSQIDISTB_column (r1 : list (option string * gmap string Z))
    : outcome (list (option Z)) :=
  let col := (fun r => PSQIDISTB r.1 r.2) <$> r1 in
  _ ← assert (forallb (fun x => bool_decide (x ∈ [None; Some 0; Some 1; Some 2; Some 3]))
                      col);
  mret col.

(** * Pittsburgh Sleep Quality Index, round 1 (lines 1379-1431)

    The items [psqi_5a] ... [psqi_5j] and [psqi_6] ... [psqi_9] are the
    rescaled ones (lines 849-850), [psqi_4] the hours slept, [psqi_2] the
    minutes to fall asleep, [psqi_1] and [psqi_3] the bed and rising
    times. *)

Definition fl_ge (a : option Q) (b : Q) : bool :=
  match a with Some x => Qle_bool b x | None => false end.
Definition fl_gt (a : option Q) (b : Q) : bool :=
  match a with Some x => Qlt_bool b x | None => false end.

(** Duration of sleep, lines 1381-1385: four assignments in sequence. *)
Definition PSQIDURAT (psqi_4 : option Q) : option Z :=
  let x := None in
  let x := if fl_ge psqi_4 7 then Some 0 else x in
  let x := if fl_lt psqi_4 7 then Some 1 else x in
  let x := if fl_lt psqi_4 6 then Some 2 else x in
  if fl_lt psqi_4 5 then Some 3 else x.

(** Sleep latency, lines 1396-1400. *)
Definition psqi_2NEW (psqi_2 : option Q) : option Z :=
  let x := None in
  let x := if fl_between 0 15 psqi_2 then Some 0 else x in
  let x := if fl_gt psqi_2 15 then Some 1 else x in
  let x := if fl_gt psqi_2 30 then Some 2 else x in
  if fl_gt psqi_2 60 then Some 3 else x.

(** [.isin([1, 2])] to 1, [.isin([3, 4])] to 2, [.isin([5, 6])] to 3. *)
Definition band_pairs (x : option Z) : option Z :=
  let x := if bool_decide (x = Some 1 ∨ x = Some 2) then Some 1 else x in
  let x := if bool_decide (x = Some 3 ∨ x = Some 4) then Some 2 else x in
  if bool_decide (x = Some 5 ∨ x = Some 6) then Some 3 else x.

(** Lines 1402-1405. *)
Definition PSQILATEN (psqi_2 : option Q) (r : gmap string Z) : option Z :=
  band_pairs (x ← psqi_2NEW psqi_2; y ← r !! "psqi_5a"; Some (x + y)).

Definition fge (x y : float) : bool := flt y x || feq x y.

(** Lines 1415-1417: the efficiency, then the two replacements, the
    second one testing the efficiency the first one has just changed. *)
Definition PSQI_sleep_eff (psqi_4 tib : option Q) : float :=
  let eff := fdiv (float_of psqi_4) (float_of tib) in
  if fgt eff (Fin 1) then NaN else eff.

Definition PSQI_TIB (psqi_4 tib : option Q) : float :=
  if fgt (PSQI_sleep_eff psqi_4 tib) (Fin 1) then NaN else float_of tib.

(** Sleep efficiency category, lines 1419-1423. *)
Definition PSQIHSE (eff : float) : option Z :=
  let x := None in
  let x := if fge eff (Fin (85 # 100)) then Some 0 else x in
  let x := if fge eff (Fin (75 # 100)) && flt eff (Fin (85 # 100)) then Some 1 else x in
  let x := if fge eff (Fin (65 # 100)) && flt eff (Fin (75 # 100)) then Some 2 else x in
  if flt eff (Fin (65 # 100)) then Some 3 else x.

Record psqi_row : Type := PsqiRow {
  psqi_1 : option Z;
  psqi_3 : option Z;
  psqi_2 : option Q;
  psqi_4 : option Q;
  psqi_5j2 : option string;
  psqi_items : gmap string Z
}.

(** The seven components of one row, given its time in bed. *)
Definition PSQI_components (tib : option Q) (r : psqi_row) : list (option Z) :=
  [ PSQIDURAT (psqi_4 r);
    PSQIDISTB (psqi_5j2 r) (psqi_items r);
    PSQILATEN (psqi_2 r) (psqi_items r);
    PSQIDAYDYS (psqi_items r);
    PSQIHSE (PSQI_sleep_eff (psqi_4 r) tib);
    psqi_items r !! "psqi_6";
    psqi_items r !! "psqi_7" ].

(** [.sum(axis=1, skipna=False)] over computed columns. *)
Definition sum_options (l : list (option Z)) : option Z :=
  foldr (fun c acc => x ← c; s ← acc; Some (x + s)) (Some 0) l.

Definition isin_0_3 (x : option Z) : bool :=
  bool_decide (x ∈ [None; Some 0; Some 1; Some 2; Some 3]).

(** The whole block over the round 1 table: the totals and the times in
    bed it leaves, or the first assertion that fails.  The items being
    integers, the assertion of line 1390 (a whole-number sum) holds by
    construction and is not written. *)
Definition PSQI_round1 (r1 : list psqi_row) : outcome (list (option Z) * list float) :=
  _ ← assert (forallb isin_0_3 ((fun r => PSQIDURAT (psqi_4 r)) <$> r1));
  _ ← assert (forallb isin_0_3 ((fun r => PSQIDISTB (psqi_5j2 r) (psqi_items r)) <$> r1));
  _ ← assert (forallb isin_0_3 ((fun r => psqi_2NEW (psqi_2 r)) <$> r1));
  _ ← assert (forallb isin_0_3 ((fun r => PSQILATEN (psqi_2 r) (psqi_items r)) <$> r1));
  tib ← calc_sleep_time (psqi_1 <$> r1) (psqi_3 <$> r1) true 3;
  let PSQI_TOTAL := zip_with (fun t r => sum_options (PSQI_components t r)) tib.1 r1 in
  _ ← assert (forallb (fun x => z_between 0 21 x || isna x) PSQI_TOTAL);
  mret (PSQI_TOTAL, zip_with (fun t r => PSQI_TIB (psqi_4 r) t) tib.1 r1).

(** A component score, or an item: missing, or one of 0, 1, 2, 3. *)
Definition in_0_3 (x : option Z) : Prop :=
  x = None ∨ ∃ v, x = Some v ∧ 0 ≤ v ≤ 3.

(** The item columns the block reads. *)
Definition psqi_item_names : list string :=
  ["psqi_5a"] ++ psqi_5b_5j ++ ["psqi_6"; "psqi_7"; "psqi_8"; "psqi_9"].

Definition items_in_0_3 (r : gmap string Z) : Prop :=
  ∀ c v, c ∈ psqi_item_names → r !! c = Some v → 0 ≤ v ≤ 3.

(** * Further formatting and scores *)

(** ** The check of line 817

    [assert not (data['night_awakening_time'] > 24*60).any()] *)
Definition night_awakening_checked (data : list daily_minutes) : outcome unit :=
  assert (negb (existsb (fun r => fl_gt (night_awakening_time r) (24 * 60)) data)).

(** ** Fever temperature in Celsius (lines 1365-1368)

    The pair is [(fever_temp, fever_temp_C)] after line 1368; measure 1 is
    Celsius, measure 2 Fahrenheit, and the new column is missing on every
    other row. *)
Definition fever_temp_C (temp_measure : option Z) (fever_temp : option Q)
    : option Q * option Q :=
  let c := None in
  let c := if bool_decide (temp_measure = Some 1) then fever_temp else c in
  let c := if bool_decide (temp_measure = Some 2)
           then fmap (M:=option) (fun f => ((f - 32) * (5 / 9))%Q) fever_temp else c in
  let idx := negb (isna c) && negb (fl_between 24 44 c) in
  if idx then (None, None) else (fever_temp, c).

(** ** Munich ChronoType Questionnaire

    Round 1 computes the block twice (lines 1448-1470 and 1471-1493), rounds
    4, 5 and 8 once each (lines 1681-1703, 1776-1799, 1956-1979); the blocks
    differ in the names of their columns and in the last line of the later
    rounds. *)

Record mtq_answers : Type := MtqAnswers {
  mtq_workdays : Series Z;
  mtq_workday_sleeponset : Series Z;
  mtq_workday_sleepend : Series Z;
  mtq_freeday_sleeponset : Series Z;
  mtq_freeday_sleepend : Series Z
}.

Record mtq_scores : Type := MtqScores {
  mtq_workday_sleepduration : Series Q;
  mtq_freeday_sleepduration : Series Q;
  mtq_workday_sleepmidpoint : Series Z;
  mtq_freeday_sleepmidpoint : Series Z;
  mtq_avg_wk_sleepduration : Series Q;
  mtq_chronotype : Series Z
}.

(** [(workday * workdays + freeday * freedays) / 7] on one row, with
    [freedays = 7 - workdays]. *)
Definition avg_wk_sleepduration (workdays : option Z) (workday freeday : option Q)
    : option Q :=
  match workdays, workday, freeday with
  | Some n, Some w, Some f => Some ((w * inject_Z n + f * inject_Z (7 - n)) / 7)%Q
  | _, _, _ => None
  end.

(** [idx] on one row: the free-day duration is greater than the work-day
    duration; a comparison with a missing duration is false. *)
Definition oversleeps (freeday workday : option Q) : bool :=
  match freeday, workday with
  | Some f, Some w => Qlt_bool w f
  | _, _ => false
  end.

(** The chronotype of one row: the free-day midpoint, less half the
    oversleep of the free days where there is one, rounded to the minute. *)
Definition chronotype_row (midpoint : option Z) (freeday workday : option Q)
    : option Z :=
  let idx := oversleeps freeday workday in
  let c := if idx
           then td_sub midpoint
                  (match freeday, workday with
                   | Some f, Some w => Some (Timedelta_of_hours ((f - w) / 2))
                   | _, _ => None
                   end)
           else midpoint in
  fmap (M:=option) (round_half_even ns_per_min) c.

Definition mtq (a : mtq_answers) : outcome mtq_scores :=
  wd ← calc_sleep_time (mtq_workday_sleeponset a) (mtq_workday_sleepend a) true 2;
  fd ← calc_sleep_time (mtq_freeday_sleeponset a) (mtq_freeday_sleepend a) true 2;
  wm ← calc_sleep_midpoint (mtq_workday_sleeponset a) (mtq_workday_sleepend a) true 2;
  fm ← calc_sleep_midpoint (mtq_freeday_sleeponset a) (mtq_freeday_sleepend a) true 2;
  let avg := zip_with (fun n wf => avg_wk_sleepduration n wf.1 wf.2)
                      (mtq_workdays a) (zip wd.1 fd.1) in
  let idx := zip_with oversleeps fd.1 wd.1 in
  (* With no row selected, [apply(pd.Timedelta, unit='hours')] hands back
     the empty selection of numbers as it is, and subtracting numbers from
     the Timedelta column is a TypeError. *)
  _ ← check_type (existsb id idx);
  let chronotype := zip_with (fun m fw => chronotype_row m fw.1 fw.2)
                             fm (zip fd.1 wd.1) in
  mret (MtqScores wd.1 fd.1 wm fm avg chronotype).

(** The four clock-time columns pass the range check of [calc_sleep_time]. *)
Definition valid_answers (a : mtq_answers) : bool :=
  valid_times (mtq_workday_sleeponset a) && valid_times (mtq_workday_sleepend a)
  && valid_times (mtq_freeday_sleeponset a) && valid_times (mtq_freeday_sleepend a).

(** Some row of the answers has a free-day duration greater than its
    work-day duration. *)
Definition has_oversleep (a : mtq_answers) : bool :=
  existsb id
    (zip_with oversleeps
       (zip_with (st_row true 2) (mtq_freeday_sleepend a) (mtq_freeday_sleeponset a))
       (zip_with (st_row true 2) (mtq_workday_sleepend a) (mtq_workday_sleeponset a))).

(** Rounds 4, 5 and 8: negative chronotypes are dropped. *)
Definition mtq_drop_negative (a : mtq_answers) : outcome mtq_scores :=
  s ← mtq a;
  mret (MtqScores (mtq_workday_sleepduration s) (mtq_freeday_sleepduration s)
          (mtq_workday_sleepmidpoint s) (mtq_freeday_sleepmidpoint s)
          (mtq_avg_wk_sleepduration s)
          ((fun c => if td_lt c (Some 0) then None else c) <$> mtq_chronotype s)).

(** ** Big Five inventory (lines 1525-1544)

    A row of round 1 is the map of its answered [big5_*] items; [+] and
    [6 - x] propagate a missing item. *)

Definition col_add (x y : option Z) : option Z :=
  match x, y with Some a, Some b => Some (a + b) | _, _ => None end.

Definition six_minus (x : option Z) : option Z :=
  fmap (M:=option) (fun a => 6 - a) x.

Section big5.
Variable r : gmap string Z.
Local Infix "+'" := col_add (at level 50, left associativity).

Definition Big_5_Extraversion : option Z :=
  six_minus (r !! "big5_1") +' r !! "big5_6" +' r !! "big5_11"
  +' r !! "big5_16" +' six_minus (r !! "big5_21") +' six_minus (r !! "big5_26").
Definition Big_5_Agreeableness : option Z :=
  r !! "big5_2" +' six_minus (r !! "big5_7") +' r !! "big5_12"
  +' six_minus (r !! "big5_17") +' r !! "big5_22" +' six_minus (r !! "big5_27").
Definition Big_5_Conscientiousness : option Z :=
  six_minus (r !! "big5_3") +' six_minus (r !! "big5_8") +' r !! "big5_13"
  +' r !! "big5_18" +' r !! "big5_23" +' six_minus (r !! "big5_28").
Definition Big_5_Negative_Emotionality : option Z :=
  r !! "big5_4" +' r !! "big5_9" +' six_minus (r !! "big5_14")
  +' six_minus (r !! "big5_19") +' six_minus (r !! "big5_24") +' r !! "big5_29".
Definition Big_5_Open_Mindedness : option Z :=
  r !! "big5_5" +' six_minus (r !! "big5_10") +' r !! "big5_15"
  +' six_minus (r !! "big5_20") +' r !! "big5_25" +' six_minus (r !! "big5_30").
Definition Big_5_Sociability : option Z :=
  six_minus (r !! "big5_1") +' r !! "big5_16".
Definition Big_5_Assertiveness : option Z :=
  r !! "big5_6" +' six_minus (r !! "big5_21").
Definition Big_5_Energy_Level : option Z :=
  r !! "big5_11" +' six_minus (r !! "big5_26").
Definition Big_5_Compassion : option Z :=
  r !! "big5_2" +' six_minus (r !! "big5_17").
Definition Big_5_Respectfulness : option Z :=
  six_minus (r !! "big5_7") +' r !! "big5_22".
Definition Big_5_Trust : option Z :=
  r !! "big5_12" +' six_minus (r !! "big5_27").
Definition Big_5_Organization : option Z :=
  six_minus (r !! "big5_3") +' r !! "big5_18".
Definition Big_5_Productiveness : option Z :=
  six_minus (r !! "big5_8") +' r !! "big5_23".
Definition Big_5_Responsibility : option Z :=
  r !! "big5_13" +' six_minus (r !! "big5_28").
Definition Big_5_Anxiety : option Z :=
  r !! "big5_4" +' six_minus (r !! "big5_19").
Definition Big_5_Depression : option Z :=
  r !! "big5_9" +' six_minus (r !! "big5_24").
Definition Big_5_Emotional_Volatility : option Z :=
  six_minus (r !! "big5_14") +' r !! "big5_29".
Definition Big_5_Aesthetic_Sensitivity : option Z :=
  r !! "big5_5" +' six_minus (r !! "big5_20").
Definition Big_5_Intellectual_Curiosity : option Z :=
  six_minus (r !! "big5_10") +' r !! "big5_25".
Definition Big_5_Creative_Imagination : option Z :=
  r !! "big5_15" +' six_minus (r !! "big5_30").
End big5.

(** ** Intolerance of uncertainty (lines 1578-1580)

    The slices [iu_1:iu_7], [iu_8:iu_12] and [iu_1:iu_12] of the columns of
    round 3, which hold the twelve items in order. *)
Definition iu_1_7 : list string :=
  ["iu_1"; "iu_2"; "iu_3"; "iu_4"; "iu_5"; "iu_6"; "iu_7"].
Definition iu_8_12 : list string := ["iu_8"; "iu_9"; "iu_10"; "iu_11"; "iu_12"].
Definition iu_1_12 : list string :=
  ["iu_1"; "iu_2"; "iu_3"; "iu_4"; "iu_5"; "iu_6"; "iu_7";
   "iu_8"; "iu_9"; "iu_10"; "iu_11"; "iu_12"].
Definition IU_PA := sum_skipna_false iu_1_7.
Definition IU_IA := sum_skipna_false iu_8_12.
Definition IU_Total := sum_skipna_false iu_1_12.

(** ** School responses (lines 804-809)

    [school_replace] is read from a file and extended; the responses it does
    not produce are set missing. *)
Definition standardize_school (school_replace : gmap string string)
    (school : Series string) : Series string :=
  let school := fmap (M:=list) (fmap (M:=option) str_strip) school in
  let school := fmap (M:=list) (fmap (M:=option) (replace_dict school_replace)) school in
  let values := (map_to_list school_replace).*2 in
  (fun x => match x with
            | Some s => if bool_decide (s ∈ values) then Some s else None
            | None => None
            end) <$> school.

(** ** Vaccine type, round 9 (lines 1274-1296) *)
Definition vacc_corrections : gmap string string :=
  list_to_map
    [("JOHNSON & JOHNSON", "JJ");
     ("JOHNSON AND JOHNSON", "JJ");
     ("BIONTECH", "PFIZER");
     ("MODERNA 2 SHOTS AND PFIZER ONE SHOT", "MIXED");
     ("CORONAVAC", "SINOVAC");
     ("COVISHIELD", "ASTRAZENECA");
     ("PFIZER/BIONTECH", "PFIZER");
     ("JOHNSON&JOHNSON", "JJ");
     ("JOHNSON & JOHONSON", "JJ");
     ("PHIZER", "PFIZER");
     ("SPUTNIK V", "SPUTNIK");
     ("JENSEN", "JJ");
     ("ASTRAZENICA", "ASTRAZENECA");
     ("PFRIZER", "PFIZER");
     ("J AND J", "JJ")].

Definition vacc_types : list string :=
  ["PFIZER"; "MODERNA"; "ASTRAZENECA"; "SINOVAC"; "JJ"; "SPUTNIK"; "MIXED"].

Definition clean_vacc_type (vacc_type : Series string) : outcome (Series string) :=
  let vacc_type := fmap (M:=list) (fmap (M:=option) normalise) vacc_type in
  let vacc_type := fmap (M:=list) (fmap (M:=option) (replace_dict vacc_corrections))
                        vacc_type in
  _ ← assert (forallb (fun x => match x with
                                | Some s => bool_decide (s ∈ vacc_types)
                                | None => true
                                end) vacc_type);
  mret vacc_type.

(** * Writing clock times (lines 36-47)

    [str(td)] of a non-negative [Timedelta] that is a whole number of
    seconds reads [D days HH:MM:SS]. *)

Definition digit (n : Z) : ascii := Ascii.ascii_of_nat (48 + Z.to_nat n).

Definition two_digits (n : Z) : string :=
  String (digit (n / 10)) (String (digit (n mod 10)) EmptyString).

Definition str_Timedelta (v : Z) : string :=
  let s := v / 1000000000 in
  pretty (s / 86400) +:+ " days " +:+ two_digits (s / 3600 mod 24) +:+ ":"
  +:+ two_digits (s / 60 mod 60) +:+ ":" +:+ two_digits (s mod 60).

(** [s.split()]: the maximal runs of characters that are not white space;
    [cur] is the run being read, last character first. *)
Fixpoint str_split_from (cur : string) (s : string) : list string :=
  match s with
  | EmptyString => if decide (cur = EmptyString) then [] else [String.rev cur]
  | String c s' =>
      if is_space c
      then (if decide (cur = EmptyString) then str_split_from EmptyString s'
            else String.rev cur :: str_split_from EmptyString s')
      else str_split_from (String c cur) s'
  end.

Definition str_split (s : string) : list string := str_split_from EmptyString s.

(** [timedelta2str(td)].  The last element of the split is taken with the
    empty string as default: the text of a [Timedelta] always has one. *)
Definition timedelta2str (td : option Z) : outcome string :=
  match td with
  | None => mret EmptyString
  | Some v =>
      _ ← assert (0 <=? v);
      _ ← assert (v <=? Timedelta_hours 24);
      mret (String.substring 0 5
              (List.last (str_split (str_Timedelta (round_half_even ns_per_min v)))
                         EmptyString))
  end.

(** * The index of the daily table (lines 407-420)

    A row of the daily table, for its index: the record id, the repeated
    instrument and the two completion marks of the longer surveys. *)

Record survey_row : Type := SurveyRow {
  survey_record_id : Z;
  redcap_repeat_instrument : option string;
  april_18_complete : option Z;
  nov15_complete : option Z
}.

(** [str(x)] of a cell that holds an integer or a string. *)
Definition py_str (x : Z + string) : string :=
  match x with inl z => pretty z | inr s => s end.

(** The four assignments of lines 411-414 on one row. *)
Definition unique_id (r : survey_row) : Z + string :=
  let u := inl (survey_record_id r) in
  let u := if bool_decide (redcap_repeat_instrument r = Some "covid19")
           then inr (py_str u +:+ "L") else u in
  let u := if bool_decide (redcap_repeat_instrument r = Some "covid19_short_survey")
           then inr (py_str u +:+ "S") else u in
  let u := if negb (isna (april_18_complete r)) then inr (py_str u +:+ "LA") else u in
  if negb (isna (nov15_complete r)) then inr (py_str u +:+ "LB") else u.

(** The checks of lines 408 and 409 on one row. *)
Definition instrument_known (r : survey_row) : bool :=
  bool_decide (redcap_repeat_instrument r
               ∈ [Some "covid19"; Some "covid19_short_survey"; None]).

Definition instrument_or_mark (r : survey_row) : bool :=
  Bool.eqb (isna (redcap_repeat_instrument r))
           (negb (isna (april_18_complete r)) || negb (isna (nov15_complete r))).

Definition index_daily (data : list survey_row) : outcome (list (Z + string)) :=
  _ ← assert (forallb instrument_known data);
  _ ← assert (forallb instrument_or_mark data);
  let index := unique_id <$> data in
  _ ← assert (bool_decide (NoDup index));
  mret index.

(** What a unique id is made from. *)
Definition survey_kind (r : survey_row) : Z * option string * bool * bool :=
  (survey_record_id r, redcap_repeat_instrument r,
   isna (april_18_complete r), isna (nov15_complete r)).

(** Strings without capital letters, as the decimal numerals are. *)
Definition is_capital (c : ascii) : bool :=
  let n := Ascii.nat_of_ascii c in ((65 <=? n) && (n <=? 90))%nat.

Fixpoint no_capital (s : string) : bool :=
  match s with
  | EmptyString => true
  | String c s' => negb (is_capital c) && no_capital s'
  end.

(** * Properties *)

(** ** Arithmetic of hours *)

Lemma to_hours_spec (d : Z) : (to_hours d == d # 3600000000000)%Q.
Proof. unfold to_hours, total_seconds, Qdiv, Qinv, Qmult, Qeq; simpl. lia. Qed.

Lemma Qlt_bool_iff (x y : Q) : Qlt_bool x y = true ↔ (x < y)%Q.
Proof.
  unfold Qlt_bool. rewrite negb_true_iff, <- not_true_iff_false, Qle_bool_iff.
  split; [apply Qnot_le_lt | apply Qlt_not_le].
Qed.

Lemma to_hours_neg (d : Z) : Qlt_bool (to_hours d) 0 = true ↔ d < 0.
Proof.
  rewrite Qlt_bool_iff, to_hours_spec. unfold Qlt; simpl. lia.
Qed.

(** The duration on a 24-hour clock (lines 98-102), on one row. *)
Lemma naive_range (a b : Z) :
  0 ≤ a ≤ Timedelta_hours 24 → 0 ≤ b ≤ Timedelta_hours 24 →
  let x := to_hours (a - b) in
  (0 <= (if Qlt_bool x 0 then x + 24 else x) <= 24)%Q.
Proof.
  intros Ha Hb x. subst x. unfold Timedelta_hours, ns_per_hour in *.
  destruct (Qlt_bool (to_hours (a - b)) 0) eqn:E.
  - apply to_hours_neg in E. rewrite to_hours_spec.
    unfold Qle, Qplus; simpl. lia.
  - apply not_true_iff_false in E. rewrite to_hours_neg in E.
    rewrite to_hours_spec. unfold Qle; simpl. lia.
Qed.

(** ** [calc_sleep_time] row by row *)

Lemma valid_times_cons x (s : Series Z) :
  valid_times (x :: s) = true ↔
  (td_between 0 (Timedelta_hours 24) x || isna x = true) ∧ valid_times s = true.
Proof. unfold valid_times; simpl. apply andb_true_iff. Qed.

Lemma st_12_range c12 (a b : option Z) :
  td_between 0 (Timedelta_hours 24) a || isna a = true →
  td_between 0 (Timedelta_hours 24) b || isna b = true →
  fl_between 0 24 (st_12 c12 a b) || isna (st_12 c12 a b) = true.
Proof.
  destruct a as [a|], b as [b|];
    try (intros _ _; unfold st_12, st_24; simpl; by destruct (_ && _)).
  simpl. rewrite !orb_false_r, !andb_true_iff, !Z.leb_le. intros Ha Hb.
  pose proof (naive_range a b Ha Hb) as Hn. simpl in Hn.
  unfold st_12, st_24. simpl.
  destruct (c12 && idx_correct_12 (Some a) (Some b)) eqn:E; simpl.
  - rewrite orb_false_r, andb_true_iff, !Qle_bool_iff.
    apply andb_true_iff in E as [_ E]. unfold idx_correct_12, first_half in E.
    simpl in E. rewrite !andb_true_iff, !Z.leb_le, !Z.ltb_lt in E.
    unfold Timedelta_hours, ns_per_hour in *.
    assert (Hneg : Qlt_bool (to_hours (a - b)) 0 = true) by (apply to_hours_neg; lia).
    rewrite Hneg. rewrite to_hours_spec. unfold Qle, Qplus; simpl. lia.
  - rewrite orb_false_r, andb_true_iff, !Qle_bool_iff. exact Hn.
Qed.

Lemma st_24_series (awake bed : Series Z) :
  fmap (M:=list) (fmap (M:=option) (fun x => if Qlt_bool x 0 then (x + 24)%Q else x))
    (fmap (M:=list) (fmap (M:=option) to_hours) (zip_with td_sub awake bed))
  = zip_with st_24 awake bed.
Proof.
  revert bed. induction awake as [|a awake IH]; intros [|b bed]; simpl; try done;
    f_equal; apply IH.
Qed.

Lemma st_12_series c12 (awake bed : Series Z) :
  (if c12 : bool
   then zip_with (fun (i : bool) x =>
                    if i then fmap (M:=option) (fun v => (v + -12)%Q) x else x)
          (zip_with idx_correct_12 awake bed) (zip_with st_24 awake bed)
   else zip_with st_24 awake bed)
  = zip_with (st_12 c12) awake bed.
Proof.
  destruct c12.
  - revert bed. induction awake as [|a awake IH]; intros [|b bed]; simpl; try done;
      f_equal; apply IH.
  - revert bed. induction awake as [|a awake IH]; intros [|b bed]; simpl; try done;
      f_equal; apply IH.
Qed.

Lemma st_12_series_range c12 (awake bed : Series Z) :
  valid_times bed = true → valid_times awake = true →
  forallb (fun x => fl_between 0 24 x || isna x) (zip_with (st_12 c12) awake bed) = true.
Proof.
  revert bed. induction awake as [|a awake IH]; intros [|b bed]; try done.
  rewrite !valid_times_cons. intros [Hb Hbed] [Ha Hawake]. simpl.
  apply andb_true_iff. split; [by apply st_12_range | by apply IH].
Qed.

Lemma st_row_series c12 m (awake bed : Series Z) :
  (if Qeq_bool m 0 then zip_with (st_12 c12) awake bed
   else zip_with (fun x ab => if idx_min_12 m x ab.1 ab.2 then None else x)
          (zip_with (st_12 c12) awake bed) (zip awake bed))
  = zip_with (st_row c12 m) awake bed.
Proof.
  unfold st_row. destruct (Qeq_bool m 0); simpl.
  - done.
  - revert bed. induction awake as [|a awake IH]; intros [|b bed]; simpl; try done;
      f_equal; apply IH.
Qed.

Lemma corr12_series (awake bed : Series Z) :
  fmap (M:=list) (fun i : bool => if i then 1 else 0) (zip_with idx_correct_12 awake bed)
  = zip_with corr12_row awake bed.
Proof.
  revert bed. induction awake as [|a awake IH]; intros [|b bed]; simpl; try done;
    f_equal; apply IH.
Qed.

(** On columns that pass the range check, [calc_sleep_time] returns, and
    its result is the row-wise one. *)
Lemma calc_sleep_time_rows (bed_time awake_time : Series Z) c12 m :
  valid_times bed_time = true → valid_times awake_time = true →
  calc_sleep_time bed_time awake_time c12 m
  = Returns (zip_with (st_row c12 m) awake_time bed_time,
             if c12 then Some (zip_with corr12_row awake_time bed_time) else None).
Proof.
  intros Hb Ha. unfold calc_sleep_time. rewrite Hb, Ha. simpl.
  rewrite st_24_series, st_12_series, (st_12_series_range c12 _ _ Hb Ha). simpl.
  rewrite st_row_series, corr12_series. reflexivity.
Qed.

Lemma calc_sleep_time_invalid_bed (bed_time awake_time : Series Z) c12 m :
  valid_times bed_time = false →
  calc_sleep_time bed_time awake_time c12 m = Raises ValueError.
Proof. intros H. unfold calc_sleep_time. by rewrite H. Qed.

Lemma calc_sleep_time_invalid_awake (bed_time awake_time : Series Z) c12 m :
  valid_times awake_time = false →
  calc_sleep_time bed_time awake_time c12 m = Raises ValueError.
Proof.
  intros H. unfold calc_sleep_time. rewrite H.
  by destruct (valid_times bed_time).
Qed.

(** ** Reading the masks *)

Lemma zip_with_lookup {A B C} (f : A → B → C) (l : list A) (k : list B) i x y :
  l !! i = Some x → k !! i = Some y → zip_with f l k !! i = Some (f x y).
Proof. intros Hl Hk. by rewrite lookup_zip_with, Hl, Hk. Qed.

Lemma valid_times_lookup (s : Series Z) (i : nat) (v : Z) :
  valid_times s = true → s !! i = Some (Some v) → 0 ≤ v ≤ Timedelta_hours 24.
Proof.
  unfold valid_times. rewrite forallb_forall. intros H Hi.
  specialize (H (Some v)). simpl in H.
  rewrite orb_false_r, andb_true_iff, !Z.leb_le in H.
  apply H, list_elem_of_In. eapply list_elem_of_lookup_2; eauto.
Qed.

Lemma first_half_iff (a b : Z) :
  first_half (Some a) (Some b) = true ↔
  Timedelta_hours 1 ≤ a < Timedelta_hours 13 ∧ Timedelta_hours 1 ≤ b < Timedelta_hours 13.
Proof.
  unfold first_half; simpl. rewrite !andb_true_iff, !Z.leb_le, !Z.ltb_lt. lia.
Qed.

Lemma idx_correct_12_iff (a b : Z) :
  idx_correct_12 (Some a) (Some b) = true ↔
  a < b ∧ Timedelta_hours 1 ≤ a < Timedelta_hours 13
        ∧ Timedelta_hours 1 ≤ b < Timedelta_hours 13.
Proof.
  unfold idx_correct_12. rewrite andb_true_iff, first_half_iff. simpl.
  rewrite Z.ltb_lt. tauto.
Qed.

Lemma st_24_some (a b : Z) :
  ∃ d, st_24 (Some a) (Some b) = Some d ∧
       (d == ((a - b) # 3600000000000) + (if a <? b then 24 else 0))%Q.
Proof.
  unfold st_24; simpl. eexists; split; [reflexivity|].
  destruct (Qlt_bool (to_hours (a - b)) 0) eqn:E.
  - apply to_hours_neg in E. assert ((a <? b) = true) as -> by (apply Z.ltb_lt; lia).
    by rewrite to_hours_spec.
  - apply not_true_iff_false in E. rewrite to_hours_neg in E.
    assert ((a <? b) = false) as -> by (apply Z.ltb_ge; lia).
    rewrite to_hours_spec. ring.
Qed.

(** ** Durations without the 12-hour correction *)

(** C4. With [correct_12] off (and [min_12] left at its default 0), for
    columns that pass the range check [calc_sleep_time] returns a duration
    in [0, 24] hours on every row whose two clock times are present, and
    exactly 0 when the two are equal. *)
Theorem calc_sleep_time_plain_range (bed_time awake_time : Series Z) :
  valid_times bed_time = true → valid_times awake_time = true →
  ∃ st, calc_sleep_time bed_time awake_time false 0 = Returns (st, None) ∧
    ∀ (i : nat) (a b : Z),
      bed_time !! i = Some (Some a) → awake_time !! i = Some (Some b) →
      ∃ d, st !! i = Some (Some d) ∧ (0 <= d <= 24)%Q ∧ (a = b → (d == 0)%Q).
Proof.
  intros Hb Ha. eexists. split; [by apply calc_sleep_time_rows|].
  intros i a b Hia Hib.
  pose proof (valid_times_lookup _ _ _ Hb Hia) as Hva.
  pose proof (valid_times_lookup _ _ _ Ha Hib) as Hvb.
  eexists. split; [|split].
  - rewrite (zip_with_lookup _ _ _ _ _ _ Hib Hia). reflexivity.
  - apply (naive_range b a Hvb Hva).
  - intros ->. simpl. rewrite Z.sub_diag. reflexivity.
Qed.

(** Bed 22:30, out of bed 07:15: 8.75 hours. *)
Lemma calc_sleep_time_plain_range_2230_0715 :
  ∃ st, calc_sleep_time [Some (clock 22 30)] [Some (clock 7 15)] false 0
        = Returns (st, None) ∧
    ∀ (i : nat) (a b : Z),
      [Some (clock 22 30)] !! i = Some (Some a) →
      [Some (clock 7 15)] !! i = Some (Some b) →
      ∃ d, st !! i = Some (Some d) ∧ (0 <= d <= 24)%Q ∧ (a = b → (d == 0)%Q).
Proof.
  apply (calc_sleep_time_plain_range [Some (clock 22 30)] [Some (clock 7 15)]);
    reflexivity.
Defined.

(** ** The 12-hour correction *)

(** C1 (as the code has it). With [correct_12] on, the subtract-12 branch
    fires on a row exactly when the offset is before the onset and both lie
    in [[1h, 13h)]: then the flag is 1 and the duration is the 24-hour one
    minus 12; otherwise the flag is 0 and the duration is the 24-hour one.
    With [min_12 = 0] no duration is dropped. *)
Theorem calc_sleep_time_correct_12 (bed_time awake_time : Series Z) (min_12 : Q) :
  valid_times bed_time = true → valid_times awake_time = true →
  ∃ st corr12,
    calc_sleep_time bed_time awake_time true min_12 = Returns (st, Some corr12) ∧
    ∀ (i : nat) (onset offset : Z),
      bed_time !! i = Some (Some onset) → awake_time !! i = Some (Some offset) →
      let fires := offset < onset
                   ∧ Timedelta_hours 1 ≤ offset < Timedelta_hours 13
                   ∧ Timedelta_hours 1 ≤ onset < Timedelta_hours 13 in
      let naive := (((offset - onset) # 3600000000000)
                    + (if offset <? onset then 24 else 0))%Q in
      (fires → corr12 !! i = Some 1) ∧
      (¬ fires → corr12 !! i = Some 0) ∧
      (∀ d, st !! i = Some (Some d) →
            (fires → (d == naive - 12)%Q) ∧ (¬ fires → (d == naive)%Q)) ∧
      ((min_12 == 0)%Q → ∃ d, st !! i = Some (Some d)).
Proof.
  intros Hb Ha. do 2 eexists. split; [by rewrite calc_sleep_time_rows|].
  intros i onset offset Hi Hj fires naive.
  rewrite !(zip_with_lookup _ _ _ _ _ _ Hj Hi).
  unfold corr12_row, st_row, st_12.
  destruct (st_24_some offset onset) as (d0 & -> & Hd0). fold naive in Hd0.
  destruct (idx_correct_12 (Some offset) (Some onset)) eqn:E; simpl.
  - apply idx_correct_12_iff in E. repeat split; try done.
    + intros _. destruct (_ && _); simplify_eq. rewrite Hd0. ring.
    + intros Hm. apply Qeq_bool_iff in Hm. rewrite Hm. simpl. eauto.
  - apply not_true_iff_false in E. rewrite idx_correct_12_iff in E.
    repeat split; try done.
    + intros _. destruct (_ && _); simplify_eq. done.
    + intros Hm. apply Qeq_bool_iff in Hm. rewrite Hm. simpl. eauto.
Qed.

(** Onset 02:00, offset 01:50: the branch fires, 11h50m. *)
Lemma calc_sleep_time_correct_12_0200_0150 :
  ∃ st corr12,
    calc_sleep_time [Some (clock 2 0)] [Some (clock 1 50)] true 0
    = Returns (st, Some corr12) ∧
    ∀ (i : nat) (onset offset : Z),
      [Some (clock 2 0)] !! i = Some (Some onset) →
      [Some (clock 1 50)] !! i = Some (Some offset) →
      let fires := offset < onset
                   ∧ Timedelta_hours 1 ≤ offset < Timedelta_hours 13
                   ∧ Timedelta_hours 1 ≤ onset < Timedelta_hours 13 in
      let naive := (((offset - onset) # 3600000000000)
                    + (if offset <? onset then 24 else 0))%Q in
      (fires → corr12 !! i = Some 1) ∧
      (¬ fires → corr12 !! i = Some 0) ∧
      (∀ d, st !! i = Some (Some d) →
            (fires → (d == naive - 12)%Q) ∧ (¬ fires → (d == naive)%Q)) ∧
      ((0 == 0)%Q → ∃ d, st !! i = Some (Some d)).
Proof.
  apply (calc_sleep_time_correct_12 [Some (clock 2 0)] [Some (clock 1 50)] 0);
    reflexivity.
Defined.

(** C1 (as stated) fails at its own example: onset 01:00, offset 00:50.
    The offset is before 1:00, the branch does not fire: the duration stays
    23h50m and the flag stays 0. *)
Lemma correct_12_not_at_0100_0050 :
  ∃ q, calc_sleep_time [Some (clock 1 0)] [Some (clock 0 50)] true 0
       = Returns ([Some q], Some [0])
       ∧ (q == 23 + 50 / 60)%Q ∧ ¬ (q == 11 + 50 / 60)%Q.
Proof.
  eexists. split; [vm_compute; reflexivity|]. split; [reflexivity|].
  intros H. vm_compute in H. discriminate H.
Qed.

(** Bed 22:30 and out of bed 07:15, without correction: 8.75 hours. *)
Example calc_sleep_time_2230_0715 :
  ∃ q, calc_sleep_time [Some (clock 22 30)] [Some (clock 7 15)] false 0
       = Returns ([Some q], None)
       ∧ (q == 35 / 4)%Q.
Proof. eexists. split; [vm_compute; reflexivity | reflexivity]. Qed.

(** ** The ambiguity floor *)

Lemma st_12_some (c12 : bool) (a b : Z) :
  ∃ d, st_12 c12 (Some a) (Some b) = Some d ∧
       (d == ((a - b) # 3600000000000) + (if a <? b then 24 else 0)
             - (if c12 && idx_correct_12 (Some a) (Some b) then 12 else 0))%Q.
Proof.
  unfold st_12. destruct (st_24_some a b) as (d0 & -> & Hd0).
  destruct (c12 && idx_correct_12 (Some a) (Some b)); simpl;
    eexists; (split; [reflexivity|]); rewrite Hd0; ring.
Qed.

(** C2 (as the code has it). With a non-zero [min_12], a row with both
    clock times present is set to missing exactly when its duration (the
    24-hour one, less 12 if the 12-hour correction is enabled and fires) is
    below [min_12] and both times lie in [[1h, 13h)]; every other row keeps
    its duration. *)
Theorem calc_sleep_time_min_12 (bed_time awake_time : Series Z)
    (correct_12 : bool) (min_12 : Q) :
  valid_times bed_time = true → valid_times awake_time = true →
  ¬ (min_12 == 0)%Q →
  ∃ st corr12,
    calc_sleep_time bed_time awake_time correct_12 min_12 = Returns (st, corr12) ∧
    ∀ (i : nat) (onset offset : Z),
      bed_time !! i = Some (Some onset) → awake_time !! i = Some (Some offset) →
      let first_half_of_cycle :=
        Timedelta_hours 1 ≤ offset < Timedelta_hours 13
        ∧ Timedelta_hours 1 ≤ onset < Timedelta_hours 13 in
      let fires :=
        bool_decide (correct_12 = true ∧ offset < onset ∧ first_half_of_cycle) in
      let d := (((offset - onset) # 3600000000000)
                + (if offset <? onset then 24 else 0)
                - (if fires then 12 else 0))%Q in
      let ambiguous := (d < min_12)%Q ∧ first_half_of_cycle in
      (ambiguous → st !! i = Some None) ∧
      (¬ ambiguous → ∃ d', st !! i = Some (Some d') ∧ (d' == d)%Q).
Proof.
  intros Hb Ha Hm. do 2 eexists. split; [by rewrite calc_sleep_time_rows|].
  intros i onset offset Hi Hj first_half_of_cycle fires d ambiguous.
  rewrite (zip_with_lookup _ _ _ _ _ _ Hj Hi).
  destruct (st_12_some correct_12 offset onset) as (d0 & Hd0 & Heq).
  assert (Hfires : correct_12 && idx_correct_12 (Some offset) (Some onset) = fires).
  { subst fires first_half_of_cycle. destruct correct_12; simpl.
    - destruct (idx_correct_12 (Some offset) (Some onset)) eqn:E; symmetry.
      + apply bool_decide_eq_true_2. apply idx_correct_12_iff in E. tauto.
      + apply bool_decide_eq_false_2. intros (_ & H1 & H2 & H3).
        apply not_true_iff_false in E. apply E, idx_correct_12_iff. tauto.
    - first [done | symmetry; apply bool_decide_eq_false_2; by intros [? _]]. }
  rewrite Hfires in Heq. fold d in Heq.
  unfold st_row. rewrite Hd0.
  assert (Qeq_bool min_12 0 = false) as ->.
  { apply not_true_iff_false. by rewrite Qeq_bool_iff. }
  unfold idx_min_12. simpl.
  destruct (Qlt_bool d0 min_12 && first_half (Some offset) (Some onset)) eqn:E.
  - split; [done|]. intros Hn. exfalso. apply Hn.
    apply andb_true_iff in E as [E1 E2].
    apply Qlt_bool_iff in E1. apply first_half_iff in E2.
    split; [by rewrite <- Heq | done].
  - split; [|by eauto]. intros [H1 H2]. exfalso.
    apply not_true_iff_false in E. apply E.
    apply andb_true_iff. split; [apply Qlt_bool_iff; by rewrite Heq | by apply first_half_iff].
Qed.

(** Onset 11:50, offset 12:10, floor 2 hours: set to missing. *)
Lemma calc_sleep_time_min_12_1150_1210 :
  ∃ st corr12,
    calc_sleep_time [Some (clock 11 50)] [Some (clock 12 10)] true 2
    = Returns (st, corr12) ∧
    ∀ (i : nat) (onset offset : Z),
      [Some (clock 11 50)] !! i = Some (Some onset) →
      [Some (clock 12 10)] !! i = Some (Some offset) →
      let first_half_of_cycle :=
        Timedelta_hours 1 ≤ offset < Timedelta_hours 13
        ∧ Timedelta_hours 1 ≤ onset < Timedelta_hours 13 in
      let fires :=
        bool_decide (true = true ∧ offset < onset ∧ first_half_of_cycle) in
      let d := (((offset - onset) # 3600000000000)
                + (if offset <? onset then 24 else 0)
                - (if fires then 12 else 0))%Q in
      let ambiguous := (d < 2)%Q ∧ first_half_of_cycle in
      (ambiguous → st !! i = Some None) ∧
      (¬ ambiguous → ∃ d', st !! i = Some (Some d') ∧ (d' == d)%Q).
Proof.
  apply (calc_sleep_time_min_12 [Some (clock 11 50)] [Some (clock 12 10)] true 2);
    [reflexivity | reflexivity | intros H; vm_compute in H; discriminate H].
Defined.

(** C2 (as stated) fails at its own example: onset 23:50, offset 00:10,
    floor 2 hours.  The onset is not before 13:00, so the row is kept with
    its 20 minutes, whether or not the 12-hour correction is enabled. *)
Lemma min_12_not_at_2350_0010 :
  (∃ q, calc_sleep_time [Some (clock 23 50)] [Some (clock 0 10)] true 2
        = Returns ([Some q], Some [0]) ∧ (q == 20 / 60)%Q)
  ∧ (∃ q, calc_sleep_time [Some (clock 23 50)] [Some (clock 0 10)] false 2
          = Returns ([Some q], None) ∧ (q == 20 / 60)%Q).
Proof.
  split; eexists; (split; [vm_compute; reflexivity | reflexivity]).
Qed.

(** ** The sleep midpoint *)

Lemma round_9_fraction (r : Z) (d : positive) :
  0 ≤ r < Z.pos d →
  0 ≤ round_9 (r # d) ≤ 1000000000 ∧ (r = 0 → round_9 (r # d) = 0).
Proof.
  intros Hr. unfold round_9. cbn [Qmult Qnum Qden inject_Z].
  rewrite Pos.mul_1_r.
  set (q := r * 1000000000 / Z.pos d). set (m := (r * 1000000000) mod Z.pos d).
  assert (Hdm : r * 1000000000 = Z.pos d * q + m) by (apply Z.div_mod; lia).
  assert (Hm : 0 ≤ m < Z.pos d) by (apply Z.mod_pos_bound; lia).
  assert (Hq : 0 ≤ q < 1000000000) by (split; nia).
  split.
  - destruct (_ || _); lia.
  - intros ->. assert (q = 0) by nia. assert (m = 0) by nia. subst.
    replace (Z.pos d <? 2 * 0) with false by (symmetry; apply Z.ltb_ge; lia).
    replace (2 * 0 =? Z.pos d) with false by (symmetry; apply Z.eqb_neq; lia).
    reflexivity.
Qed.

(** The conversion keeps a number of hours between 0 and a whole number of
    hours within the same bounds: the rounded fraction adds at most one
    hour to the whole hours, and nothing to a whole number of hours. *)
Lemma Timedelta_of_hours_range (q : Q) (n : Z) :
  (0 <= q <= inject_Z n)%Q → 0 ≤ Timedelta_of_hours q ≤ Timedelta_hours n.
Proof.
  destruct q as [p d]. unfold Qle, Timedelta_of_hours, Timedelta_hours; simpl.
  intros [H0 Hn]. rewrite Z.mul_1_r in H0.
  rewrite Z.quot_div_nonneg by lia.
  set (b := p / Z.pos d).
  assert (Hdm : p = Z.pos d * b + p mod Z.pos d) by (apply Z.div_mod; lia).
  assert (Hm : 0 ≤ p mod Z.pos d < Z.pos d) by (apply Z.mod_pos_bound; lia).
  assert (Hb : 0 ≤ b ≤ n) by (split; nia).
  assert (Hfrac : ((p # d) - inject_Z b)%Q = (p mod Z.pos d) # d).
  { unfold Qminus, Qplus, Qopp, inject_Z. cbn [Qnum Qden].
    rewrite Pos.mul_1_r. f_equal. lia. }
  rewrite Hfrac.
  destruct (round_9_fraction (p mod Z.pos d) d Hm) as [Hr H0'].
  unfold ns_per_hour. split; [nia|].
  destruct (Z.eq_dec b n) as [->|Hne].
  - assert (p mod Z.pos d = 0) by nia. rewrite H0' by done. lia.
  - nia.
Qed.

Lemma round_half_even_range (v : Z) :
  0 ≤ v ≤ Timedelta_hours 24 →
  0 ≤ round_half_even ns_per_min v ≤ Timedelta_hours 24.
Proof.
  unfold round_half_even, Timedelta_hours, ns_per_hour, ns_per_min. intros Hv.
  pose proof (Z.div_mod v 60000000000 ltac:(lia)) as Hdm.
  pose proof (Z.mod_pos_bound v 60000000000 ltac:(lia)) as Hr.
  set (q := v / 60000000000) in *. set (r := v mod 60000000000) in *.
  change (60000000000 / 2) with 30000000000.
  destruct ((30000000000 <? r) || (r =? 30000000000) && Z.odd q) eqn:E.
  - assert (0 < r).
    { apply orb_true_iff in E as [E|E].
      - apply Z.ltb_lt in E. lia.
      - apply andb_true_iff in E as [E _]. apply Z.eqb_eq in E. lia. }
    lia.
  - lia.
Qed.

Lemma st_12_corrected (a b : Z) :
  idx_correct_12 (Some a) (Some b) = true →
  ∃ d, st_12 true (Some a) (Some b) = Some d ∧ (0 <= d <= inject_Z 12)%Q.
Proof.
  intros E. unfold st_12. rewrite E. cbn [andb].
  destruct (st_24_some a b) as (d0 & -> & Hd0). simpl.
  eexists; split; [reflexivity|].
  apply idx_correct_12_iff in E. unfold Timedelta_hours, ns_per_hour in E.
  assert ((a <? b) = true) as Hlt by (apply Z.ltb_lt; lia).
  rewrite Hlt in Hd0. rewrite Hd0. unfold Qle, Qplus, inject_Z; simpl. lia.
Qed.

Lemma st_12_uncorrected (a b : Z) :
  0 ≤ a ≤ Timedelta_hours 24 → 0 ≤ b ≤ Timedelta_hours 24 →
  idx_correct_12 (Some a) (Some b) = false →
  ∃ d, st_12 true (Some a) (Some b) = Some d ∧ (0 <= d <= inject_Z 24)%Q.
Proof.
  intros Ha Hb E. unfold st_12. rewrite E. simpl.
  eexists; split; [reflexivity|]. apply (naive_range a b Ha Hb).
Qed.

Lemma st_row_cases c12 m (a b : option Z) :
  st_row c12 m a b = None ∨ st_row c12 m a b = st_12 c12 a b.
Proof. unfold st_row. destruct (_ && _); auto. Qed.

Lemma midpoint_row_range (m : Q) (a b : option Z) :
  td_between 0 (Timedelta_hours 24) a || isna a = true →
  td_between 0 (Timedelta_hours 24) b || isna b = true →
  td_between 0 (Timedelta_hours 24) (midpoint_row m a b)
  || isna (midpoint_row m a b) = true.
Proof.
  intros Ha Hb. unfold midpoint_row.
  destruct (st_row_cases true m a b) as [-> | ->].
  { destruct b; simpl; by rewrite ?andb_false_r. }
  destruct a as [a|], b as [b|]; try reflexivity.
  simpl in Ha, Hb. rewrite orb_false_r, andb_true_iff, !Z.leb_le in Ha, Hb.
  unfold corr12_row.
  destruct (idx_correct_12 (Some a) (Some b)) eqn:E.
  - destruct (st_12_corrected a b E) as (d & -> & Hd).
    apply Timedelta_of_hours_range in Hd.
    apply idx_correct_12_iff in E. simpl.
    rewrite andb_false_r, andb_true_r.
    rewrite Z.quot_div_nonneg by (unfold Timedelta_hours in Hd; lia).
    set (h := Timedelta_of_hours d / 2).
    assert (0 ≤ h ≤ Timedelta_hours 6).
    { subst h. unfold Timedelta_hours, ns_per_hour in *. Z.div_mod_to_equations. lia. }
    simpl. destruct (Timedelta_hours 13 <=? b + h) eqn:E13; simpl;
      rewrite orb_false_r, andb_true_iff, !Z.leb_le;
      [apply Z.leb_le in E13 | apply Z.leb_gt in E13];
      apply round_half_even_range; unfold Timedelta_hours, ns_per_hour in *; lia.
  - destruct (st_12_uncorrected a b Ha Hb E) as (d & -> & Hd).
    apply Timedelta_of_hours_range in Hd. simpl.
    rewrite andb_true_r.
    rewrite Z.quot_div_nonneg by (unfold Timedelta_hours in Hd; lia).
    set (h := Timedelta_of_hours d / 2).
    assert (0 ≤ h ≤ Timedelta_hours 12).
    { subst h. unfold Timedelta_hours, ns_per_hour in *. Z.div_mod_to_equations. lia. }
    simpl. destruct (Timedelta_hours 24 <=? b + h) eqn:E24; simpl;
      rewrite !andb_false_r; simpl; rewrite orb_false_r, andb_true_iff, !Z.leb_le;
      [apply Z.leb_le in E24 | apply Z.leb_gt in E24];
      apply round_half_even_range; unfold Timedelta_hours, ns_per_hour in *; lia.
Qed.

Lemma midpoint_series (m : Q) (awake bed : Series Z) :
  let cs := fmap (M:=list) (fun c : Z => negb (c =? 0)) (zip_with corr12_row awake bed) in
  fmap (M:=list) (fmap (M:=option) (round_half_even ns_per_min))
    (zip_with (fun x (c : bool) =>
                 if td_ge x (Some (Timedelta_hours 13)) && c
                 then fmap (M:=option) (fun v => v + - Timedelta_hours 12) x else x)
       (zip_with (fun x (c : bool) =>
                    if td_ge x (Some (Timedelta_hours 24)) && negb c
                    then fmap (M:=option) (fun v => v + - Timedelta_hours 24) x else x)
          (zip_with td_add bed
             (fmap (M:=list)
                (fun x => td_div 2 (fmap (M:=option) Timedelta_of_hours x))
                (zip_with (st_row true m) awake bed)))
          cs)
       cs)
  = zip_with (midpoint_row m) awake bed.
Proof.
  revert bed. induction awake as [|a awake IH]; intros [|b bed]; try reflexivity.
  simpl. f_equal. apply IH.
Qed.

(** On columns that pass the range check and hold a duration,
    [calc_sleep_midpoint] (called, as everywhere in the script, with
    [correct_12=True]) returns the row-wise midpoints: neither assertion
    fails. *)
Lemma calc_sleep_midpoint_rows (bed_time awake_time : Series Z) (m : Q) :
  valid_times bed_time = true → valid_times awake_time = true →
  has_duration bed_time awake_time m = true →
  calc_sleep_midpoint bed_time awake_time true m
  = Returns (zip_with (midpoint_row m) awake_time bed_time).
Proof.
  intros Hb Ha Hd. unfold calc_sleep_midpoint.
  rewrite (calc_sleep_time_rows _ _ _ _ Hb Ha). cbn [mbind outcome_bind fst snd].
  unfold has_duration in Hd. rewrite Hd. cbn [check_type mbind outcome_bind].
  rewrite (midpoint_series m awake_time bed_time).
  assert (forallb (fun x => td_between 0 (Timedelta_hours 24) x || isna x)
            (zip_with (midpoint_row m) awake_time bed_time) = true) as ->; [|done].
  clear -Hb Ha. revert bed_time Hb.
  induction awake_time as [|a awake IH]; intros [|b bed] Hb; try reflexivity.
  apply valid_times_cons in Ha as [Ha Hawake].
  apply valid_times_cons in Hb as [Hb Hbed].
  simpl. apply andb_true_iff. split; [by apply midpoint_row_range | by apply IH].
Qed.

(** Without a duration the conversion of line 143 fails. *)
Lemma calc_sleep_midpoint_no_duration (bed_time awake_time : Series Z) (m : Q) :
  valid_times bed_time = true → valid_times awake_time = true →
  has_duration bed_time awake_time m = false →
  calc_sleep_midpoint bed_time awake_time true m = Raises TypeError.
Proof.
  intros Hb Ha Hd. unfold calc_sleep_midpoint.
  rewrite (calc_sleep_time_rows _ _ _ _ Hb Ha). cbn [mbind outcome_bind fst snd].
  unfold has_duration in Hd. by rewrite Hd.
Qed.

Lemma calc_sleep_midpoint_invalid (bed_time awake_time : Series Z) (c12 : bool) (m : Q) :
  valid_times bed_time = false ∨ valid_times awake_time = false →
  calc_sleep_midpoint bed_time awake_time c12 m = Raises ValueError.
Proof.
  intros H. unfold calc_sleep_midpoint.
  destruct (valid_times bed_time) eqn:Hb.
  - destruct H as [H|H]; [done|].
    by rewrite (calc_sleep_time_invalid_awake _ _ c12 m H).
  - by rewrite (calc_sleep_time_invalid_bed _ _ c12 m Hb).
Qed.

(** The three outcomes of [calc_sleep_midpoint] with the correction on. *)
Lemma calc_sleep_midpoint_cases (bed_time awake_time : Series Z) (m : Q) :
  (valid_times bed_time = true ∧ valid_times awake_time = true
   ∧ has_duration bed_time awake_time m = true
   ∧ calc_sleep_midpoint bed_time awake_time true m
     = Returns (zip_with (midpoint_row m) awake_time bed_time))
  ∨ (valid_times bed_time = true ∧ valid_times awake_time = true
     ∧ has_duration bed_time awake_time m = false
     ∧ calc_sleep_midpoint bed_time awake_time true m = Raises TypeError)
  ∨ ((valid_times bed_time = false ∨ valid_times awake_time = false)
     ∧ calc_sleep_midpoint bed_time awake_time true m = Raises ValueError).
Proof.
  destruct (valid_times bed_time) eqn:Hb;
    [|right; right; split; [by left|apply calc_sleep_midpoint_invalid; by left]].
  destruct (valid_times awake_time) eqn:Ha;
    [|right; right; split; [by right|apply calc_sleep_midpoint_invalid; by right]].
  destruct (has_duration bed_time awake_time m) eqn:Hd.
  - left. repeat split. by apply calc_sleep_midpoint_rows.
  - right. left. repeat split. by apply calc_sleep_midpoint_no_duration.
Qed.

(** C3 (as the code has it). Bed 23:00 and waking 03:00 give the midpoint
    01:00, whatever the floor.  Every midpoint that [calc_sleep_midpoint]
    (called with [correct_12=True]) returns and that is not missing lies
    between 0 and 24 hours, both ends included.  The call returns exactly
    when the clock times pass the range check and some row has a duration;
    it raises [ValueError] when a time is out of range and [TypeError] when
    no row has a duration. *)
Theorem calc_sleep_midpoint_clock :
  (∀ min_12 : Q,
     calc_sleep_midpoint [Some (clock 23 0)] [Some (clock 3 0)] true min_12
     = Returns [Some (clock 1 0)])
  ∧ (∀ (bed_time awake_time : Series Z) (min_12 : Q) (sleep_midpoint : Series Z),
       calc_sleep_midpoint bed_time awake_time true min_12 = Returns sleep_midpoint →
       length sleep_midpoint = length (zip awake_time bed_time) ∧
       ∀ (i : nat) (v : Z),
         sleep_midpoint !! i = Some (Some v) → 0 ≤ v ≤ Timedelta_hours 24)
  ∧ (∀ (bed_time awake_time : Series Z) (min_12 : Q),
       ((∃ sleep_midpoint,
           calc_sleep_midpoint bed_time awake_time true min_12 = Returns sleep_midpoint)
        ↔ valid_times bed_time = true ∧ valid_times awake_time = true
          ∧ has_duration bed_time awake_time min_12 = true)
       ∧ (calc_sleep_midpoint bed_time awake_time true min_12 = Raises TypeError
          ↔ valid_times bed_time = true ∧ valid_times awake_time = true
            ∧ has_duration bed_time awake_time min_12 = false)
       ∧ (calc_sleep_midpoint bed_time awake_time true min_12 = Raises ValueError
          ↔ valid_times bed_time = false ∨ valid_times awake_time = false)).
Proof.
  split; [|split].
  - intros m.
    assert (Hd : st_row true m (Some (clock 3 0)) (Some (clock 23 0))
                 = Some (14400000000000 # 3600000000000)).
    { unfold st_row, idx_min_12.
      assert (first_half (Some (clock 3 0)) (Some (clock 23 0)) = false) as ->
        by reflexivity.
      rewrite !andb_false_r. vm_compute. reflexivity. }
    rewrite calc_sleep_midpoint_rows; [|reflexivity|reflexivity|].
    + cbn [zip_with]. unfold midpoint_row. rewrite Hd. vm_compute. reflexivity.
    + unfold has_duration. cbn [zip_with]. rewrite Hd. reflexivity.
  - intros bed_time awake_time m sleep_midpoint Hret.
    destruct (calc_sleep_midpoint_cases bed_time awake_time m)
      as [(Hb & Ha & _ & E) | [(_ & _ & _ & E) | (_ & E)]];
      rewrite E in Hret; [|discriminate Hret..].
    injection Hret as <-. split.
    { by rewrite length_zip_with, length_zip. }
    intros i v Hi. apply lookup_zip_with_Some in Hi as (a & b & Hv & Hia & Hib).
    assert (td_between 0 (Timedelta_hours 24) a || isna a = true) as Hva.
    { unfold valid_times in Ha. rewrite forallb_forall in Ha.
      apply Ha, list_elem_of_In. eapply list_elem_of_lookup_2; eauto. }
    assert (td_between 0 (Timedelta_hours 24) b || isna b = true) as Hvb.
    { unfold valid_times in Hb. rewrite forallb_forall in Hb.
      apply Hb, list_elem_of_In. eapply list_elem_of_lookup_2; eauto. }
    pose proof (midpoint_row_range m a b Hva Hvb) as Hr.
    rewrite <- Hv in Hr. simpl in Hr.
    rewrite orb_false_r, andb_true_iff, !Z.leb_le in Hr. exact Hr.
  - intros bed_time awake_time m.
    destruct (calc_sleep_midpoint_cases bed_time awake_time m)
      as [(Hb & Ha & Hd & E) | [(Hb & Ha & Hd & E) | (H & E)]]; rewrite E.
    + split; [|split].
      * split; [done|eauto].
      * split; [discriminate|]. intros (_ & _ & Hd'). congruence.
      * split; [discriminate|]. intros [?|?]; congruence.
    + split; [|split].
      * split; [by intros [? ?]|]. intros (_ & _ & Hd'). congruence.
      * done.
      * split; [discriminate|]. intros [?|?]; congruence.
    + split; [|split].
      * split; [by intros [? ?]|]. intros (Hb & Ha & _). destruct H; congruence.
      * split; [discriminate|]. intros (Hb & Ha & _). destruct H; congruence.
      * done.
Qed.

(** Bed 22:30, waking 07:15. *)
Lemma calc_sleep_midpoint_clock_2230_0715 :
  ∃ sleep_midpoint,
    calc_sleep_midpoint [Some (clock 22 30)] [Some (clock 7 15)] true 2
    = Returns sleep_midpoint ∧
    length sleep_midpoint
    = length (zip [Some (clock 7 15)] [Some (clock 22 30)]) ∧
    ∀ (i : nat) (v : Z),
      sleep_midpoint !! i = Some (Some v) → 0 ≤ v ≤ Timedelta_hours 24.
Proof.
  destruct (proj2 (proj1 (proj2 (proj2 calc_sleep_midpoint_clock)
                            [Some (clock 22 30)] [Some (clock 7 15)] 2%Q)))
    as [sleep_midpoint Hret].
  { repeat split; vm_compute; reflexivity. }
  exists sleep_midpoint. split; [exact Hret|].
  exact (proj1 (proj2 calc_sleep_midpoint_clock) _ _ _ _ Hret).
Defined.

(** C3 (as stated) fails on its upper bound: bed 23:59 and waking 00:00
    give a midpoint just past 23:59:30 (the minute of sleep converts to
    60.0000012 seconds), which rounds to 24:00; the closing assertion
    accepts it. *)
Lemma midpoint_reaches_24h :
  ∃ v, calc_sleep_midpoint [Some (clock 23 59)] [Some (clock 0 0)] true 2
       = Returns [Some v]
       ∧ ¬ (0 ≤ v < Timedelta_hours 24).
Proof.
  exists (Timedelta_hours 24). split; [vm_compute; reflexivity|].
  unfold Timedelta_hours, ns_per_hour. lia.
Qed.

(** A table in which no row has both clock times has no midpoints. *)
Example calc_sleep_midpoint_no_duration_example :
  calc_sleep_midpoint [Some (clock 23 0); None] [None; Some (clock 7 0)] true 2
  = Raises TypeError.
Proof. vm_compute. reflexivity. Qed.

(** * Subject identifiers *)

(** ** Exclusions and corrections *)

Example normalise_a1b2c3 : normalise " a1b2c3 " = "A1B2C3".
Proof. reflexivity. Qed.

Example remove_zwsp_inside : remove_zwsp ("54" +:+ zwsp +:+ "DLL" +:+ zwsp) = "54DLL".
Proof. reflexivity. Qed.

(** An identifier entered with blanks and in lower case, a known typo of
    [A1B2C4], which the roster numbers 17. *)
Example reconcile_a1b2c3 :
  reconcile false (list_to_map [("A1B2C3", "A1B2C4"); ("Q9Z9Y", "Q9Z9Z")])
            [("A1B2C4", 17); ("Q9Z9Z", 3)]
            [Row (Some " a1b2c3 ") 1 tt]
  = Returns [Row 17 1 tt].
Proof. vm_compute. reflexivity. Qed.

(** C5 (as the code has it). The exclusion filter runs on the trimmed,
    upper-cased identifier as entered; the zero-width spaces are removed and
    the corrections applied afterwards, to the surviving rows only.  So a
    row leaves at the exclusion step exactly when its uncorrected identifier
    is in [excl_subs], and every row that reaches the roster filter carries
    the correction of an identifier that was not excluded. *)
Theorem exclusion_precedes_corrections {P : Type} (lsas : bool)
    (sub_ids_corrections : gmap string string) (t : list (row (option string) P)) :
  (∀ r : row string P,
     r ∈ (if lsas then drop_lsas (stage_normalised t) else stage_normalised t) →
     (r ∈ stage_excluded lsas t ↔ subj r ∉ excl_subs))
  ∧ stage_corrected lsas sub_ids_corrections t
    = set_subj (fun s => replace_dict sub_ids_corrections (remove_zwsp s))
      <$> stage_excluded lsas t
  ∧ (∀ r : row string P,
       r ∈ stage_corrected lsas sub_ids_corrections t →
       ∃ r0 : row string P,
         r0 ∈ stage_normalised t ∧ (subj r0 ∉ excl_subs) ∧
         r = set_subj (fun s => replace_dict sub_ids_corrections (remove_zwsp s)) r0).
Proof.
  assert (Hcomp : stage_corrected lsas sub_ids_corrections t
    = set_subj (fun s => replace_dict sub_ids_corrections (remove_zwsp s))
      <$> stage_excluded lsas t).
  { unfold stage_corrected. rewrite <- list_fmap_compose. reflexivity. }
  split; [|split].
  - intros r Hr. unfold stage_excluded, drop_excluded.
    rewrite list_elem_of_filter. tauto.
  - exact Hcomp.
  - intros r. rewrite Hcomp, list_elem_of_fmap. intros (r0 & -> & Hr0).
    exists r0. unfold stage_excluded, drop_excluded in Hr0.
    apply list_elem_of_filter in Hr0 as [Hex Hr0]. split; [|done].
    destruct lsas; [|done].
    unfold drop_lsas in Hr0. by apply list_elem_of_filter in Hr0 as [_ Hr0].
Qed.

(** C5 (as stated) fails: an identifier that the corrections map sends onto
    an excluded one passes the exclusion step, is then corrected to the
    excluded identifier and, when the roster lists it, receives its
    number. *)
Lemma corrected_onto_excluded_is_kept :
  stage_corrected false (list_to_map [("54DL1", "54DLL"); ("Q9Z9Y", "Q9Z9Z")])
                  [Row (Some "54dl1") 1 tt]
  = [Row "54DLL" 1 tt]
  ∧ "54DLL" ∈ excl_subs
  ∧ reconcile false (list_to_map [("54DL1", "54DLL"); ("Q9Z9Y", "Q9Z9Z")])
              [("54DLL", 7); ("Q9Z9Z", 3)] [Row (Some "54dl1") 1 tt]
    = Returns [Row 7 1 tt].
Proof.
  split; [vm_compute; reflexivity|]. split; [|vm_compute; reflexivity].
  unfold excl_subs. set_solver.
Qed.

(** ** The roster key *)

Lemma roster_key_fst (roster : list (string * Z)) :
  ((fun r : string * Z => (normalise r.1, r.2)) <$> roster).*1 = roster_ids roster.
Proof. unfold roster_ids. by rewrite <- list_fmap_compose. Qed.

Lemma roster_key_snd (roster : list (string * Z)) :
  ((fun r : string * Z => (normalise r.1, r.2)) <$> roster).*2 = roster.*2.
Proof. by rewrite <- list_fmap_compose. Qed.

Lemma NoDup_snd_inj {A B} (l : list (A * B)) (a b : A) (n : B) :
  NoDup (l.*2) → (a, n) ∈ l → (b, n) ∈ l → a = b.
Proof.
  intros Hnd Ha Hb.
  apply list_elem_of_lookup in Ha as [i Hi]. apply list_elem_of_lookup in Hb as [j Hj].
  assert (i = j) as ->.
  { apply (NoDup_lookup (l.*2) i j n Hnd); by rewrite list_lookup_fmap, ?Hi, ?Hj. }
  congruence.
Qed.

Lemma load_sub_num_key_ok (roster : list (string * Z)) :
  NoDup (roster_ids roster) → NoDup (roster.*2) →
  load_sub_num_key roster
  = Returns (list_to_map ((fun r : string * Z => (normalise r.1, r.2)) <$> roster)).
Proof.
  intros H1 H2. unfold load_sub_num_key.
  rewrite roster_key_fst, roster_key_snd.
  by rewrite !bool_decide_eq_true_2.
Qed.

Lemma load_sub_num_key_fails (roster : list (string * Z)) :
  ¬ (NoDup (roster_ids roster) ∧ NoDup (roster.*2)) →
  load_sub_num_key roster = Raises AssertionError.
Proof.
  intros H. unfold load_sub_num_key.
  rewrite roster_key_fst, roster_key_snd.
  destruct (decide (NoDup (roster_ids roster))) as [H1|H1].
  - rewrite (bool_decide_eq_true_2 _ H1). simpl.
    rewrite bool_decide_eq_false_2; [done|]. tauto.
  - by rewrite (bool_decide_eq_false_2 _ H1).
Qed.

Lemma replace_sub_num_ok {P} (key : gmap string Z) (t : list (row string P)) :
  Forall (fun r => is_Some (key !! subj r)) t →
  ∃ t', replace_sub_num key t = Returns t' ∧
        Forall2 (fun r r' => key !! subj r = Some (subj r')
                             ∧ record_id r' = record_id r ∧ cells r' = cells r) t t'.
Proof.
  intros Hall. unfold replace_sub_num.
  assert (forallb (fun r => bool_decide (is_Some (key !! subj r))) t = true) as ->.
  { apply forallb_forall. intros r Hr. apply bool_decide_eq_true_2.
    rewrite Forall_forall in Hall. by apply Hall, list_elem_of_In. }
  simpl. induction Hall as [|r t [n Hn] _ (t' & IH1 & IH2)]; simpl.
  - by exists [].
  - rewrite Hn. simpl. rewrite IH1. simpl. eexists. split; [done|].
    by constructor.
Qed.

Lemma replace_sub_num_fails {P} (key : gmap string Z) (t : list (row string P)) r :
  r ∈ t → key !! subj r = None → replace_sub_num key t = Raises AssertionError.
Proof.
  intros Hr Hnone. unfold replace_sub_num.
  assert (forallb (fun r => bool_decide (is_Some (key !! subj r))) t = false) as ->; [|done].
  apply not_true_iff_false. rewrite forallb_forall. intros H.
  specialize (H r). rewrite <- list_elem_of_In in H. specialize (H Hr).
  apply bool_decide_eq_true_1 in H. rewrite Hnone in H. by destruct H.
Qed.

(** C6. When the roster has no duplicate identifier and no duplicate
    number, its key is a bijection between the roster identifiers and their
    numbers, every table is reconciled without failure, each surviving row
    getting the number of its identifier, and a table holding an identifier
    outside the key fails the assertion.  When the roster has a duplicate,
    loading the key fails an assertion, and so does every reconciliation. *)
Theorem sub_num_key_bijection (roster : list (string * Z)) :
  (NoDup (roster_ids roster) ∧ NoDup (roster.*2) →
   ∃ sub_num_key : gmap string Z,
     load_sub_num_key roster = Returns sub_num_key ∧
     (∀ s, is_Some (sub_num_key !! s) ↔ s ∈ roster_ids roster) ∧
     (∀ a b n, sub_num_key !! a = Some n → sub_num_key !! b = Some n → a = b) ∧
     (∀ (P : Type) lsas corrections (t : list (row (option string) P)),
        ∃ t', reconcile lsas corrections roster t = Returns t' ∧
          Forall2 (fun r r' => sub_num_key !! subj r = Some (subj r')
                               ∧ record_id r' = record_id r ∧ cells r' = cells r)
                  (keep_valid (roster_ids roster) (stage_corrected lsas corrections t))
                  t') ∧
     (∀ (P : Type) (t : list (row string P)) r,
        r ∈ t → sub_num_key !! subj r = None →
        replace_sub_num sub_num_key t = Raises AssertionError))
  ∧ (¬ (NoDup (roster_ids roster) ∧ NoDup (roster.*2)) →
     load_sub_num_key roster = Raises AssertionError ∧
     ∀ (P : Type) lsas corrections (t : list (row (option string) P)),
       reconcile lsas corrections roster t = Raises AssertionError).
Proof.
  split.
  - intros [H1 H2]. eexists. split; [by apply load_sub_num_key_ok|].
    set (l := (fun r : string * Z => (normalise r.1, r.2)) <$> roster).
    assert (Hfst : l.*1 = roster_ids roster) by apply roster_key_fst.
    assert (Hsnd : l.*2 = roster.*2) by apply roster_key_snd.
    assert (Hdom : ∀ s, is_Some ((list_to_map l : gmap string Z) !! s)
                        ↔ s ∈ roster_ids roster).
    { intros s. rewrite <- Hfst. split.
      - intros [n Hn]. apply elem_of_list_to_map_2 in Hn.
        apply list_elem_of_fmap. by exists (s, n).
      - intros Hs. destruct (list_to_map l !! s) eqn:E; [done|].
        by apply not_elem_of_list_to_map_2 in E. }
    split; [exact Hdom|]. split; [|split].
    + intros a b n Ha Hb. apply elem_of_list_to_map_2 in Ha, Hb.
      apply (NoDup_snd_inj l a b n); [by rewrite Hsnd|done..].
    + intros P lsas corrections t. unfold reconcile.
      rewrite (load_sub_num_key_ok roster H1 H2). simpl. fold l.
      apply replace_sub_num_ok. apply Forall_forall. intros r Hr.
      unfold keep_valid in Hr. apply list_elem_of_filter in Hr as [Hr _].
      by apply Hdom.
    + intros P t r. apply replace_sub_num_fails.
  - intros H. split; [by apply load_sub_num_key_fails|].
    intros P lsas corrections t. unfold reconcile.
    by rewrite (load_sub_num_key_fails roster H).
Qed.

(** A two-line roster and a daily table with a typo, a blank identifier and
    a stranger. *)
Lemma sub_num_key_bijection_example :
  ∃ sub_num_key : gmap string Z,
    load_sub_num_key [("A1B2C4", 17); ("Q9Z9Z", 3)] = Returns sub_num_key ∧
    (∀ s, is_Some (sub_num_key !! s) ↔ s ∈ roster_ids [("A1B2C4", 17); ("Q9Z9Z", 3)]) ∧
    (∀ a b n, sub_num_key !! a = Some n → sub_num_key !! b = Some n → a = b) ∧
    (∀ (P : Type) lsas corrections (t : list (row (option string) P)),
       ∃ t', reconcile lsas corrections [("A1B2C4", 17); ("Q9Z9Z", 3)] t = Returns t' ∧
         Forall2 (fun r r' => sub_num_key !! subj r = Some (subj r')
                              ∧ record_id r' = record_id r ∧ cells r' = cells r)
                 (keep_valid (roster_ids [("A1B2C4", 17); ("Q9Z9Z", 3)])
                             (stage_corrected lsas corrections t))
                 t') ∧
    (∀ (P : Type) (t : list (row string P)) r,
       r ∈ t → sub_num_key !! subj r = None →
       replace_sub_num sub_num_key t = Raises AssertionError).
Proof.
  apply (proj1 (sub_num_key_bijection [("A1B2C4", 17); ("Q9Z9Z", 3)])).
  split; apply (bool_decide_unpack _); vm_compute; exact I.
Defined.

(** * Duplicates *)

(** ** Sorting by subject number, then record id *)

#[global] Instance row_le_total {P} : Total (@row_le P).
Proof. intros r1 r2. unfold row_le. lia. Qed.

#[global] Instance row_le_trans {P} : Transitive (@row_le P).
Proof. intros r1 r2 r3. unfold row_le. lia. Qed.

Lemma index_and_sort_ok {P} (t : list (row Z P)) :
  NoDup (record_id <$> t) → index_and_sort t = Returns (merge_sort row_le t).
Proof. intros H. unfold index_and_sort. by rewrite bool_decide_eq_true_2. Qed.

(** ** [drop_duplicates] *)

Lemma drop_duplicates_from_elem {P} (seen : list Z) (t : list (row Z P)) r :
  r ∈ drop_duplicates_from seen t → r ∈ t ∧ subj r ∉ seen.
Proof.
  revert seen. induction t as [|x t IH]; intros seen; simpl.
  - by rewrite elem_of_nil.
  - case_bool_decide as Hx.
    + intros Hr. apply IH in Hr as [? ?]. split; [by right|done].
    + rewrite elem_of_cons. intros [-> | Hr]; [split; [by left|done]|].
      apply IH in Hr as [? Hs]. split; [by right|].
      intros Hin. apply Hs. by right.
Qed.

Lemma drop_duplicates_from_NoDup {P} (seen : list Z) (t : list (row Z P)) :
  NoDup (subj <$> drop_duplicates_from seen t).
Proof.
  revert seen. induction t as [|x t IH]; intros seen; simpl.
  - constructor.
  - case_bool_decide as Hx; [apply IH|].
    simpl. constructor; [|apply IH].
    rewrite list_elem_of_fmap. intros (r & Hr & Hin).
    apply drop_duplicates_from_elem in Hin as [_ Hs]. apply Hs. rewrite Hr. by left.
Qed.

(** In a sorted table the row kept for a subject has the least record id. *)
Lemma drop_duplicates_from_least {P} (seen : list Z) (t : list (row Z P)) :
  StronglySorted row_le t →
  ∀ r, r ∈ t → subj r ∉ seen →
       ∃ r', r' ∈ drop_duplicates_from seen t
             ∧ subj r' = subj r ∧ record_id r' ≤ record_id r.
Proof.
  intros Hs. revert seen.
  induction Hs as [|x t Hs IH Hx]; intros seen r Hr Hseen.
  - by apply elem_of_nil in Hr.
  - simpl. apply elem_of_cons in Hr as [-> | Hr].
    + rewrite bool_decide_eq_false_2 by done.
      exists x. split; [by left|]. lia.
    + case_bool_decide as Hxs.
      * apply IH; done.
      * destruct (decide (subj r = subj x)) as [Heq|Hne].
        -- exists x. split; [by left|]. split; [done|].
           rewrite Forall_forall in Hx. specialize (Hx r Hr).
           unfold row_le in Hx. lia.
        -- destruct (IH (subj x :: seen) r Hr) as (r' & Hr' & ? & ?).
           { rewrite not_elem_of_cons. done. }
           exists r'. split; [by right|done].
Qed.

(** ** Same subject, same day, in the daily table *)

Lemma filter_eq_length_pos {A} `{EqDecision A} (k : A) (l : list A) :
  k ∈ l → (0 < length (filter (fun k' => k' = k) l))%nat.
Proof.
  intros Hk. assert (k ∈ filter (fun k' => k' = k) l) as Hin
    by (by apply list_elem_of_filter).
  destruct (filter _ l); [by apply elem_of_nil in Hin | simpl; lia].
Qed.

Lemma filter_eq_length_two {A} `{EqDecision A} (k : A) (l : list A) (i j : nat) :
  i ≠ j → l !! i = Some k → l !! j = Some k →
  (1 < length (filter (fun k' => k' = k) l))%nat.
Proof.
  revert i j. induction l as [|x l IH]; intros i j Hij Hi Hj; [done|].
  rewrite filter_cons. destruct i as [|i], j as [|j]; simpl in *; simplify_eq.
  - rewrite decide_True by done. simpl.
    pose proof (filter_eq_length_pos k l (list_elem_of_lookup_2 _ _ _ Hj)). lia.
  - rewrite decide_True by done. simpl.
    pose proof (filter_eq_length_pos k l (list_elem_of_lookup_2 _ _ _ Hi)). lia.
  - assert (i ≠ j) as Hne by congruence. specialize (IH i j Hne Hi Hj).
    destruct (decide (x = k)); simpl; lia.
Qed.

Lemma length_sub_date_duplicates (data : list (row Z daily_cells)) :
  length (sub_date_duplicates data) = length data.
Proof. unfold sub_date_duplicates. by rewrite !length_fmap. Qed.

Lemma sub_date_duplicates_flags (data : list (row Z daily_cells)) (i j : nat) r1 r2 :
  i ≠ j → data !! i = Some r1 → data !! j = Some r2 →
  subj r1 = subj r2 →
  normalize (todays_date (cells r1)) = normalize (todays_date (cells r2)) →
  sub_date_duplicates data !! i = Some true.
Proof.
  intros Hij Hi Hj Hs Hd. unfold sub_date_duplicates.
  rewrite list_lookup_fmap, list_lookup_fmap, Hi. simpl. f_equal.
  apply bool_decide_eq_true_2.
  apply (filter_eq_length_two _ _ i j Hij).
  - by rewrite list_lookup_fmap, Hi.
  - rewrite list_lookup_fmap, Hj. simpl. by rewrite Hs, Hd.
Qed.

(** ** The two policies *)

(** C7 (as the code has it). A round table whose record ids are unique is
    sorted by subject number, then record id, and only then loses its
    duplicates: one row per subject remains, taken from the table, and it is
    the subject's row with the least record id.  The demographic table is
    not deduplicated but asserted free of duplicates.  The daily table keeps
    every row: rows sharing subject and calendar day are listed among the
    reference-date problems and get no reference date. *)
Theorem duplicate_policies :
  (∀ (P : Type) (t : list (row Z P)),
     NoDup (record_id <$> t) →
     ∃ t', round_table t = Returns t' ∧
       NoDup (subj <$> t') ∧
       (∀ r, r ∈ t' → r ∈ t) ∧
       (∀ r, r ∈ t →
             ∃ r', r' ∈ t' ∧ subj r' = subj r ∧ record_id r' ≤ record_id r))
  ∧ (∀ (P : Type) (t t' : list (row Z P)),
       demo_table t = Returns t' → NoDup (subj <$> t') ∧ t' ≡ₚ t)
  ∧ (∀ data : list (row Z daily_cells),
       (reference_date data).2.*1 = data ∧
       ∀ (i j : nat) r1 r2,
         i ≠ j → data !! i = Some r1 → data !! j = Some r2 →
         subj r1 = subj r2 →
         normalize (todays_date (cells r1)) = normalize (todays_date (cells r2)) →
         r1 ∈ (reference_date data).1 ∧ (reference_date data).2 !! i = Some (r1, None)).
Proof.
  split; [|split].
  - intros P t Hnd. exists (drop_duplicates (merge_sort row_le t)).
    split; [unfold round_table; by rewrite index_and_sort_ok|].
    split; [apply drop_duplicates_from_NoDup|]. split.
    + intros r Hr. apply drop_duplicates_from_elem in Hr as [Hr _].
      by rewrite merge_sort_Permutation in Hr.
    + intros r Hr. apply drop_duplicates_from_least.
      * apply StronglySorted_merge_sort; apply _.
      * by rewrite merge_sort_Permutation.
      * apply not_elem_of_nil.
  - intros P t t'. unfold demo_table, index_and_sort.
    case_bool_decide; [|done]. simpl. case_bool_decide as Hs; [|done]. simpl.
    intros [= <-]. split; [done|]. apply merge_sort_Permutation.
  - intros data. split.
    + unfold reference_date. simpl. apply fst_zip.
      rewrite length_fmap, !length_zip_with, length_sub_date_duplicates. lia.
    + intros i j r1 r2 Hij Hi Hj Hs Hd.
      pose proof (sub_date_duplicates_flags data i j r1 r2 Hij Hi Hj Hs Hd) as Hdup.
      unfold reference_date. simpl.
      set (idx := zip_with (fun dup r => dup || far_from_timestamp (cells r))
                           (sub_date_duplicates data) data).
      assert (Hidx : idx !! i = Some true)
        by (subst idx; by rewrite (zip_with_lookup _ _ _ _ _ _ Hdup Hi)).
      split.
      * apply list_elem_of_fmap. exists (r1, true). split; [done|].
        apply list_elem_of_filter. split; [done|].
        apply (list_elem_of_lookup_2 _ i).
        by rewrite (zip_with_lookup _ _ _ _ _ _ Hi Hidx).
      * apply zip_with_lookup; [done|].
        rewrite list_lookup_fmap.
        erewrite zip_with_lookup; [|done|by apply zip_with_lookup].
        simpl. by destruct (early_morning (cells r1)).
Qed.

(** Three round rows, two of them of subject 5. *)
Lemma duplicate_policies_round_example :
  ∃ t', round_table [Row 5 2 tt; Row 5 1 tt; Row 3 7 tt] = Returns t' ∧
    NoDup (subj <$> t') ∧
    (∀ r, r ∈ t' → r ∈ [Row 5 2 tt; Row 5 1 tt; Row 3 7 tt]) ∧
    (∀ r, r ∈ [Row 5 2 tt; Row 5 1 tt; Row 3 7 tt] →
          ∃ r', r' ∈ t' ∧ subj r' = subj r ∧ record_id r' ≤ record_id r).
Proof.
  apply (proj1 duplicate_policies unit [Row 5 2 tt; Row 5 1 tt; Row 3 7 tt]).
  apply (bool_decide_unpack _). vm_compute. exact I.
Defined.

(** C7 (as stated) fails on "the first row in original order": of two
    rows of one subject the one with the smaller record id is kept, although
    it comes second in the table as read. *)
Lemma first_in_file_order_is_dropped :
  round_table [Row 5 2 tt; Row 5 1 tt] = Returns [Row 5 1 tt]
  ∧ head [Row 5 2 tt; Row 5 1 tt] = Some (Row 5 2 tt)
  ∧ Row 5 2 tt ∉ [Row (I:=Z) 5 1 tt].
Proof.
  split; [vm_compute; reflexivity|]. split; [reflexivity|].
  rewrite list_elem_of_singleton. discriminate.
Qed.

(** * Impossible values *)

(** C8 (as the code has it). A number of alcoholic drinks above 48 is set
    to missing, any other is kept as reported; nothing is raised. *)
Theorem alcohol_bev_above_48 (r : daily_minutes) (v : Q) :
  alcohol_bev r = Some v →
  ((48 < v)%Q → alcohol_bev (remove_impossible r) = None)
  ∧ ((v <= 48)%Q → alcohol_bev (remove_impossible r) = Some v).
Proof.
  intros Hv. unfold remove_impossible; simpl. rewrite Hv. simpl.
  destruct (Qlt_bool 48 v) eqn:E.
  - apply Qlt_bool_iff in E. split; [done|]. intros Hle.
    exfalso. by apply (Qlt_not_le _ _ E).
  - split; [|done]. intros Hlt. apply Qlt_bool_iff in Hlt. congruence.
Qed.

(** Thirty drinks. *)
Lemma alcohol_bev_above_48_thirty :
  ((48 < 30)%Q →
   alcohol_bev (remove_impossible (DailyMinutes None None None None (Some 30%Q))) = None)
  ∧ ((30 <= 48)%Q →
     alcohol_bev (remove_impossible (DailyMinutes None None None None (Some 30%Q)))
     = Some 30%Q).
Proof.
  apply (alcohol_bev_above_48 (DailyMinutes None None None None (Some 30%Q)) 30%Q).
  reflexivity.
Defined.

(** C8 (as stated) fails between 24 and 48: thirty drinks are more than
    24 and are kept. *)
Lemma alcohol_bev_30_is_kept :
  (24 < 30)%Q
  ∧ alcohol_bev (remove_impossible (DailyMinutes None None None None (Some 30%Q)))
    = Some 30%Q.
Proof. split; reflexivity. Qed.

(** * Scale scores *)

Lemma sum_skipna_false_missing (cols : list string) (r : gmap string Z) (item : string) :
  item ∈ cols → r !! item = None → sum_skipna_false cols r = None.
Proof.
  intros Hin Hnone. induction cols as [|c cols IH]; [by apply elem_of_nil in Hin|].
  simpl. apply elem_of_cons in Hin as [<- | Hin].
  - by rewrite Hnone.
  - rewrite (IH Hin). by destruct (r !! c).
Qed.

Lemma sum_skipna_false_None (cols : list string) (r : gmap string Z) :
  sum_skipna_false cols r = None → ∃ item, item ∈ cols ∧ r !! item = None.
Proof.
  induction cols as [|c cols IH]; simpl; [done|].
  destruct (r !! c) as [v|] eqn:Ec; [|intros _; exists c; split; [by left|done]].
  simpl. fold (sum_skipna_false cols r).
  destruct (sum_skipna_false cols r) as [s|] eqn:Es; [done|]. intros _.
  destruct (IH eq_refl) as (item & Hin & Hnone). exists item. split; [by right|done].
Qed.

Lemma sum_options_missing (l : list (option Z)) :
  None ∈ l → sum_options l = None.
Proof.
  induction l as [|x l IH]; [by rewrite elem_of_nil|].
  rewrite elem_of_cons. intros [<- | Hin]; [done|].
  simpl. fold (sum_options l). rewrite (IH Hin). by destruct x.
Qed.

(** The row whose nine items [PSQIDISTB] sums, after line 1388. *)
Lemma PSQIDISTB_psqi_5j_present (psqi_5j2 : option string) (r : gmap string Z) :
  is_Some ((if isna psqi_5j2 || isna (r !! "psqi_5j")
            then <["psqi_5j" := 0]> r else r) !! "psqi_5j").
Proof.
  destruct (isna psqi_5j2 || isna (r !! "psqi_5j")) eqn:E.
  - rewrite lookup_insert_eq. by eexists.
  - apply orb_false_iff in E as [_ E]. by destruct (r !! "psqi_5j").
Qed.

(** C9 (as the code has it). A sum with [skipna=False] is missing as soon
    as one of the items it sums is, whichever the items and also when they
    are reverse-scored first; so is the sum of two scores one of which is
    missing, and the sum of computed columns one of which is.  Every
    summed scale of the script is computed in one of these ways, the scales
    of [summed_scales] among them.  [PSQIDISTB] is the exception: before
    its sum, [psqi_5j] is set to 0 on the rows where it or its free-text
    companion [psqi_5j2] is missing, so that the score is missing exactly
    when one of [psqi_5b] ... [psqi_5i] is. *)
Theorem summed_scale_missing_item :
  (∀ (cols : list string) (r : gmap string Z) (item : string),
     item ∈ cols → r !! item = None → sum_skipna_false cols r = None)
  ∧ (∀ (f : Z → Z) (cols : list string) (r : gmap string Z) (item : string),
       item ∈ cols → r !! item = None → sum_skipna_false cols (f <$> r) = None)
  ∧ (∀ x y : option Z, x = None ∨ y = None → col_add x y = None)
  ∧ (∀ l : list (option Z), None ∈ l → sum_options l = None)
  ∧ (∀ items score (r : gmap string Z) (item : string),
       (items, score) ∈ summed_scales → item ∈ items → r !! item = None →
       score r = None)
  ∧ (∀ psqi_5j2 (r : gmap string Z),
       PSQIDISTB psqi_5j2 r = None
       ↔ ∃ item, item ∈ psqi_5b_5j ∧ item ≠ "psqi_5j" ∧ r !! item = None)
  ∧ (∀ psqi_5j2 (r : gmap string Z),
       psqi_5j2 = None ∨ r !! "psqi_5j" = None →
       PSQIDISTB psqi_5j2 r = PSQIDISTB psqi_5j2 (<["psqi_5j" := 0]> r)).
Proof.
  split; [|split; [|split; [|split; [|split; [|split]]]]].
  - apply sum_skipna_false_missing.
  - intros f cols r item Hin Hnone.
    apply (sum_skipna_false_missing _ _ item Hin). by rewrite lookup_fmap, Hnone.
  - intros x y [-> | ->]; [done|by destruct x].
  - apply sum_options_missing.
  - intros items score r item Hs Hin Hnone. unfold summed_scales in Hs.
    repeat (apply elem_of_cons in Hs as [Hs | Hs]; [injection Hs as -> ->|]);
      [..|by apply elem_of_nil in Hs].
    + by apply (sum_skipna_false_missing _ _ item).
    + by apply (sum_skipna_false_missing _ _ item).
    + by apply (sum_skipna_false_missing _ _ item).
    + by apply (sum_skipna_false_missing _ _ item).
    + unfold PSQIDAYDYS. by rewrite (sum_skipna_false_missing _ _ item Hin Hnone).
    + unfold PSS_TOTAL.
      change (item ∈ ["pss_1"; "pss_2"; "pss_3"; "pss_6"; "pss_9"; "pss_10"]
                      ++ ["pss_4"; "pss_5"; "pss_7"; "pss_8"]) in Hin.
      apply elem_of_app in Hin as [Hin | Hin].
      * by rewrite (sum_skipna_false_missing _ _ item Hin Hnone).
      * rewrite (sum_skipna_false_missing _ ((fun v => 4 - v) <$> r) item Hin)
          by (by rewrite lookup_fmap, Hnone).
        by destruct (sum_skipna_false _ r).
  - intros psqi_5j2 r. split.
    + intros Hnone. unfold PSQIDISTB in Hnone.
      pose proof (PSQIDISTB_psqi_5j_present psqi_5j2 r) as H5j.
      set (r' := if isna psqi_5j2 || isna (r !! "psqi_5j")
                 then <["psqi_5j" := 0]> r else r) in *.
      destruct (sum_skipna_false psqi_5b_5j r') as [s|] eqn:Es.
      * exfalso. cbn [z_between] in Hnone.
        destruct ((1 <=? s) && (s <=? 9)); cbn [z_between] in Hnone;
          [discriminate Hnone|].
        destruct ((10 <=? s) && (s <=? 18)); [discriminate Hnone|].
        by destruct (18 <? s).
      * destruct (sum_skipna_false_None _ _ Es) as (item & Hin & Hitem).
        assert (item ≠ "psqi_5j") as Hne.
        { intros ->. rewrite Hitem in H5j. by destruct H5j. }
        exists item. split; [done|]. split; [done|].
        subst r'. destruct (_ || _); [|done]. by rewrite lookup_insert_ne in Hitem.
    + intros (item & Hin & Hne & Hnone). unfold PSQIDISTB.
      rewrite (sum_skipna_false_missing _ _ item Hin); [done|].
      destruct (_ || _); [|done]. by rewrite lookup_insert_ne.
  - intros psqi_5j2 r H. unfold PSQIDISTB. rewrite lookup_insert_eq.
    cbn [isna]. rewrite orb_false_r.
    assert (isna psqi_5j2 || isna (r !! "psqi_5j") = true) as ->.
    { destruct H as [-> | ->]; [done|]. by rewrite orb_true_r. }
    destruct (isna psqi_5j2); [|done]. by rewrite insert_insert_eq.
Qed.

(** C9 (as stated) fails for [PSQIDISTB]: with the eight items [psqi_5b]
    ... [psqi_5i] answered 1 and [psqi_5j] missing, the score is 1, the
    band of the sum 8, and not missing. *)
Lemma PSQIDISTB_imputes_psqi_5j :
  (list_to_map [("psqi_5b", 1); ("psqi_5c", 1); ("psqi_5d", 1); ("psqi_5e", 1);
                ("psqi_5f", 1); ("psqi_5g", 1); ("psqi_5h", 1); ("psqi_5i", 1)]
     : gmap string Z) !! "psqi_5j" = None
  ∧ "psqi_5j" ∈ psqi_5b_5j
  ∧ PSQIDISTB (Some "noise")
      (list_to_map [("psqi_5b", 1); ("psqi_5c", 1); ("psqi_5d", 1); ("psqi_5e", 1);
                    ("psqi_5f", 1); ("psqi_5g", 1); ("psqi_5h", 1); ("psqi_5i", 1)])
    = Some 1.
Proof.
  split; [vm_compute; reflexivity|]. split; [|vm_compute; reflexivity].
  unfold psqi_5b_5j. set_solver.
Qed.

(** With all nine items answered, [psqi_5j] by 3, the score is the band of
    11; without the free text it is the band of 8, the 3 being replaced
    by 0. *)
Example PSQIDISTB_without_free_text :
  PSQIDISTB (Some "noise")
    (list_to_map [("psqi_5b", 1); ("psqi_5c", 1); ("psqi_5d", 1); ("psqi_5e", 1);
                  ("psqi_5f", 1); ("psqi_5g", 1); ("psqi_5h", 1); ("psqi_5i", 1);
                  ("psqi_5j", 3)])
  = Some 2
  ∧ PSQIDISTB None
      (list_to_map [("psqi_5b", 1); ("psqi_5c", 1); ("psqi_5d", 1); ("psqi_5e", 1);
                    ("psqi_5f", 1); ("psqi_5g", 1); ("psqi_5h", 1); ("psqi_5i", 1);
                    ("psqi_5j", 3)])
    = Some 1.
Proof. split; vm_compute; reflexivity. Qed.

(** The positive-affect scale with its third item missing. *)
Lemma summed_scale_missing_item_panas :
  PANAS_PA (list_to_map [("panas_interested3", 3); ("panas_excited3", 2);
                         ("panas_enthusiastic3", 4); ("panas_proud3", 1);
                         ("panas_alert3", 5); ("panas_inspired3", 2);
                         ("panas_determined3", 3); ("panas_attentive3", 3);
                         ("panas_active3", 2)])
  = None.
Proof.
  apply (proj1 (proj2 (proj2 (proj2 (proj2 summed_scale_missing_item))))
           panas_pa_vars PANAS_PA _ "panas_strong3").
  - apply list_elem_of_here.
  - apply (bool_decide_unpack _). vm_compute. exact I.
  - vm_compute. reflexivity.
Defined.

(** * Sleep efficiency *)

(** C10. On every row, when the sleep efficiency computed at line 1323
    exceeds 1, or the time in bed is 0, the four variables [SE], [TST],
    [TIB] and [sleepattempt] are set to missing together; otherwise they
    are left as computed.  Afterwards no [SE] exceeds 1 and no [TIB] equals
    0; this holds on every row of the table [daily_sleep] returns. *)
Theorem sleep_efficiency_invalidation :
  (∀ tib att naw lat : float,
     let o := sleep_efficiency tib att naw lat in
     (fgt (SE_1323 tib att naw lat) (Fin 1) = true ∨ feq tib (Fin 0) = true →
      o = all_nan)
     ∧ (fgt (SE_1323 tib att naw lat) (Fin 1) = false → feq tib (Fin 0) = false →
        o = SleepVars (SE_1323 tib att naw lat) (TST_1320 att naw lat) tib att)
     ∧ fgt (SE o) (Fin 1) = false
     ∧ feq (TIB o) (Fin 0) = false)
  ∧ (∀ data : list sleep_diary,
       valid_times (sleepdiary_bedtime <$> data) = true →
       valid_times (sleepdiary_outofbed <$> data) = true →
       valid_times (sleepdiary_fallasleep <$> data) = true →
       valid_times (sleepdiary_waketime <$> data) = true →
       ∃ out, daily_sleep data = Returns out ∧ length out = length data)
  ∧ (∀ (data : list sleep_diary) (out : list sleep_vars),
       daily_sleep data = Returns out →
       ∀ o, o ∈ out →
            fgt (SE o) (Fin 1) = false ∧ feq (TIB o) (Fin 0) = false
            ∧ (o = all_nan ∨ SE o = fdiv (TST o) (TIB o))).
Proof.
  assert (Hrow : ∀ tib att naw lat : float,
     let o := sleep_efficiency tib att naw lat in
     (fgt (SE_1323 tib att naw lat) (Fin 1) = true ∨ feq tib (Fin 0) = true →
      o = all_nan)
     ∧ (fgt (SE_1323 tib att naw lat) (Fin 1) = false → feq tib (Fin 0) = false →
        o = SleepVars (SE_1323 tib att naw lat) (TST_1320 att naw lat) tib att)
     ∧ fgt (SE o) (Fin 1) = false
     ∧ feq (TIB o) (Fin 0) = false).
  { intros tib att naw lat o. subst o. unfold sleep_efficiency. cbn [SE TIB].
    destruct (fgt (SE_1323 tib att naw lat) (Fin 1)) eqn:E1; cbn [SE TIB all_nan feq].
    - repeat split; try done.
    - destruct (feq tib (Fin 0)) eqn:E2; cbn [SE TIB all_nan].
      + repeat split; try done.
      + repeat split; try done. by intros [?|?]. }
  split; [exact Hrow|]. split.
  { intros data H1 H2 H3 H4. unfold daily_sleep.
    rewrite (calc_sleep_time_rows _ _ true 3 H1 H2).
    rewrite (calc_sleep_time_rows _ _ true 2 H3 H4).
    eexists. split; [reflexivity|]. cbn [fst snd].
    rewrite length_zip_with, length_zip, !length_zip_with, !length_fmap. lia. }
  intros data out Hret o Ho. unfold daily_sleep in Hret.
  destruct (calc_sleep_time _ _ true 3) as [tib|]; [|done].
  destruct (calc_sleep_time _ _ true 2) as [att|]; [|done].
  simpl in Hret. injection Hret as <-.
  apply list_elem_of_lookup in Ho as [i Hi].
  apply lookup_zip_with_Some in Hi as (ta & r & -> & _ & _).
  destruct (Hrow (float_of ta.1) (float_of ta.2)
              (float_of (diary_night_awakening_time r))
              (float_of (diary_sleeplatency r))) as (_ & _ & H3 & H4).
  split; [done|]. split; [done|].
  unfold sleep_efficiency. cbn [SE TIB].
  destruct (fgt (SE_1323 _ _ _ _) (Fin 1)); cbn [SE TIB all_nan feq]; [by left|].
  destruct (feq (float_of ta.1) (Fin 0)); [by left|right; reflexivity].
Qed.

(** One night: in bed 23:00 to 07:00, asleep 23:30 to 06:30, awake 20
    minutes in the night, 10 minutes to fall asleep. *)
Lemma sleep_efficiency_invalidation_one_night :
  ∃ out,
    daily_sleep [SleepDiary (Some (clock 23 0)) (Some (clock 23 30))
                            (Some (clock 6 30)) (Some (clock 7 0))
                            (Some 20%Q) (Some 10%Q)] = Returns out ∧
    ∀ o, o ∈ out →
         fgt (SE o) (Fin 1) = false ∧ feq (TIB o) (Fin 0) = false
         ∧ (o = all_nan ∨ SE o = fdiv (TST o) (TIB o)).
Proof.
  eexists. split; [vm_compute; reflexivity|].
  apply (proj2 (proj2 sleep_efficiency_invalidation)
           [SleepDiary (Some (clock 23 0)) (Some (clock 23 30))
                       (Some (clock 6 30)) (Some (clock 7 0))
                       (Some 20%Q) (Some 10%Q)]).
  vm_compute. reflexivity.
Defined.

(** * Further properties of the sleep-time functions *)

(** ** Outcome of [calc_sleep_time] *)

Lemma valid_times_both (bed_time awake_time : Series Z) :
  valid_times bed_time && valid_times awake_time = false →
  valid_times bed_time = false ∨ valid_times awake_time = false.
Proof. destruct (valid_times bed_time); simpl; auto. Qed.

(** X1. On a table with at least one row, [calc_sleep_time] either returns
    or raises the [ValueError] of its range check, and nothing else: the
    error is raised exactly when a clock time that is present lies outside
    [0, 24h], and the assertion of line 116 never fails.  When it returns,
    the durations have one entry per row, and the flags are returned
    exactly when [correct_12] is on, one per row, each 0 or 1.  (A table
    without rows is left out: pandas stops there with a [TypeError] at
    line 102.) *)
Theorem calc_sleep_time_outcome (bed_time awake_time : Series Z)
    (correct_12 : bool) (min_12 : Q) :
  zip awake_time bed_time ≠ [] →
  (∀ e, calc_sleep_time bed_time awake_time correct_12 min_12 = Raises e →
        e = ValueError)
  ∧ (calc_sleep_time bed_time awake_time correct_12 min_12 = Raises ValueError
     ↔ valid_times bed_time = false ∨ valid_times awake_time = false)
  ∧ ((∃ st corr12,
        calc_sleep_time bed_time awake_time correct_12 min_12 = Returns (st, corr12))
     ↔ valid_times bed_time = true ∧ valid_times awake_time = true)
  ∧ (∀ st corr12,
       calc_sleep_time bed_time awake_time correct_12 min_12 = Returns (st, corr12) →
       length st = length (zip awake_time bed_time)
       ∧ (if correct_12
          then ∃ flags, corr12 = Some flags
                        ∧ length flags = length (zip awake_time bed_time)
                        ∧ Forall (fun f => f = 0 ∨ f = 1) flags
          else corr12 = None)).
Proof.
  intros _.
  destruct (valid_times bed_time && valid_times awake_time) eqn:E.
  - apply andb_true_iff in E as [Hb Ha].
    rewrite (calc_sleep_time_rows _ _ correct_12 min_12 Hb Ha).
    split; [discriminate|]. split; [|split].
    + split; [done|]. intros [H|H]; congruence.
    + split; [done|]. intros _. eauto.
    + intros st corr12 [= <- <-]. split.
      * by rewrite length_zip_with, length_zip.
      * destruct correct_12; [|done]. eexists. split; [done|]. split.
        -- by rewrite length_zip_with, length_zip.
        -- apply Forall_forall. intros f Hf.
           apply list_elem_of_lookup in Hf as [i Hi].
           apply lookup_zip_with_Some in Hi as (a & b & -> & _ & _).
           unfold corr12_row. destruct (idx_correct_12 a b); auto.
  - apply valid_times_both in E.
    assert (calc_sleep_time bed_time awake_time correct_12 min_12 = Raises ValueError)
      as ->.
    { destruct E; [by apply calc_sleep_time_invalid_bed
                  | by apply calc_sleep_time_invalid_awake]. }
    split; [by intros e [= <-]|]. split; [done|]. split.
    + split; [by intros (? & ? & ?)|]. intros [Hb Ha]. destruct E; congruence.
    + intros st corr12 H. discriminate H.
Qed.

(** A bed time of 25:00 fails the range check; 23:00 and 07:00 pass. *)
Lemma calc_sleep_time_outcome_example :
  calc_sleep_time [Some (clock 25 0)] [Some (clock 7 0)] true 2 = Raises ValueError
  ∧ ∃ st corr12,
      calc_sleep_time [Some (clock 23 0)] [Some (clock 7 0)] true 2
      = Returns (st, corr12).
Proof.
  split.
  - apply (proj1 (proj2 (calc_sleep_time_outcome
                           [Some (clock 25 0)] [Some (clock 7 0)] true 2 ltac:(done)))).
    left. reflexivity.
  - apply (proj1 (proj2 (proj2 (calc_sleep_time_outcome
                           [Some (clock 23 0)] [Some (clock 7 0)] true 2 ltac:(done))))).
    split; reflexivity.
Defined.

(** ** Missing times *)

Lemma st_row_missing c12 m (a b : option Z) :
  a = None ∨ b = None → st_row c12 m a b = None ∧ corr12_row a b = 0.
Proof.
  intros H. unfold st_row, st_12, st_24, corr12_row, idx_correct_12, idx_min_12.
  destruct a as [a|], b as [b|]; try (by destruct H);
    simpl; rewrite ?andb_false_r; simpl; by rewrite ?andb_false_r.
Qed.

(** X2. A row on which the bed time or the waking time is missing gets a
    missing duration and the flag 0; it does not make the call fail. *)
Theorem calc_sleep_time_missing (bed_time awake_time : Series Z) (min_12 : Q)
    (i : nat) (b a : option Z) :
  valid_times bed_time = true → valid_times awake_time = true →
  bed_time !! i = Some b → awake_time !! i = Some a →
  b = None ∨ a = None →
  ∃ st corr12,
    calc_sleep_time bed_time awake_time true min_12 = Returns (st, Some corr12)
    ∧ st !! i = Some None ∧ corr12 !! i = Some 0.
Proof.
  intros Hb Ha Hi Hj Hmiss. do 2 eexists.
  split; [by rewrite calc_sleep_time_rows|].
  rewrite !(zip_with_lookup _ _ _ _ _ _ Hj Hi).
  destruct (st_row_missing true min_12 a b) as [-> ->]; [tauto|done].
Qed.

Lemma calc_sleep_time_missing_example :
  ∃ st corr12,
    calc_sleep_time [Some (clock 23 0); None] [Some (clock 7 0); Some (clock 8 0)] true 2
    = Returns (st, Some corr12)
    ∧ st !! 1%nat = Some None ∧ corr12 !! 1%nat = Some 0.
Proof.
  apply (calc_sleep_time_missing [Some (clock 23 0); None]
           [Some (clock 7 0); Some (clock 8 0)] 2 1 None (Some (clock 8 0)));
    first [reflexivity | by left].
Defined.

(** ** Range of the durations, whatever the options *)

Lemma st_12_strict (a b : Z) :
  idx_correct_12 (Some a) (Some b) = true →
  ∃ d, st_12 true (Some a) (Some b) = Some d ∧ (0 < d)%Q ∧ (d < 12)%Q.
Proof.
  intros E. destruct (st_12_some true a b) as (d & Hd & Heq).
  exists d. split; [done|]. rewrite E in Heq. simpl in Heq.
  apply idx_correct_12_iff in E. unfold Timedelta_hours, ns_per_hour in E.
  assert ((a <? b) = true) as Hlt by (apply Z.ltb_lt; lia).
  rewrite Hlt in Heq. rewrite Heq.
  split; unfold Qlt, Qplus, Qminus, Qopp; simpl; lia.
Qed.

(** X3. Whatever [correct_12] and [min_12], every duration that is returned
    lies in [0, 24] hours; and where the 12-hour flag is set, a duration
    that is returned lies strictly between 0 and 12 hours. *)
Theorem calc_sleep_time_range (bed_time awake_time : Series Z)
    (correct_12 : bool) (min_12 : Q) st corr12 :
  calc_sleep_time bed_time awake_time correct_12 min_12 = Returns (st, corr12) →
  ∀ (i : nat) (d : Q),
    st !! i = Some (Some d) →
    (0 <= d <= 24)%Q
    ∧ (∀ flags, corr12 = Some flags → flags !! i = Some 1 → (0 < d)%Q ∧ (d < 12)%Q).
Proof.
  intros Hret i d Hd.
  destruct (valid_times bed_time) eqn:Hb;
    [|by rewrite calc_sleep_time_invalid_bed in Hret].
  destruct (valid_times awake_time) eqn:Ha;
    [|by rewrite calc_sleep_time_invalid_awake in Hret].
  rewrite (calc_sleep_time_rows _ _ _ _ Hb Ha) in Hret.
  injection Hret as <- <-.
  apply lookup_zip_with_Some in Hd as (a & b & Hrow & Hia & Hib).
  assert (Hva : td_between 0 (Timedelta_hours 24) a || isna a = true).
  { unfold valid_times in Ha. rewrite forallb_forall in Ha.
    apply Ha, list_elem_of_In. eapply list_elem_of_lookup_2; eauto. }
  assert (Hvb : td_between 0 (Timedelta_hours 24) b || isna b = true).
  { unfold valid_times in Hb. rewrite forallb_forall in Hb.
    apply Hb, list_elem_of_In. eapply list_elem_of_lookup_2; eauto. }
  destruct (st_row_cases correct_12 min_12 a b) as [E|E]; rewrite E in Hrow; [done|].
  split.
  - pose proof (st_12_range correct_12 a b Hva Hvb) as Hr.
    rewrite <- Hrow in Hr. simpl in Hr.
    rewrite orb_false_r, andb_true_iff, !Qle_bool_iff in Hr. exact Hr.
  - intros flags Hf Hflag. destruct correct_12; [|done].
    injection Hf as <-.
    rewrite (zip_with_lookup _ _ _ _ _ _ Hia Hib) in Hflag.
    unfold corr12_row in Hflag.
    destruct (idx_correct_12 a b) eqn:Eidx; [|done].
    destruct a as [a|]; [|done]. destruct b as [b|]; [|by cbn in Eidx].
    destruct (st_12_strict a b Eidx) as (d' & Hd' & Hlt).
    rewrite Hd' in Hrow. by injection Hrow as ->.
Qed.

Lemma calc_sleep_time_range_example :
  ∃ st corr12,
    calc_sleep_time [Some (clock 2 0)] [Some (clock 1 50)] true 0 = Returns (st, corr12)
    ∧ ∀ (i : nat) (d : Q),
        st !! i = Some (Some d) →
        (0 <= d <= 24)%Q
        ∧ (∀ flags, corr12 = Some flags → flags !! i = Some 1 → (0 < d)%Q ∧ (d < 12)%Q).
Proof.
  do 2 eexists. split; [vm_compute; reflexivity|].
  apply (calc_sleep_time_range [Some (clock 2 0)] [Some (clock 1 50)] true 0).
  vm_compute. reflexivity.
Defined.

(** ** Outcome and shape of [calc_sleep_midpoint] *)

(** X4. Called with its default [correct_12=False] on a table with at least
    one row, [calc_sleep_midpoint] never returns: once the range check has
    passed it fails on unpacking the lone Series that [calc_sleep_time]
    then returns, with an [AttributeError] when that Series has exactly
    two rows and a [ValueError] otherwise; the [ValueError] is also that of
    a failed range check, and no other exception occurs.  (A table without
    rows is left out: pandas stops there with a [TypeError] at line
    102.) *)
Theorem calc_sleep_midpoint_without_correct_12 (bed_time awake_time : Series Z)
    (min_12 : Q) :
  zip awake_time bed_time ≠ [] →
  (∀ r, calc_sleep_midpoint bed_time awake_time false min_12 ≠ Returns r)
  ∧ (calc_sleep_midpoint bed_time awake_time false min_12 = Raises AttributeError
     ↔ valid_times bed_time = true ∧ valid_times awake_time = true
       ∧ length (zip awake_time bed_time) = 2%nat)
  ∧ (calc_sleep_midpoint bed_time awake_time false min_12 = Raises ValueError
     ↔ valid_times bed_time = false ∨ valid_times awake_time = false
       ∨ length (zip awake_time bed_time) ≠ 2%nat)
  ∧ (∀ e, calc_sleep_midpoint bed_time awake_time false min_12 = Raises e →
          e = AttributeError ∨ e = ValueError).
Proof.
  intros _. unfold calc_sleep_midpoint.
  destruct (valid_times bed_time && valid_times awake_time) eqn:E.
  - apply andb_true_iff in E as [Hb Ha].
    rewrite (calc_sleep_time_rows _ _ false min_12 Hb Ha).
    cbn [mbind outcome_bind fst snd]. rewrite length_zip_with, <- length_zip.
    destruct (decide (length (zip awake_time bed_time) = 2%nat)) as [Hl|Hl].
    + split; [done|]. split; [done|]. split.
      * split; [discriminate|]. intros [?|[?|?]]; congruence.
      * intros e [= <-]. by left.
    + split; [done|]. split; [|split].
      * split; [discriminate|]. by intros (_ & _ & ?).
      * split; [|done]. intros _. by right; right.
      * intros e [= <-]. by right.
  - apply valid_times_both in E.
    assert (calc_sleep_time bed_time awake_time false min_12 = Raises ValueError) as ->.
    { destruct E; [by apply calc_sleep_time_invalid_bed
                  | by apply calc_sleep_time_invalid_awake]. }
    cbn [mbind outcome_bind]. split; [done|]. split; [|split].
    + split; [discriminate|]. intros (Hb & Ha & _). destruct E; congruence.
    + split; [|done]. intros _. destruct E; [by left|by right; left].
    + intros e [= <-]. by right.
Qed.

(** One night, then two. *)
Lemma calc_sleep_midpoint_without_correct_12_example :
  calc_sleep_midpoint [Some (clock 23 0)] [Some (clock 7 0)] false 0
  = Raises ValueError
  ∧ calc_sleep_midpoint [Some (clock 23 0); Some (clock 22 0)]
                        [Some (clock 7 0); Some (clock 6 0)] false 0
    = Raises AttributeError.
Proof.
  split.
  - apply (proj1 (proj2 (proj2 (calc_sleep_midpoint_without_correct_12
                                  [Some (clock 23 0)] [Some (clock 7 0)] 0
                                  ltac:(done))))).
    right; right. simpl. lia.
  - apply (proj1 (proj2 (calc_sleep_midpoint_without_correct_12
                           [Some (clock 23 0); Some (clock 22 0)]
                           [Some (clock 7 0); Some (clock 6 0)] 0 ltac:(done)))).
    repeat split; reflexivity.
Defined.

Lemma round_half_even_minutes (v : Z) :
  ∃ k, round_half_even ns_per_min v = Timedelta_min k.
Proof.
  unfold round_half_even, Timedelta_min. destruct (_ || _); eauto.
Qed.

Lemma round_half_even_bounds (lo hi v : Z) :
  Timedelta_min lo ≤ v ≤ Timedelta_min hi →
  Timedelta_min lo ≤ round_half_even ns_per_min v ≤ Timedelta_min hi.
Proof.
  unfold round_half_even, Timedelta_min, ns_per_min. intros Hv.
  pose proof (Z.div_mod v 60000000000 ltac:(lia)) as Hdm.
  pose proof (Z.mod_pos_bound v 60000000000 ltac:(lia)) as Hr.
  set (q := v / 60000000000) in *. set (r := v mod 60000000000) in *.
  change (60000000000 / 2) with 30000000000.
  destruct ((30000000000 <? r) || (r =? 30000000000) && Z.odd q) eqn:E.
  - assert (0 < r).
    { apply orb_true_iff in E as [E|E].
      - apply Z.ltb_lt in E. lia.
      - apply andb_true_iff in E as [E _]. apply Z.eqb_eq in E. lia. }
    nia.
  - nia.
Qed.

Lemma midpoint_row_missing (m : Q) (a b : option Z) :
  a = None ∨ b = None → midpoint_row m a b = None.
Proof.
  intros H. unfold midpoint_row.
  destruct (st_row_missing true m a b H) as [-> _].
  destruct b; simpl; by rewrite ?andb_false_r.
Qed.

Lemma midpoint_row_corrected (m : Q) (a b : Z) :
  idx_correct_12 (Some a) (Some b) = true →
  midpoint_row m (Some a) (Some b) = None
  ∨ ∃ v, midpoint_row m (Some a) (Some b) = Some v
         ∧ Timedelta_hours 1 ≤ v ≤ Timedelta_hours 13.
Proof.
  intros E. unfold midpoint_row.
  destruct (st_row_cases true m (Some a) (Some b)) as [-> | ->]; [by left|].
  right. unfold corr12_row. rewrite E.
  destruct (st_12_corrected a b E) as (d & -> & Hd).
  apply Timedelta_of_hours_range in Hd.
  apply idx_correct_12_iff in E. simpl.
  rewrite andb_false_r, andb_true_r.
  rewrite Z.quot_div_nonneg by (unfold Timedelta_hours in Hd; lia).
  set (h := Timedelta_of_hours d / 2).
  assert (0 ≤ h ≤ Timedelta_hours 6).
  { subst h. unfold Timedelta_hours, ns_per_hour in *. Z.div_mod_to_equations. lia. }
  simpl. destruct (Timedelta_hours 13 <=? b + h) eqn:E13; simpl;
    (eexists; split; [reflexivity|]);
    [apply Z.leb_le in E13 | apply Z.leb_gt in E13];
    change (Timedelta_hours 1) with (Timedelta_min 60);
    change (Timedelta_hours 13) with (Timedelta_min 780);
    apply round_half_even_bounds;
    unfold Timedelta_hours, Timedelta_min, ns_per_hour, ns_per_min in *; lia.
Qed.

(** X5. With [correct_12=True], every midpoint that is returned is a whole
    number of minutes between 0 and 1440; a row with a missing clock time
    has a missing midpoint; and on a row where the 12-hour correction fires
    the midpoint lies between 01:00 and 13:00. *)
Theorem calc_sleep_midpoint_shape (bed_time awake_time : Series Z) (min_12 : Q)
    (sleep_midpoint : Series Z) :
  calc_sleep_midpoint bed_time awake_time true min_12 = Returns sleep_midpoint →
  ∀ (i : nat) (b a : option Z),
    bed_time !! i = Some b → awake_time !! i = Some a →
    (∀ v, sleep_midpoint !! i = Some (Some v) →
          ∃ k, v = Timedelta_min k ∧ 0 ≤ k ≤ 1440)
    ∧ (b = None ∨ a = None → sleep_midpoint !! i = Some None)
    ∧ (∀ onset offset v,
         b = Some onset → a = Some offset →
         offset < onset →
         Timedelta_hours 1 ≤ offset < Timedelta_hours 13 →
         Timedelta_hours 1 ≤ onset < Timedelta_hours 13 →
         sleep_midpoint !! i = Some (Some v) →
         Timedelta_hours 1 ≤ v ≤ Timedelta_hours 13).
Proof.
  intros Hret i b a Hi Hj.
  destruct (calc_sleep_midpoint_cases bed_time awake_time min_12)
    as [(Hb & Ha & _ & Hcase) | [(_ & _ & _ & Hcase) | (_ & Hcase)]];
    rewrite Hcase in Hret; [|discriminate Hret..].
  injection Hret as <-. clear Hcase.
  rewrite (zip_with_lookup _ _ _ _ _ _ Hj Hi).
  assert (Hva : td_between 0 (Timedelta_hours 24) a || isna a = true).
  { unfold valid_times in Ha. rewrite forallb_forall in Ha.
    apply Ha, list_elem_of_In. eapply list_elem_of_lookup_2; eauto. }
  assert (Hvb : td_between 0 (Timedelta_hours 24) b || isna b = true).
  { unfold valid_times in Hb. rewrite forallb_forall in Hb.
    apply Hb, list_elem_of_In. eapply list_elem_of_lookup_2; eauto. }
  split; [|split].
  - intros v [= Hv].
    pose proof (midpoint_row_range min_12 a b Hva Hvb) as Hr.
    rewrite Hv in Hr. simpl in Hr.
    rewrite orb_false_r, andb_true_iff, !Z.leb_le in Hr.
    unfold midpoint_row in Hv.
    match type of Hv with
    | fmap (M:=option) _ ?x = _ => destruct x as [w|]; [|done]
    end.
    simpl in Hv. injection Hv as <-.
    destruct (round_half_even_minutes w) as [k Hk]. exists k. split; [done|].
    rewrite Hk in Hr. unfold Timedelta_min, Timedelta_hours, ns_per_min, ns_per_hour in Hr.
    lia.
  - intros Hmiss. f_equal. apply midpoint_row_missing. tauto.
  - intros onset offset v -> -> Hlt Ho1 Ho2 [= Hv].
    assert (E : idx_correct_12 (Some offset) (Some onset) = true)
      by (apply idx_correct_12_iff; tauto).
    destruct (midpoint_row_corrected min_12 offset onset E) as [Hn | (w & Hw & Hr)];
      congruence.
Qed.

Lemma calc_sleep_midpoint_shape_example :
  ∃ sleep_midpoint,
    calc_sleep_midpoint [Some (clock 10 0)] [Some (clock 6 0)] true 2
    = Returns sleep_midpoint
    ∧ (∀ v, sleep_midpoint !! 0%nat = Some (Some v) →
            ∃ k, v = Timedelta_min k ∧ 0 ≤ k ≤ 1440)
    ∧ (Some (clock 10 0) = None ∨ Some (clock 6 0) = None →
       sleep_midpoint !! 0%nat = Some None)
    ∧ (∀ onset offset v,
         Some (clock 10 0) = Some onset → Some (clock 6 0) = Some offset →
         offset < onset →
         Timedelta_hours 1 ≤ offset < Timedelta_hours 13 →
         Timedelta_hours 1 ≤ onset < Timedelta_hours 13 →
         sleep_midpoint !! 0%nat = Some (Some v) →
         Timedelta_hours 1 ≤ v ≤ Timedelta_hours 13).
Proof.
  eexists. split; [vm_compute; reflexivity|].
  apply (calc_sleep_midpoint_shape [Some (clock 10 0)] [Some (clock 6 0)] 2%Q
           _ ltac:(vm_compute; reflexivity) 0%nat (Some (clock 10 0)) (Some (clock 6 0)));
    reflexivity.
Defined.

(** * Further properties of the daily sleep variables *)

Lemma st_row_in_range c12 m (a b : option Z) :
  td_between 0 (Timedelta_hours 24) a || isna a = true →
  td_between 0 (Timedelta_hours 24) b || isna b = true →
  st_row c12 m a b = None ∨ ∃ q, st_row c12 m a b = Some q ∧ (0 <= q <= 24)%Q.
Proof.
  intros Ha Hb. destruct (st_row_cases c12 m a b) as [-> | ->]; [by left|].
  pose proof (st_12_range c12 a b Ha Hb) as Hr.
  destruct (st_12 c12 a b) as [q|]; [right|by left].
  simpl in Hr. rewrite orb_false_r, andb_true_iff, !Qle_bool_iff in Hr. eauto.
Qed.

Lemma Qdiv_le_1 (t q : Q) : (0 < q)%Q → (t / q <= 1)%Q → (t <= q)%Q.
Proof.
  intros Hq H.
  assert (Hne : ¬ (q == 0)%Q) by (intros E; rewrite E in Hq; by apply Qlt_irrefl in Hq).
  apply (Qmult_le_r _ _ q Hq) in H.
  assert (Heq : (t / q * q == t)%Q) by (field; exact Hne).
  by rewrite Heq, Qmult_1_l in H.
Qed.

Lemma sleep_efficiency_consistent (x att naw lat : option Q) :
  (x = None ∨ ∃ q, x = Some q ∧ (0 <= q <= 24)%Q) →
  let o := sleep_efficiency (float_of x) (float_of att) (float_of naw) (float_of lat) in
  SE o = NaN
  ∨ ∃ se tst tib : Q,
      SE o = Fin se ∧ TST o = Fin tst ∧ TIB o = Fin tib
      ∧ (0 <= tst)%Q ∧ (tst <= tib)%Q ∧ (0 < tib)%Q ∧ (tib <= 24)%Q
      ∧ (se == tst / tib)%Q ∧ (0 <= se <= 1)%Q.
Proof.
  intros [-> | (q & -> & Hq0 & Hq24)] o; subst o.
  { left. unfold sleep_efficiency, SE_1323. simpl.
    by destruct (TST_1320 (float_of att) (float_of naw) (float_of lat)). }
  unfold sleep_efficiency, SE_1323. cbn [SE TIB float_of].
  destruct (TST_1320 (float_of att) (float_of naw) (float_of lat)) as [t| | |] eqn:Et.
  - assert (Ht : (0 <= t)%Q).
    { unfold TST_1320 in Et.
      destruct (fsub _ _) as [t'| | |] eqn:E'; simpl in Et; try done.
      destruct (Qlt_bool t' 0) eqn:Elt; [done|]. injection Et as <-.
      apply not_true_iff_false in Elt. rewrite Qlt_bool_iff in Elt.
      by apply Qnot_lt_le. }
    cbn [fdiv]. destruct (Qeq_bool q 0) eqn:Eq0.
    + left. destruct (Qlt_bool 0 t); [reflexivity|].
      destruct (Qlt_bool t 0); cbn [fgt flt SE TIB feq all_nan];
        rewrite ?Eq0; reflexivity.
    + assert (Hqpos : (0 < q)%Q).
      { apply Qle_lt_or_eq in Hq0 as [?|E]; [done|].
        apply not_true_iff_false in Eq0. exfalso. apply Eq0, Qeq_bool_iff. by symmetry. }
      cbn [fgt flt]. destruct (Qlt_bool 1 (t / q)) eqn:E1; [by left|].
      cbn [SE TIB feq]. rewrite Eq0. right.
      exists (t / q)%Q, t, q. cbn [SE TST TIB].
      apply not_true_iff_false in E1. rewrite Qlt_bool_iff in E1.
      apply Qnot_lt_le in E1.
      repeat split; try done.
      * by apply Qdiv_le_1.
      * apply Qle_shift_div_l; [done|]. by rewrite Qmult_0_l.
  - left. cbn [fdiv]. destruct (Qlt_bool q 0) eqn:Eneg.
    + apply Qlt_bool_iff in Eneg. exfalso. by apply (Qlt_not_le _ _ Eneg).
    + done.
  - exfalso. unfold TST_1320 in Et.
    destruct (fsub _ _) as [t'| | |]; simpl in Et; try done.
    by destruct (Qlt_bool t' 0).
  - left. cbn [fdiv fgt flt SE TIB feq]. by destruct (Qeq_bool q 0).
Qed.

(** X6. On every row of the table [daily_sleep] returns, either [SE] is
    missing, or [SE], [TST] and [TIB] are all present with
    0 <= TST <= TIB <= 24, TIB > 0 and SE = TST / TIB in [0, 1]: a total
    sleep time never exceeds the time in bed it is reported with. *)
Theorem daily_sleep_consistent (data : list sleep_diary) (out : list sleep_vars) :
  daily_sleep data = Returns out →
  ∀ o, o ∈ out →
       SE o = NaN
       ∨ ∃ se tst tib : Q,
           SE o = Fin se ∧ TST o = Fin tst ∧ TIB o = Fin tib
           ∧ (0 <= tst)%Q ∧ (tst <= tib)%Q ∧ (0 < tib)%Q ∧ (tib <= 24)%Q
           ∧ (se == tst / tib)%Q ∧ (0 <= se <= 1)%Q.
Proof.
  intros Hret o Ho. unfold daily_sleep in Hret.
  destruct (valid_times (sleepdiary_bedtime <$> data)) eqn:H1;
    [|rewrite (calc_sleep_time_invalid_bed _ _ true 3 H1) in Hret; discriminate Hret].
  destruct (valid_times (sleepdiary_outofbed <$> data)) eqn:H2;
    [|rewrite (calc_sleep_time_invalid_awake _ _ true 3 H2) in Hret; discriminate Hret].
  rewrite (calc_sleep_time_rows _ _ true 3 H1 H2) in Hret.
  cbn [mbind outcome_bind] in Hret.
  destruct (calc_sleep_time _ _ true 2) as [att|]; [|done].
  cbn [mbind outcome_bind mret outcome_ret fst] in Hret. injection Hret as <-.
  apply list_elem_of_lookup in Ho as [i Hi].
  apply lookup_zip_with_Some in Hi as ([x y] & r & -> & Hxy & _).
  apply lookup_zip_with_Some in Hxy as (x' & y' & [= <- <-] & Hx & _).
  apply lookup_zip_with_Some in Hx as (a & b & -> & Ha & Hb).
  apply sleep_efficiency_consistent.
  assert (Hva : td_between 0 (Timedelta_hours 24) a || isna a = true).
  { unfold valid_times in H2. rewrite forallb_forall in H2.
    apply H2, list_elem_of_In. eapply list_elem_of_lookup_2; eauto. }
  assert (Hvb : td_between 0 (Timedelta_hours 24) b || isna b = true).
  { unfold valid_times in H1. rewrite forallb_forall in H1.
    apply H1, list_elem_of_In. eapply list_elem_of_lookup_2; eauto. }
  apply st_row_in_range; done.
Qed.

Lemma daily_sleep_consistent_example :
  ∃ out,
    daily_sleep [SleepDiary (Some (clock 23 0)) (Some (clock 23 30))
                            (Some (clock 6 30)) (Some (clock 7 0))
                            (Some 20%Q) (Some 10%Q)] = Returns out ∧
    ∀ o, o ∈ out →
         SE o = NaN
         ∨ ∃ se tst tib : Q,
             SE o = Fin se ∧ TST o = Fin tst ∧ TIB o = Fin tib
             ∧ (0 <= tst)%Q ∧ (tst <= tib)%Q ∧ (0 < tib)%Q ∧ (tib <= 24)%Q
             ∧ (se == tst / tib)%Q ∧ (0 <= se <= 1)%Q.
Proof.
  eexists. split; [vm_compute; reflexivity|].
  apply (daily_sleep_consistent
           [SleepDiary (Some (clock 23 0)) (Some (clock 23 30))
                       (Some (clock 6 30)) (Some (clock 7 0))
                       (Some 20%Q) (Some 10%Q)]).
  vm_compute. reflexivity.
Defined.

(** * Pittsburgh Sleep Quality Index *)

Lemma Qle_bool_false (x y : Q) : Qle_bool x y = false ↔ (y < x)%Q.
Proof.
  rewrite <- not_true_iff_false, Qle_bool_iff.
  split; [apply Qnot_le_lt | apply Qlt_not_le].
Qed.

Lemma Qlt_bool_false (x y : Q) : Qlt_bool x y = false ↔ (y <= x)%Q.
Proof.
  rewrite <- not_true_iff_false, Qlt_bool_iff.
  split; [apply Qnot_lt_le | apply Qle_not_lt].
Qed.

(** X7. The four assignments of lines 1382-1385 resolve into one ladder on the
    hours slept: 7 or more scores 0, from 6 up to 7 scores 1, from 5 up to
    6 scores 2, less than 5 scores 3; missing hours give a missing score. *)
Theorem PSQIDURAT_ladder (v : Q) :
  PSQIDURAT None = None
  ∧ ((7 <= v)%Q → PSQIDURAT (Some v) = Some 0)
  ∧ ((6 <= v)%Q → (v < 7)%Q → PSQIDURAT (Some v) = Some 1)
  ∧ ((5 <= v)%Q → (v < 6)%Q → PSQIDURAT (Some v) = Some 2)
  ∧ ((v < 5)%Q → PSQIDURAT (Some v) = Some 3).
Proof.
  split; [reflexivity|]. unfold PSQIDURAT, fl_ge, fl_lt.
  destruct (Qle_bool 7 v) eqn:E7, (Qlt_bool v 7) eqn:L7,
           (Qlt_bool v 6) eqn:L6, (Qlt_bool v 5) eqn:L5;
    rewrite ?Qle_bool_iff, ?Qle_bool_false, ?Qlt_bool_iff, ?Qlt_bool_false in *;
    repeat split; intros; try reflexivity; exfalso;
    repeat match goal with
           | H : (_ <= _)%Q |- _ => revert H
           | H : (_ < _)%Q |- _ => revert H
           end;
    unfold Qle, Qlt; simpl; lia.
Qed.

(** X8. The assignments of lines 1397-1400 resolve into a ladder on the minutes
    to fall asleep: 0 to 15 scores 0, above 15 up to 30 scores 1, above 30
    up to 60 scores 2, above 60 scores 3; a negative or missing number of
    minutes gives a missing score. *)
Theorem psqi_2NEW_ladder (v : Q) :
  psqi_2NEW None = None
  ∧ ((v < 0)%Q → psqi_2NEW (Some v) = None)
  ∧ ((0 <= v)%Q → (v <= 15)%Q → psqi_2NEW (Some v) = Some 0)
  ∧ ((15 < v)%Q → (v <= 30)%Q → psqi_2NEW (Some v) = Some 1)
  ∧ ((30 < v)%Q → (v <= 60)%Q → psqi_2NEW (Some v) = Some 2)
  ∧ ((60 < v)%Q → psqi_2NEW (Some v) = Some 3).
Proof.
  split; [reflexivity|]. unfold psqi_2NEW, fl_between, fl_gt.
  destruct (Qle_bool 0 v) eqn:E0, (Qle_bool v 15) eqn:E15, (Qlt_bool 15 v) eqn:L15,
           (Qlt_bool 30 v) eqn:L30, (Qlt_bool 60 v) eqn:L60;
    rewrite ?Qle_bool_iff, ?Qle_bool_false, ?Qlt_bool_iff, ?Qlt_bool_false in *;
    repeat split; intros; try reflexivity; exfalso;
    repeat match goal with
           | H : (_ <= _)%Q |- _ => revert H
           | H : (_ < _)%Q |- _ => revert H
           end;
    unfold Qle, Qlt; simpl; lia.
Qed.

Lemma psqi_2NEW_example :
  psqi_2NEW (Some 45%Q) = Some 2 ∧ psqi_2NEW (Some 5%Q) = Some 0.
Proof.
  split.
  - apply (proj1 (proj2 (proj2 (proj2 (proj2 (psqi_2NEW_ladder 45))))));
      unfold Qlt, Qle; simpl; lia.
  - apply (proj1 (proj2 (proj2 (psqi_2NEW_ladder 5)))); unfold Qle; simpl; lia.
Defined.

Lemma PSQIDURAT_example :
  PSQIDURAT (Some (13 # 2)) = Some 1 ∧ PSQIDURAT (Some 4%Q) = Some 3.
Proof.
  split.
  - apply (proj1 (proj2 (proj2 (PSQIDURAT_ladder (13 # 2)))));
      unfold Qlt, Qle; simpl; lia.
  - apply (proj2 (proj2 (proj2 (proj2 (PSQIDURAT_ladder 4))))).
    unfold Qlt; simpl; lia.
Defined.

(** ** The efficiency and the time in bed *)

Lemma fgt_1_after (e : float) :
  fgt (if fgt e (Fin 1) then NaN else e) (Fin 1) = false.
Proof. destruct (fgt e (Fin 1)) eqn:E; [reflexivity | exact E]. Qed.

(** X9. Once line 1416 has set the efficiencies above 1 to missing, no
    efficiency exceeds 1, so line 1417 replaces no time in bed: [PSQI_TIB]
    keeps the value [calc_sleep_time] gave it on every row, also where the
    hours slept exceed it, and such a row has a missing efficiency and a
    missing efficiency category. *)
Theorem PSQI_TIB_is_kept (hours tib : option Q) :
  PSQI_TIB hours tib = float_of tib
  ∧ fgt (PSQI_sleep_eff hours tib) (Fin 1) = false
  ∧ (fgt (fdiv (float_of hours) (float_of tib)) (Fin 1) = true →
     PSQI_sleep_eff hours tib = NaN
     ∧ PSQIHSE (PSQI_sleep_eff hours tib) = None).
Proof.
  assert (H : fgt (PSQI_sleep_eff hours tib) (Fin 1) = false)
    by apply fgt_1_after.
  split; [|split].
  - unfold PSQI_TIB. by rewrite H.
  - exact H.
  - intros E. unfold PSQI_sleep_eff. rewrite E. done.
Qed.

Lemma PSQI_TIB_is_kept_example :
  PSQI_sleep_eff (Some 9%Q) (Some 8%Q) = NaN
  ∧ PSQIHSE (PSQI_sleep_eff (Some 9%Q) (Some 8%Q)) = None.
Proof.
  apply (proj2 (proj2 (PSQI_TIB_is_kept (Some 9%Q) (Some 8%Q)))). reflexivity.
Defined.

(** ** Range of the components and of the total *)

Lemma in_0_3_isin (x : option Z) : in_0_3 x → isin_0_3 x = true.
Proof.
  intros [-> | (v & -> & Hv)]; [reflexivity|].
  assert (v = 0 ∨ v = 1 ∨ v = 2 ∨ v = 3) as [-> | [-> | [-> | ->]]] by lia;
    reflexivity.
Qed.

Lemma sum_skipna_false_bounds (cols : list string) (r : gmap string Z) (lo hi : Z) :
  (∀ c v, c ∈ cols → r !! c = Some v → lo ≤ v ≤ hi) →
  sum_skipna_false cols r = None
  ∨ ∃ s, sum_skipna_false cols r = Some s
         ∧ lo * Z.of_nat (length cols) ≤ s ≤ hi * Z.of_nat (length cols).
Proof.
  induction cols as [|c cols IH]; intros Hr; simpl.
  - right. exists 0. split; [done|]. lia.
  - destruct (r !! c) as [v|] eqn:Ec; [|by left]. simpl.
    destruct IH as [-> | (s & -> & Hs)].
    + intros c' v' Hc. apply Hr. by right.
    + by left.
    + right. exists (v + s). split; [done|].
      assert (lo ≤ v ≤ hi) by (apply (Hr c); [by left|done]). lia.
Qed.

Lemma sum_options_bounds (l : list (option Z)) :
  Forall in_0_3 l →
  sum_options l = None
  ∨ ∃ s, sum_options l = Some s ∧ 0 ≤ s ≤ 3 * Z.of_nat (length l).
Proof.
  induction 1 as [|x l Hx _ IH]; simpl.
  - right. exists 0. split; [done|]. lia.
  - destruct Hx as [-> | (v & -> & Hv)]; [by left|]. simpl.
    destruct IH as [-> | (s & -> & Hs)]; [by left|].
    right. exists (v + s). split; [done|]. lia.
Qed.

Lemma band_pairs_in_0_3 (x : option Z) :
  (x = None ∨ ∃ v, x = Some v ∧ 0 ≤ v ≤ 6) → in_0_3 (band_pairs x).
Proof.
  intros [-> | (v & -> & Hv)]; [by left|]. right.
  assert (v = 0 ∨ v = 1 ∨ v = 2 ∨ v = 3 ∨ v = 4 ∨ v = 5 ∨ v = 6)
    as [-> | [-> | [-> | [-> | [-> | [-> | ->]]]]]] by lia;
    eexists; (split; [vm_compute; reflexivity|]); lia.
Qed.

Lemma PSQIDURAT_in_0_3 (h : option Q) : in_0_3 (PSQIDURAT h).
Proof.
  unfold PSQIDURAT.
  destruct (fl_lt h 5); [right; exists 3; split; [done|lia]|].
  destruct (fl_lt h 6); [right; exists 2; split; [done|lia]|].
  destruct (fl_lt h 7); [right; exists 1; split; [done|lia]|].
  destruct (fl_ge h 7); [right; exists 0; split; [done|lia]|by left].
Qed.

Lemma psqi_2NEW_in_0_3 (m : option Q) : in_0_3 (psqi_2NEW m).
Proof.
  unfold psqi_2NEW.
  destruct (fl_gt m 60); [right; exists 3; split; [done|lia]|].
  destruct (fl_gt m 30); [right; exists 2; split; [done|lia]|].
  destruct (fl_gt m 15); [right; exists 1; split; [done|lia]|].
  destruct (fl_between 0 15 m); [right; exists 0; split; [done|lia]|by left].
Qed.

Lemma PSQIHSE_in_0_3 (e : float) : in_0_3 (PSQIHSE e).
Proof.
  unfold PSQIHSE.
  destruct (flt e (Fin (65 # 100))); [right; exists 3; split; [done|lia]|].
  destruct (_ && _); [right; exists 2; split; [done|lia]|].
  destruct (_ && _); [right; exists 1; split; [done|lia]|].
  destruct (fge e _); [right; exists 0; split; [done|lia]|by left].
Qed.


Lemma items_in_0_3_check (r : gmap string Z) :
  forallb (fun c => match r !! c with
                    | Some v => (0 <=? v) && (v <=? 3)
                    | None => true
                    end) psqi_item_names = true →
  items_in_0_3 r.
Proof.
  intros H c v Hc Hv. rewrite forallb_forall in H.
  specialize (H c (proj1 (list_elem_of_In _ _) Hc)). rewrite Hv in H. lia.
Qed.

Lemma psqi_5b_5j_items (c : string) : c ∈ psqi_5b_5j → c ∈ psqi_item_names.
Proof.
  intros Hc. unfold psqi_item_names.
  apply elem_of_app. right. apply elem_of_app. by left.
Qed.

Lemma psqi_item_names_elem (c : string) :
  bool_decide (c ∈ psqi_item_names) = true → c ∈ psqi_item_names.
Proof. apply bool_decide_eq_true_1. Qed.

Lemma PSQIDISTB_in_0_3 (txt : option string) (r : gmap string Z) :
  items_in_0_3 r → in_0_3 (PSQIDISTB txt r).
Proof.
  intros Hr. unfold PSQIDISTB.
  set (r' := if isna txt || isna (r !! "psqi_5j") then <["psqi_5j" := 0]> r else r).
  destruct (sum_skipna_false_bounds psqi_5b_5j r' 0 3) as [-> | (s & -> & Hs)].
  - intros c v Hc. subst r'. destruct (_ || _).
    + destruct (decide (c = "psqi_5j")) as [->|Hne].
      * rewrite lookup_insert_eq. intros [= <-]. lia.
      * rewrite lookup_insert_ne by done. apply Hr. by apply psqi_5b_5j_items.
    + apply Hr. by apply psqi_5b_5j_items.
  - by left.
  - right. simpl in Hs. unfold z_between.
    destruct (decide (s = 0)) as [->|]; [exists 0; split; [done|lia]|].
    destruct (decide (s ≤ 9)).
    + exists 1. split; [|lia].
      assert ((1 <=? s) && (s <=? 9) = true) as -> by lia. reflexivity.
    + assert ((1 <=? s) && (s <=? 9) = false) as -> by lia.
      destruct (decide (s ≤ 18)).
      * exists 2. split; [|lia].
        assert ((10 <=? s) && (s <=? 18) = true) as -> by lia. reflexivity.
      * assert ((10 <=? s) && (s <=? 18) = false) as -> by lia.
        exists 3. split; [|lia].
        assert ((18 <? s) = true) as -> by lia. reflexivity.
Qed.

Lemma PSQILATEN_in_0_3 (m : option Q) (r : gmap string Z) :
  items_in_0_3 r → in_0_3 (PSQILATEN m r).
Proof.
  intros Hr. unfold PSQILATEN. apply band_pairs_in_0_3.
  destruct (psqi_2NEW_in_0_3 m) as [-> | (x & -> & Hx)]; [by left|]. simpl.
  destruct (r !! "psqi_5a") as [y|] eqn:Ey; [|by left]. simpl.
  right. exists (x + y). split; [done|].
  assert (0 ≤ y ≤ 3) by (apply (Hr "psqi_5a"); [by apply psqi_item_names_elem|done]).
  lia.
Qed.

Lemma PSQIDAYDYS_in_0_3 (r : gmap string Z) :
  items_in_0_3 r → in_0_3 (PSQIDAYDYS r).
Proof.
  intros Hr. apply band_pairs_in_0_3.
  destruct (sum_skipna_false_bounds ["psqi_8"; "psqi_9"] r 0 3) as [-> | (s & -> & Hs)].
  - intros c v Hc. apply Hr.
    apply elem_of_cons in Hc as [-> | Hc]; [by apply psqi_item_names_elem|].
    apply elem_of_cons in Hc as [-> | Hc]; [by apply psqi_item_names_elem|].
    by apply elem_of_nil in Hc.
  - by left.
  - right. exists s. split; [done|]. simpl in Hs. lia.
Qed.

Lemma item_in_0_3 (r : gmap string Z) (c : string) :
  items_in_0_3 r → c ∈ psqi_item_names → in_0_3 (r !! c).
Proof.
  intros Hr Hc. destruct (r !! c) as [v|] eqn:E; [right|by left].
  exists v. split; [done|]. by apply (Hr c).
Qed.

Lemma PSQI_components_in_0_3 (tib : option Q) (r : psqi_row) :
  items_in_0_3 (psqi_items r) → Forall in_0_3 (PSQI_components tib r).
Proof.
  intros Hr. unfold PSQI_components.
  repeat (apply Forall_cons; split); [..|apply Forall_nil_2].
  - apply PSQIDURAT_in_0_3.
  - by apply PSQIDISTB_in_0_3.
  - by apply PSQILATEN_in_0_3.
  - by apply PSQIDAYDYS_in_0_3.
  - apply PSQIHSE_in_0_3.
  - apply item_in_0_3; [done|]. by apply psqi_item_names_elem.
  - apply item_in_0_3; [done|]. by apply psqi_item_names_elem.
Qed.

Lemma forallb_fmap_true {A B} (f : A → B) (p : B → bool) (l : list A) :
  (∀ x, x ∈ l → p (f x) = true) → forallb p (f <$> l) = true.
Proof.
  intros H. apply forallb_forall. intros y Hy.
  apply list_elem_of_In, list_elem_of_fmap in Hy as (x & -> & Hx). by apply H.
Qed.

(** X10. When every answered item of every row is one of 0, 1, 2, 3 and the
    bed and rising times pass the range check, none of the five assertions
    of the block fails: it returns one total and one time in bed per row,
    each total missing or between 0 and 21. *)
Theorem PSQI_round1_total (r1 : list psqi_row) :
  Forall (fun r => items_in_0_3 (psqi_items r)) r1 →
  valid_times (psqi_1 <$> r1) = true → valid_times (psqi_3 <$> r1) = true →
  ∃ total tibs,
    PSQI_round1 r1 = Returns (total, tibs)
    ∧ length total = length r1 ∧ length tibs = length r1
    ∧ ∀ x, x ∈ total → x = None ∨ ∃ v, x = Some v ∧ 0 ≤ v ≤ 21.
Proof.
  intros Hitems H1 H3. rewrite Forall_forall in Hitems.
  unfold PSQI_round1.
  rewrite (forallb_fmap_true (fun r => PSQIDURAT (psqi_4 r)) isin_0_3)
    by (intros r _; apply in_0_3_isin, PSQIDURAT_in_0_3).
  rewrite (forallb_fmap_true (fun r => PSQIDISTB (psqi_5j2 r) (psqi_items r)) isin_0_3)
    by (intros r Hr; apply in_0_3_isin, PSQIDISTB_in_0_3, Hitems, Hr).
  rewrite (forallb_fmap_true (fun r => psqi_2NEW (psqi_2 r)) isin_0_3)
    by (intros r _; apply in_0_3_isin, psqi_2NEW_in_0_3).
  rewrite (forallb_fmap_true (fun r => PSQILATEN (psqi_2 r) (psqi_items r)) isin_0_3)
    by (intros r Hr; apply in_0_3_isin, PSQILATEN_in_0_3, Hitems, Hr).
  rewrite (calc_sleep_time_rows _ _ true 3 H1 H3).
  cbn [assert mbind outcome_bind mret outcome_ret fst snd].
  set (tib := zip_with (st_row true 3) (psqi_3 <$> r1) (psqi_1 <$> r1)).
  assert (Htot : ∀ x,
    x ∈ zip_with (fun t r => sum_options (PSQI_components t r)) tib r1 →
    x = None ∨ ∃ v, x = Some v ∧ 0 ≤ v ≤ 21).
  { intros x Hx. apply list_elem_of_lookup in Hx as [i Hi].
    apply lookup_zip_with_Some in Hi as (t & r & -> & _ & Hr).
    apply list_elem_of_lookup_2 in Hr.
    destruct (sum_options_bounds _ (PSQI_components_in_0_3 t r (Hitems r Hr)))
      as [-> | (s & -> & Hs)]; [by left|].
    right. exists s. split; [done|]. simpl in Hs. lia. }
  assert (forallb (fun x => z_between 0 21 x || isna x)
            (zip_with (fun t r => sum_options (PSQI_components t r)) tib r1) = true)
    as ->.
  { apply forallb_forall. intros x Hx. apply list_elem_of_In, Htot in Hx.
    destruct Hx as [-> | (v & -> & Hv)]; [reflexivity|]. simpl.
    rewrite orb_false_r. lia. }
  do 2 eexists. split; [reflexivity|].
  assert (length tib = length r1) as Hlen.
  { subst tib. rewrite length_zip_with, !length_fmap. lia. }
  split; [rewrite length_zip_with; lia|]. split; [rewrite length_zip_with; lia|].
  exact Htot.
Qed.

Lemma PSQI_round1_total_example :
  ∃ total tibs,
    PSQI_round1
      [PsqiRow (Some (clock 23 0)) (Some (clock 7 0)) (Some 20%Q) (Some 7%Q) None
         (list_to_map [("psqi_5a", 1); ("psqi_5b", 1); ("psqi_5c", 1); ("psqi_5d", 1);
                       ("psqi_5e", 1); ("psqi_5f", 1); ("psqi_5g", 1); ("psqi_5h", 1);
                       ("psqi_5i", 1); ("psqi_6", 1); ("psqi_7", 0); ("psqi_8", 1);
                       ("psqi_9", 2)])]
    = Returns (total, tibs)
    ∧ length total = 1%nat ∧ length tibs = 1%nat
    ∧ ∀ x, x ∈ total → x = None ∨ ∃ v, x = Some v ∧ 0 ≤ v ≤ 21.
Proof.
  apply PSQI_round1_total; [|reflexivity..].
  constructor; [|constructor].
  apply items_in_0_3_check. vm_compute. reflexivity.
Defined.

(** * The reference date of a daily row *)

Lemma filter_eq_length_pos_inv {A} `{EqDecision A} (k : A) (l : list A) :
  (0 < length (filter (fun k' => k' = k) l))%nat → k ∈ l.
Proof.
  intros Hlen. destruct (filter (fun k' => k' = k) l) as [|x l'] eqn:E; [simpl in Hlen; lia|].
  assert (x ∈ filter (fun k' => k' = k) l) as Hx by (rewrite E; by left).
  apply list_elem_of_filter in Hx as [-> Hx]. done.
Qed.

Lemma filter_eq_length_two_inv {A} `{EqDecision A} (k : A) (l : list A) (i : nat) :
  (1 < length (filter (fun k' => k' = k) l))%nat → l !! i = Some k →
  ∃ j, j ≠ i ∧ l !! j = Some k.
Proof.
  revert i. induction l as [|x l IH]; intros i Hlen Hi; [done|].
  rewrite filter_cons in Hlen. destruct i as [|i]; simpl in Hi.
  - injection Hi as ->. rewrite decide_True in Hlen by done. simpl in Hlen.
    assert (k ∈ l) as Hk by (apply filter_eq_length_pos_inv; lia).
    apply list_elem_of_lookup in Hk as [j Hj]. exists (S j). split; [lia|done].
  - destruct (decide (x = k)) as [->|Hne].
    + exists 0%nat. split; [lia|done].
    + destruct (IH i Hlen Hi) as (j & Hj & Hlj). exists (S j). split; [lia|done].
Qed.

Lemma sub_date_duplicates_lookup (data : list (row Z daily_cells)) (i : nat)
    (r : row Z daily_cells) :
  data !! i = Some r →
  ∃ b, sub_date_duplicates data !! i = Some b ∧
    (b = true ↔
     ∃ j r', j ≠ i ∧ data !! j = Some r' ∧ subj r' = subj r ∧
             normalize (todays_date (cells r')) = normalize (todays_date (cells r))).
Proof.
  intros Hi. unfold sub_date_duplicates.
  rewrite list_lookup_fmap, list_lookup_fmap, Hi. simpl.
  eexists. split; [reflexivity|].
  rewrite bool_decide_eq_true. split.
  - intros Hlen.
    destruct (filter_eq_length_two_inv _ _ i Hlen) as (j & Hj & Hlj).
    { by rewrite list_lookup_fmap, Hi. }
    rewrite list_lookup_fmap in Hlj.
    destruct (data !! j) as [r'|] eqn:Ej; [|done]. simpl in Hlj.
    injection Hlj as Hs Hd. by exists j, r'.
  - intros (j & r' & Hj & Hlj & Hs & Hd).
    apply (filter_eq_length_two _ _ i j); [done|..].
    + by rewrite list_lookup_fmap, Hi.
    + rewrite list_lookup_fmap, Hlj. simpl. by rewrite Hs, Hd.
Qed.

(** X11. [sub_date_duplicates(data, keep=False)] returns one flag per row, and
    flags a row exactly when another row of the table has its subject and
    its calendar day; the time of day of [todays_date] plays no part. *)
Theorem sub_date_duplicates_iff (data : list (row Z daily_cells)) (i : nat)
    (r : row Z daily_cells) :
  data !! i = Some r →
  length (sub_date_duplicates data) = length data
  ∧ ∃ b, sub_date_duplicates data !! i = Some b ∧
    (b = true ↔
     ∃ j r', j ≠ i ∧ data !! j = Some r' ∧ subj r' = subj r ∧
             normalize (todays_date (cells r')) = normalize (todays_date (cells r))).
Proof.
  intros Hi. split; [apply length_sub_date_duplicates|].
  by apply sub_date_duplicates_lookup.
Qed.

Lemma sub_date_duplicates_iff_example :
  length (sub_date_duplicates
            [Row 7 1 (Daily (3 * ns_per_day + Timedelta_hours 9) None);
             Row 7 2 (Daily (3 * ns_per_day + Timedelta_hours 21) None)])
  = length [Row 7 1 (Daily (3 * ns_per_day + Timedelta_hours 9) None);
            Row 7 2 (Daily (3 * ns_per_day + Timedelta_hours 21) None)]
  ∧ ∃ b, sub_date_duplicates
         [Row 7 1 (Daily (3 * ns_per_day + Timedelta_hours 9) None);
          Row 7 2 (Daily (3 * ns_per_day + Timedelta_hours 21) None)] !! 0%nat = Some b ∧
    (b = true ↔
     ∃ j r', j ≠ 0%nat ∧
       [Row 7 1 (Daily (3 * ns_per_day + Timedelta_hours 9) None);
        Row 7 2 (Daily (3 * ns_per_day + Timedelta_hours 21) None)] !! j = Some r' ∧
       subj r' = subj (Row 7 1 (Daily (3 * ns_per_day + Timedelta_hours 9) None)) ∧
       normalize (todays_date (cells r'))
       = normalize (todays_date (cells (Row 7 1 (Daily (3 * ns_per_day + Timedelta_hours 9) None))))).
Proof. apply sub_date_duplicates_iff. reflexivity. Defined.

Lemma normalize_minus_day (t : Z) : normalize (t - ns_per_day) = normalize t - ns_per_day.
Proof. unfold normalize, ns_per_day. Z.div_mod_to_equations. lia. Qed.

Lemma normalize_idemp (t : Z) : normalize (normalize t) = normalize t.
Proof. unfold normalize, ns_per_day. Z.div_mod_to_equations. lia. Qed.

(** X12. A daily row gets no reference date, and is listed in
    [ref_date_problems.csv], when another row has its subject and calendar
    day or when [todays_date] is more than one day away from the survey
    timestamp.  Every other row refers to the calendar day before
    [todays_date], and to the day before that when [todays_date] has a
    time of day from midnight to 04:00 included. *)
Theorem reference_date_rows (data : list (row Z daily_cells)) (i : nat)
    (r : row Z daily_cells) :
  data !! i = Some r →
  let problem :=
    (∃ j r', j ≠ i ∧ data !! j = Some r' ∧ subj r' = subj r ∧
             normalize (todays_date (cells r')) = normalize (todays_date (cells r)))
    ∨ far_from_timestamp (cells r) = true in
  ∃ ref, (reference_date data).2 !! i = Some (r, ref) ∧
    (problem → ref = None ∧ r ∈ (reference_date data).1) ∧
    (¬ problem →
       ref = Some (normalize (todays_date (cells r))
                   - (if early_morning (cells r) then 2 else 1) * ns_per_day)).
Proof.
  intros Hi problem.
  destruct (sub_date_duplicates_lookup data i r Hi) as (b & Hb & Hiff).
  unfold reference_date. cbn [fst snd].
  set (idx := zip_with (fun dup r0 => dup || far_from_timestamp (cells r0))
                       (sub_date_duplicates data) data).
  assert (Hidx : idx !! i = Some (b || far_from_timestamp (cells r))).
  { subst idx. by rewrite (zip_with_lookup _ _ _ _ _ _ Hb Hi). }
  assert (Hp : problem ↔ b || far_from_timestamp (cells r) = true).
  { unfold problem. rewrite orb_true_iff, Hiff. done. }
  set (v := if b || far_from_timestamp (cells r) then None
            else Some (todays_date (cells r) - ns_per_day)).
  set (v' := if early_morning (cells r)
             then (fun v => v + - ns_per_day) <$> v else v).
  exists (normalize <$> v'). split.
  { apply zip_with_lookup; [done|].
    rewrite list_lookup_fmap.
    erewrite zip_with_lookup; [|done|by rewrite (zip_with_lookup _ _ _ _ _ _ Hi Hidx)].
    reflexivity. }
  subst v v'. split.
  - intros Hpr. apply Hp in Hpr. rewrite Hpr. split.
    + by destruct (early_morning (cells r)).
    + apply list_elem_of_fmap. exists (r, true). split; [done|].
      apply list_elem_of_filter. split; [done|].
      rewrite Hpr in Hidx. apply (list_elem_of_lookup_2 _ i).
      by rewrite (zip_with_lookup _ _ _ _ _ _ Hi Hidx).
  - intros Hnp. rewrite Hp in Hnp. apply not_true_is_false in Hnp. rewrite Hnp.
    destruct (early_morning (cells r)); cbn [fmap option_fmap option_map]; f_equal.
    + replace (todays_date (cells r) - ns_per_day + - ns_per_day)
        with (todays_date (cells r) - ns_per_day - ns_per_day) by lia.
      rewrite !normalize_minus_day. lia.
    + rewrite normalize_minus_day. lia.
Qed.

Lemma reference_date_rows_example :
  ∃ ref, (reference_date
            [Row 7 1 (Daily (3 * ns_per_day + Timedelta_hours 2)
                            (Some (3 * ns_per_day + Timedelta_hours 2)))]).2 !! 0%nat
         = Some (Row 7 1 (Daily (3 * ns_per_day + Timedelta_hours 2)
                                (Some (3 * ns_per_day + Timedelta_hours 2))), ref)
         ∧ ref = Some (1 * ns_per_day).
Proof.
  destruct (reference_date_rows
              [Row 7 1 (Daily (3 * ns_per_day + Timedelta_hours 2)
                              (Some (3 * ns_per_day + Timedelta_hours 2)))] 0
              (Row 7 1 (Daily (3 * ns_per_day + Timedelta_hours 2)
                              (Some (3 * ns_per_day + Timedelta_hours 2)))) eq_refl)
    as (ref & Href & _ & Hok).
  exists ref. split; [exact Href|].
  rewrite Hok; [vm_compute; reflexivity|].
  intros [(j & r' & Hj & Hr' & _) | Hfar]; [|vm_compute in Hfar; discriminate].
  destruct j as [|j]; [done|]. destruct j; discriminate Hr'.
Defined.

(** * Impossible values, continued *)

Lemma nan_above_le (bound : Q) (x : option Q) :
  from_option (fun v => (v <= bound)%Q) True (nan_above bound x).
Proof.
  destruct x as [v|]; simpl; [|done].
  destruct (Qlt_bool bound v) eqn:E; simpl; [done|]. by apply Qlt_bool_false.
Qed.

Lemma nan_above_idemp (bound : Q) (x : option Q) :
  nan_above bound (nan_above bound x) = nan_above bound x.
Proof.
  destruct x as [v|]; simpl; [|done].
  destruct (Qlt_bool bound v) eqn:E; simpl; [done|]. by rewrite E.
Qed.

Lemma nan_above_not_gt (bound : Q) (x : option Q) :
  fl_gt (nan_above bound x) bound = false.
Proof.
  destruct x as [v|]; simpl; [|done].
  destruct (Qlt_bool bound v) eqn:E; simpl; done.
Qed.

(** X13. Once the impossible values are removed (lines 651-656), each of the four
    minute counts that is still present is at most 1440 and a present number
    of drinks is at most 48; removing them a second time changes nothing;
    and the later check of line 817 on the minutes awake at night cannot
    fail. *)
Theorem remove_impossible_bounds (data : list daily_minutes) :
  night_awakening_checked (remove_impossible <$> data) = Returns tt
  ∧ Forall (fun r =>
      let r' := remove_impossible r in
      remove_impossible r' = r'
      ∧ from_option (fun v => (v <= 1440)%Q) True (sleepdiary_sleeplatency r')
      ∧ from_option (fun v => (v <= 1440)%Q) True (sleepdiary_naptime r')
      ∧ from_option (fun v => (v <= 1440)%Q) True (night_awakening_time r')
      ∧ from_option (fun v => (v <= 1440)%Q) True (socialize_min r')
      ∧ from_option (fun v => (v <= 48)%Q) True (alcohol_bev r')) data.
Proof.
  split.
  - unfold night_awakening_checked.
    assert (existsb (fun r => fl_gt (night_awakening_time r) (24 * 60))
              (remove_impossible <$> data) = false) as ->; [|done].
    induction data as [|r data IH]; [done|]. cbn [fmap list_fmap existsb].
    fold (fmap (M:=list) remove_impossible data). rewrite IH, orb_false_r.
    apply nan_above_not_gt.
  - apply Forall_forall. intros r _. cbn zeta.
    split; [|repeat split; apply (nan_above_le _ _)].
    unfold remove_impossible; cbn [sleepdiary_sleeplatency sleepdiary_naptime
      night_awakening_time socialize_min alcohol_bev].
    by rewrite !nan_above_idemp.
Qed.

(** * Fever temperature *)

Lemma celsius_of_fahrenheit_range (F : Q) :
  fl_between 24 44 (Some ((F - 32) * (5 / 9))%Q) = true
  ↔ (376 # 5 <= F <= 556 # 5)%Q.
Proof.
  cbn [fl_between]. rewrite andb_true_iff, !Qle_bool_iff.
  destruct F as [p d]. unfold Qle, Qminus, Qplus, Qmult, Qdiv, Qinv, Qopp; simpl.
  lia.
Qed.

(** X14. The Celsius column is missing or between 24 and 44.  A Celsius reading
    is kept exactly when it lies in that range and a Fahrenheit reading
    exactly when it lies between 75.2 and 111.2; a reading that is not kept
    is removed from [fever_temp] as well.  A reading whose unit is neither
    of the two stays in [fever_temp], whatever its value, with no Celsius
    value. *)
Theorem fever_temp_C_range (temp_measure : option Z) (fever_temp : option Q) :
  from_option (fun c => (24 <= c <= 44)%Q) True (fever_temp_C temp_measure fever_temp).2
  ∧ (∀ c, temp_measure = Some 1 → fever_temp = Some c →
       fever_temp_C temp_measure fever_temp
       = if Qle_bool 24 c && Qle_bool c 44 then (Some c, Some c) else (None, None))
  ∧ (∀ F, temp_measure = Some 2 → fever_temp = Some F →
       ((376 # 5 <= F <= 556 # 5)%Q →
        fever_temp_C temp_measure fever_temp = (Some F, Some ((F - 32) * (5 / 9))%Q))
       ∧ (¬ (376 # 5 <= F <= 556 # 5)%Q →
          fever_temp_C temp_measure fever_temp = (None, None)))
  ∧ (temp_measure ≠ Some 1 → temp_measure ≠ Some 2 →
       fever_temp_C temp_measure fever_temp = (fever_temp, None)).
Proof.
  split; [|split; [|split]].
  - unfold fever_temp_C.
    set (c := if bool_decide (temp_measure = Some 2) then _ else _).
    destruct c as [c|]; [|done]. cbn [isna negb andb].
    destruct (fl_between 24 44 (Some c)) eqn:E; cbn [negb snd from_option]; [|done].
    cbn [fl_between] in E. by rewrite andb_true_iff, !Qle_bool_iff in E.
  - intros c -> ->. unfold fever_temp_C.
    rewrite (bool_decide_eq_true_2 (Some 1 = Some 1)) by done.
    rewrite (bool_decide_eq_false_2 (Some 1 = Some 2)) by done.
    cbn [isna negb andb fl_between]. by destruct (_ && _).
  - intros F -> ->. unfold fever_temp_C.
    rewrite (bool_decide_eq_false_2 (Some 2 = Some 1)) by done.
    rewrite (bool_decide_eq_true_2 (Some 2 = Some 2)) by done.
    cbn [fmap option_fmap option_map isna negb andb].
    pose proof (celsius_of_fahrenheit_range F) as HF.
    destruct (fl_between 24 44 _) eqn:E; cbn [negb].
    + split; [done|]. intros Hn. exfalso. apply Hn, HF. done.
    + split; [|done]. intros Hr. apply HF in Hr. discriminate.
  - intros H1 H2. unfold fever_temp_C.
    rewrite (bool_decide_eq_false_2 (temp_measure = Some 1)) by done.
    by rewrite (bool_decide_eq_false_2 (temp_measure = Some 2)) by done.
Qed.

Lemma fever_temp_C_range_example :
  fever_temp_C (Some 2) (Some (1004 # 10)) = (Some (1004 # 10), Some (((1004 # 10) - 32) * (5 / 9))%Q)
  ∧ fever_temp_C (Some 2) (Some 38%Q) = (None, None)
  ∧ fever_temp_C None (Some 500%Q) = (Some 500%Q, None).
Proof.
  split; [|split].
  - destruct (fever_temp_C_range (Some 2) (Some (1004 # 10))) as (_ & _ & H & _).
    apply (proj1 (H (1004 # 10) eq_refl eq_refl)).
    split; unfold Qle; simpl; lia.
  - destruct (fever_temp_C_range (Some 2) (Some 38%Q)) as (_ & _ & H & _).
    apply (proj2 (H 38%Q eq_refl eq_refl)).
    intros [H' _]. revert H'. unfold Qle; simpl. lia.
  - destruct (fever_temp_C_range None (Some 500%Q)) as (_ & _ & _ & H).
    apply H; discriminate.
Defined.

(** * Munich ChronoType Questionnaire *)

Lemma valid_times_elem (s : Series Z) (i : nat) (x : option Z) :
  valid_times s = true → s !! i = Some x →
  td_between 0 (Timedelta_hours 24) x || isna x = true.
Proof.
  unfold valid_times. rewrite forallb_forall. intros H Hi.
  apply H, list_elem_of_In. by eapply list_elem_of_lookup_2.
Qed.

Lemma half_oversleep_range (f w : Q) :
  (0 <= f <= 24)%Q → (0 <= w <= 24)%Q → (w < f)%Q →
  0 ≤ Timedelta_of_hours ((f - w) / 2) ≤ Timedelta_hours 12.
Proof.
  intros [Hf0 Hf] [Hw0 Hw] Hlt. apply Timedelta_of_hours_range.
  destruct f as [p d], w as [p' d'].
  unfold Qle, Qlt, Qminus, Qplus, Qopp, Qdiv, Qmult, Qinv in *; simpl in *.
  nia.
Qed.

Lemma chronotype_row_range (m : option Z) (f w : option Q) :
  td_between 0 (Timedelta_hours 24) m || isna m = true →
  (f = None ∨ ∃ q, f = Some q ∧ (0 <= q <= 24)%Q) →
  (w = None ∨ ∃ q, w = Some q ∧ (0 <= q <= 24)%Q) →
  chronotype_row m f w = None
  ∨ ∃ k, chronotype_row m f w = Some (Timedelta_min k) ∧ -720 ≤ k ≤ 1440.
Proof.
  intros Hm Hf Hw. unfold chronotype_row, oversleeps.
  destruct m as [m|]; [|left; by destruct f, w; try destruct (Qlt_bool _ _)].
  simpl in Hm. rewrite orb_false_r, andb_true_iff, !Z.leb_le in Hm.
  assert (Hround : ∀ v, Timedelta_min (-720) ≤ v ≤ Timedelta_min 1440 →
            ∃ k, Some (round_half_even ns_per_min v) = Some (Timedelta_min k)
                 ∧ -720 ≤ k ≤ 1440).
  { intros v Hv. destruct (round_half_even_minutes v) as [k Hk]. exists k.
    split; [by rewrite Hk|]. apply round_half_even_bounds in Hv. rewrite Hk in Hv.
    unfold Timedelta_min, ns_per_min in Hv. lia. }
  assert (Hm' : Timedelta_min (-720) ≤ m ≤ Timedelta_min 1440)
    by (unfold Timedelta_min, Timedelta_hours, ns_per_min, ns_per_hour in *; lia).
  right.
  destruct Hf as [-> | (f' & -> & Hf)].
  { cbn [fmap option_fmap option_map]. by apply Hround. }
  destruct Hw as [-> | (w' & -> & Hw)].
  { cbn [fmap option_fmap option_map]. by apply Hround. }
  destruct (Qlt_bool w' f') eqn:E;
    cbn [td_sub fmap option_fmap option_map]; apply Hround; [|done].
  apply Qlt_bool_iff in E.
  pose proof (half_oversleep_range f' w' Hf Hw E).
  unfold Timedelta_min, Timedelta_hours, ns_per_min, ns_per_hour in *. lia.
Qed.

Lemma has_oversleep_duration (a : mtq_answers) :
  has_oversleep a = true →
  has_duration (mtq_workday_sleeponset a) (mtq_workday_sleepend a) 2 = true
  ∧ has_duration (mtq_freeday_sleeponset a) (mtq_freeday_sleepend a) 2 = true.
Proof.
  unfold has_oversleep, has_duration. rewrite !existsb_exists.
  intros (b & Hin & Hb). apply list_elem_of_In, list_elem_of_lookup in Hin as [i Hi].
  apply lookup_zip_with_Some in Hi as (f & w & -> & Hf & Hw).
  unfold id, oversleeps in Hb. destruct f as [f|], w as [w|]; try discriminate Hb.
  split; eexists; (split; [eapply list_elem_of_In, list_elem_of_lookup_2; eassumption|done]).
Qed.

Lemma valid_answers_true (a : mtq_answers) :
  valid_answers a = true ↔
  valid_times (mtq_workday_sleeponset a) = true
  ∧ valid_times (mtq_workday_sleepend a) = true
  ∧ valid_times (mtq_freeday_sleeponset a) = true
  ∧ valid_times (mtq_freeday_sleepend a) = true.
Proof. unfold valid_answers. rewrite !andb_true_iff. tauto. Qed.

Lemma mtq_rows (a : mtq_answers) :
  valid_answers a = true → has_oversleep a = true →
  mtq a = Returns
    (let wd := zip_with (st_row true 2) (mtq_workday_sleepend a) (mtq_workday_sleeponset a) in
     let fd := zip_with (st_row true 2) (mtq_freeday_sleepend a) (mtq_freeday_sleeponset a) in
     let fm := zip_with (midpoint_row 2) (mtq_freeday_sleepend a) (mtq_freeday_sleeponset a) in
     MtqScores wd fd
       (zip_with (midpoint_row 2) (mtq_workday_sleepend a) (mtq_workday_sleeponset a)) fm
       (zip_with (fun n wf => avg_wk_sleepduration n wf.1 wf.2) (mtq_workdays a) (zip wd fd))
       (zip_with (fun m fw => chronotype_row m fw.1 fw.2) fm (zip fd wd))).
Proof.
  intros (H1 & H2 & H3 & H4)%valid_answers_true Hidx.
  destruct (has_oversleep_duration a Hidx) as [Hw Hf]. unfold mtq.
  rewrite (calc_sleep_time_rows _ _ true 2 H1 H2).
  rewrite (calc_sleep_time_rows _ _ true 2 H3 H4).
  rewrite (calc_sleep_midpoint_rows _ _ 2 H1 H2 Hw).
  rewrite (calc_sleep_midpoint_rows _ _ 2 H3 H4 Hf).
  cbn [mbind outcome_bind fst snd]. unfold has_oversleep in Hidx. rewrite Hidx.
  reflexivity.
Qed.

Lemma mtq_invalid (a : mtq_answers) :
  valid_answers a = false → mtq a = Raises ValueError.
Proof.
  unfold valid_answers, mtq. intros H.
  destruct (valid_times (mtq_workday_sleeponset a)) eqn:H1;
    [|by rewrite (calc_sleep_time_invalid_bed _ _ true 2 H1)].
  destruct (valid_times (mtq_workday_sleepend a)) eqn:H2;
    [|by rewrite (calc_sleep_time_invalid_awake _ _ true 2 H2)].
  rewrite (calc_sleep_time_rows _ _ true 2 H1 H2).
  destruct (valid_times (mtq_freeday_sleeponset a)) eqn:H3;
    [|by rewrite (calc_sleep_time_invalid_bed _ _ true 2 H3)].
  destruct (valid_times (mtq_freeday_sleepend a)) eqn:H4;
    [|by rewrite (calc_sleep_time_invalid_awake _ _ true 2 H4)].
  discriminate H.
Qed.

Lemma mtq_no_oversleep (a : mtq_answers) :
  valid_answers a = true → has_oversleep a = false → mtq a = Raises TypeError.
Proof.
  intros (H1 & H2 & H3 & H4)%valid_answers_true Hidx. unfold mtq.
  rewrite (calc_sleep_time_rows _ _ true 2 H1 H2).
  rewrite (calc_sleep_time_rows _ _ true 2 H3 H4).
  destruct (calc_sleep_midpoint_cases (mtq_workday_sleeponset a) (mtq_workday_sleepend a) 2)
    as [(_ & _ & _ & ->) | [(_ & _ & _ & ->) | ([Hn|Hn] & _)]];
    [|done|congruence..].
  destruct (calc_sleep_midpoint_cases (mtq_freeday_sleeponset a) (mtq_freeday_sleepend a) 2)
    as [(_ & _ & _ & ->) | [(_ & _ & _ & ->) | ([Hn|Hn] & _)]];
    [|done|congruence..].
  cbn [mbind outcome_bind fst snd]. unfold has_oversleep in Hidx. by rewrite Hidx.
Qed.

(** The three outcomes of the block. *)
Lemma mtq_cases (a : mtq_answers) :
  (valid_answers a = true ∧ has_oversleep a = true ∧ ∃ s, mtq a = Returns s)
  ∨ (valid_answers a = true ∧ has_oversleep a = false ∧ mtq a = Raises TypeError)
  ∨ (valid_answers a = false ∧ mtq a = Raises ValueError).
Proof.
  destruct (valid_answers a) eqn:Hv; [|right; right; split; [done|by apply mtq_invalid]].
  destruct (has_oversleep a) eqn:Hidx.
  - left. repeat split. eexists. by apply mtq_rows.
  - right. left. repeat split. by apply mtq_no_oversleep.
Qed.

Lemma mtq_returns (a : mtq_answers) (s : mtq_scores) :
  mtq a = Returns s → valid_answers a = true ∧ has_oversleep a = true.
Proof.
  intros Hret.
  destruct (mtq_cases a) as [(Hv & Hidx & _) | [(_ & _ & H) | (_ & H)]];
    [done|rewrite H in Hret; discriminate Hret..].
Qed.

Lemma mtq_chronotype_rows (a : mtq_answers) (s : mtq_scores) :
  mtq a = Returns s →
  ∀ c, c ∈ mtq_chronotype s →
       c = None ∨ ∃ k, c = Some (Timedelta_min k) ∧ -720 ≤ k ≤ 1440.
Proof.
  intros Hret. destruct (mtq_returns a s Hret) as [Hv Hidx].
  rewrite (mtq_rows a Hv Hidx) in Hret. injection Hret as <-.
  apply valid_answers_true in Hv as (H1 & H2 & H3 & H4).
  cbn [mtq_chronotype]. intros c Hc.
  apply list_elem_of_lookup in Hc as [i Hi].
  apply lookup_zip_with_Some in Hi as (m & [f w] & -> & Hm & Hfw).
  apply lookup_zip_with_Some in Hfw as (f' & w' & [= <- <-] & Hf & Hw).
  apply lookup_zip_with_Some in Hm as (x & y & -> & Hx & Hy).
  apply lookup_zip_with_Some in Hf as (x1 & y1 & -> & Hx1 & Hy1).
  apply lookup_zip_with_Some in Hw as (x2 & y2 & -> & Hx2 & Hy2).
  cbn [fst snd]. apply chronotype_row_range.
  - apply midpoint_row_range; eauto using valid_times_elem.
  - apply st_row_in_range; eauto using valid_times_elem.
  - apply st_row_in_range; eauto using valid_times_elem.
Qed.

(** X15. Every chronotype that the block returns is missing or a whole
    number of minutes from -12:00 to 24:00: the oversleep correction can
    take the free-day midpoint below midnight, and round 1 keeps such a
    value.  Rounds 4, 5 and 8 set it missing, so that their chronotypes are
    missing or a whole number of minutes from 00:00 to 24:00.  The block
    returns when the clock times pass the range check and some row has a
    free-day duration greater than its work-day duration.  It stops with
    [ValueError] exactly when a clock time is out of range, and with
    [TypeError] when the times are in range and the work-day columns or the
    free-day columns give no duration at all (line 143). *)
Theorem mtq_chronotype_range :
  (∀ a, valid_answers a = true → has_oversleep a = true →
        ∃ s s', mtq a = Returns s ∧ mtq_drop_negative a = Returns s')
  ∧ (∀ a s, mtq a = Returns s →
        ∀ c, c ∈ mtq_chronotype s →
             c = None ∨ ∃ k, c = Some (Timedelta_min k) ∧ -720 ≤ k ≤ 1440)
  ∧ (∀ a s', mtq_drop_negative a = Returns s' →
        ∀ c, c ∈ mtq_chronotype s' →
             c = None ∨ ∃ k, c = Some (Timedelta_min k) ∧ 0 ≤ k ≤ 1440)
  ∧ (∀ a, (mtq a = Raises ValueError ↔ valid_answers a = false)
          ∧ (mtq_drop_negative a = Raises ValueError ↔ valid_answers a = false))
  ∧ (∀ a, valid_answers a = true →
          has_duration (mtq_workday_sleeponset a) (mtq_workday_sleepend a) 2 = false
          ∨ has_duration (mtq_freeday_sleeponset a) (mtq_freeday_sleepend a) 2 = false →
          mtq a = Raises TypeError ∧ mtq_drop_negative a = Raises TypeError).
Proof.
  split; [|split; [|split; [|split]]].
  - intros a Hv Hidx. unfold mtq_drop_negative. rewrite (mtq_rows a Hv Hidx).
    do 2 eexists. split; reflexivity.
  - exact mtq_chronotype_rows.
  - intros a s' Hret c Hin. unfold mtq_drop_negative in Hret.
    destruct (mtq a) as [s|e] eqn:Hs; [|discriminate Hret].
    cbn [mbind outcome_bind mret outcome_ret] in Hret. injection Hret as <-.
    cbn [mtq_chronotype] in Hin.
    apply list_elem_of_fmap in Hin as (c0 & -> & Hc0).
    destruct (mtq_chronotype_rows a s Hs c0 Hc0) as [-> | (k & -> & Hk)]; [by left|].
    cbn [td_lt]. destruct (Timedelta_min k <? 0) eqn:E; [by left|].
    right. exists k. split; [done|].
    apply Z.ltb_ge in E. unfold Timedelta_min, ns_per_min in E. lia.
  - intros a. unfold mtq_drop_negative.
    destruct (mtq_cases a) as [(Hv & _ & s & H) | [(Hv & _ & H) | (Hv & H)]];
      rewrite H, Hv; cbn [mbind outcome_bind mret outcome_ret]; split; split; done.
  - intros a Hv Hd. unfold mtq_drop_negative.
    destruct (has_oversleep a) eqn:Hidx.
    + destruct (has_oversleep_duration a Hidx) as [Hw Hf].
      destruct Hd as [Hd|Hd]; congruence.
    + by rewrite (mtq_no_oversleep a Hv Hidx).
Qed.

(** Free days: in bed at 23:00, up at 09:00; work days: in bed at 23:00, up
    at 00:00.  The chronotype is 04:00 less 04:30. *)
Lemma mtq_chronotype_range_example :
  ∃ s s',
    mtq (MtqAnswers [Some 5] [Some (clock 23 0)] [Some (clock 0 0)]
                    [Some (clock 23 0)] [Some (clock 9 0)]) = Returns s
    ∧ mtq_drop_negative (MtqAnswers [Some 5] [Some (clock 23 0)] [Some (clock 0 0)]
                                    [Some (clock 23 0)] [Some (clock 9 0)]) = Returns s'
    ∧ (∀ c, c ∈ mtq_chronotype s →
            c = None ∨ ∃ k, c = Some (Timedelta_min k) ∧ -720 ≤ k ≤ 1440)
    ∧ (∀ c, c ∈ mtq_chronotype s' →
            c = None ∨ ∃ k, c = Some (Timedelta_min k) ∧ 0 ≤ k ≤ 1440).
Proof.
  destruct mtq_chronotype_range as (Hret & Hr1 & Hr4 & _).
  destruct (Hret (MtqAnswers [Some 5] [Some (clock 23 0)] [Some (clock 0 0)]
                             [Some (clock 23 0)] [Some (clock 9 0)])
              eq_refl eq_refl) as (s & s' & Hs & Hs').
  exists s, s'. split; [exact Hs|]. split; [exact Hs'|].
  split; [exact (Hr1 _ s Hs) | exact (Hr4 _ s' Hs')].
Defined.

Example mtq_chronotype_negative :
  ∃ s s',
    mtq (MtqAnswers [Some 5] [Some (clock 23 0)] [Some (clock 0 0)]
                    [Some (clock 23 0)] [Some (clock 9 0)]) = Returns s
    ∧ mtq_drop_negative (MtqAnswers [Some 5] [Some (clock 23 0)] [Some (clock 0 0)]
                                    [Some (clock 23 0)] [Some (clock 9 0)]) = Returns s'
    ∧ mtq_freeday_sleepmidpoint s = [Some (clock 4 0)]
    ∧ mtq_chronotype s = [Some (Timedelta_min (-30))]
    ∧ mtq_chronotype s' = [None].
Proof. do 2 eexists. repeat split; vm_compute; reflexivity. Qed.

(** Work-day times without a waking time give no work-day duration. *)
Example mtq_no_workday_duration :
  mtq (MtqAnswers [Some 5] [Some (clock 23 0)] [None]
                  [Some (clock 23 0)] [Some (clock 9 0)]) = Raises TypeError.
Proof. vm_compute. reflexivity. Qed.

Lemma weighted_mean_between (w f N : Q) :
  (0 <= N <= 7)%Q → (w <= f)%Q →
  (w <= (w * N + f * (7 - N)) / 7 <= f)%Q.
Proof.
  intros HN Hwf. split.
  - apply Qle_shift_div_l; [reflexivity|]. nra.
  - apply Qle_shift_div_r; [reflexivity|]. nra.
Qed.

Lemma weighted_mean_between' (w f N : Q) :
  (0 <= N <= 7)%Q → (f <= w)%Q →
  (f <= (w * N + f * (7 - N)) / 7 <= w)%Q.
Proof.
  intros HN Hwf. split.
  - apply Qle_shift_div_l; [reflexivity|]. nra.
  - apply Qle_shift_div_r; [reflexivity|]. nra.
Qed.

Lemma inject_Z_7_minus (n : Z) : (inject_Z (7 - n) == 7 - inject_Z n)%Q.
Proof. unfold Qeq, Qminus, Qplus, Qopp, inject_Z; simpl. lia. Qed.

Lemma avg_wk_sleepduration_between (n : Z) (w f v : Q) :
  0 ≤ n ≤ 7 → avg_wk_sleepduration (Some n) (Some w) (Some f) = Some v →
  ((w <= v <= f)%Q ∨ (f <= v <= w)%Q).
Proof.
  intros Hn [= <-].
  assert (HN : (0 <= inject_Z n <= 7)%Q).
  { split; [change 0%Q with (inject_Z 0) | change 7%Q with (inject_Z 7)];
      rewrite <- Zle_Qle; lia. }
  rewrite inject_Z_7_minus.
  destruct (Qlt_le_dec f w) as [Hlt|Hle].
  - right. apply weighted_mean_between'; [done|]. by apply Qlt_le_weak.
  - left. by apply weighted_mean_between.
Qed.

(** X16. The weekly average of the sleep durations is missing as soon as the
    number of work days or one of the two durations is; where the number
    of work days is from 0 to 7 it lies between the work-day and the
    free-day duration, hence between 0 and 24 hours.  (A number of work
    days above 7 is set missing when the round is formatted, lines 856-857,
    977, 1066 and 1174.) *)
Theorem mtq_avg_wk_sleepduration_range (a : mtq_answers) (s : mtq_scores) :
  mtq a = Returns s →
  ∀ (i : nat) (n : option Z) (w f v : option Q),
    mtq_workdays a !! i = Some n →
    mtq_workday_sleepduration s !! i = Some w →
    mtq_freeday_sleepduration s !! i = Some f →
    mtq_avg_wk_sleepduration s !! i = Some v →
    (v = None ↔ n = None ∨ w = None ∨ f = None)
    ∧ ∀ n' v', n = Some n' → 0 ≤ n' ≤ 7 → v = Some v' →
        ∃ w' f', w = Some w' ∧ f = Some f'
                 ∧ ((w' <= v' <= f')%Q ∨ (f' <= v' <= w')%Q)
                 ∧ (0 <= v' <= 24)%Q.
Proof.
  intros Hret i n w f v Hn Hw Hf Hv.
  destruct (mtq_returns a s Hret) as [Hvalid Hidx].
  rewrite (mtq_rows a Hvalid Hidx) in Hret. injection Hret as <-.
  apply valid_answers_true in Hvalid as (H1 & H2 & H3 & H4).
  cbn [mtq_workday_sleepduration mtq_freeday_sleepduration
       mtq_avg_wk_sleepduration] in *.
  apply lookup_zip_with_Some in Hv as (n0 & [w0 f0] & -> & Hn0 & Hwf).
  apply lookup_zip_with_Some in Hwf as (w1 & f1 & [= <- <-] & Hw1 & Hf1).
  rewrite Hn in Hn0. rewrite Hw in Hw1. rewrite Hf in Hf1.
  injection Hn0 as <-. injection Hw1 as <-. injection Hf1 as <-. cbn [fst snd].
  assert (Hwr : w = None ∨ ∃ q, w = Some q ∧ (0 <= q <= 24)%Q).
  { apply lookup_zip_with_Some in Hw as (x & y & -> & Hx & Hy).
    apply st_row_in_range; eauto using valid_times_elem. }
  assert (Hfr : f = None ∨ ∃ q, f = Some q ∧ (0 <= q <= 24)%Q).
  { apply lookup_zip_with_Some in Hf as (x & y & -> & Hx & Hy).
    apply st_row_in_range; eauto using valid_times_elem. }
  split.
  - destruct n, w, f; cbn [avg_wk_sleepduration]; split; try done; try tauto.
    intros [?|[?|?]]; done.
  - intros n' v' -> Hn' Hv'.
    destruct Hwr as [-> | (w' & -> & Hw')]; [done|].
    destruct Hfr as [-> | (f' & -> & Hf')]; [done|].
    exists w', f'. split; [done|]. split; [done|].
    destruct (avg_wk_sleepduration_between n' w' f' v' Hn' Hv') as [[Ha Hb]|[Ha Hb]].
    + split; [by left|]. destruct Hw' as [Hw0 _], Hf' as [_ Hf24]. split.
      * by apply Qle_trans with w'.
      * by apply Qle_trans with f'.
    + split; [by right|]. destruct Hw' as [_ Hw24], Hf' as [Hf0 _]. split.
      * by apply Qle_trans with f'.
      * by apply Qle_trans with w'.
Qed.

(** Five work days of 8 hours in bed and two free days of 9. *)
Lemma mtq_avg_wk_sleepduration_range_example :
  ∃ s v',
    mtq (MtqAnswers [Some 5] [Some (clock 23 0)] [Some (clock 7 0)]
                    [Some (clock 0 0)] [Some (clock 9 0)]) = Returns s
    ∧ mtq_avg_wk_sleepduration s !! 0%nat = Some (Some v')
    ∧ (8 <= v' <= 9)%Q ∧ (0 <= v' <= 24)%Q.
Proof.
  destruct (mtq (MtqAnswers [Some 5] [Some (clock 23 0)] [Some (clock 7 0)]
                            [Some (clock 0 0)] [Some (clock 9 0)])) as [s|e] eqn:E;
    [|vm_compute in E; discriminate E].
  pose proof E as E'. vm_compute in E'. injection E' as Hs.
  destruct (mtq_avg_wk_sleepduration_range _ s E 0%nat (Some 5)
              (Some (28800000000000 # 3600000000000))
              (Some (32400000000000 # 3600000000000))
              (Some (751680000000000000000000000 # 90720000000000000000000000))
              eq_refl
              ltac:(by rewrite <- Hs) ltac:(by rewrite <- Hs) ltac:(by rewrite <- Hs))
    as [_ H].
  destruct (H 5 _ eq_refl ltac:(lia) eq_refl)
    as (w' & f' & [= <-] & [= <-] & Hb & H24).
  exists s, (751680000000000000000000000 # 90720000000000000000000000).
  split; [done|]. split; [by rewrite <- Hs|]. split; [|exact H24].
  destruct Hb as [Hb | [Hb1 Hb2]]; [|split; unfold Qle; simpl; lia].
  destruct Hb as [Hb1 Hb2]. split; unfold Qle in *; simpl in *; lia.
Defined.

(** * Scores made of sub-scores *)

Lemma col_add_assoc (x y z : option Z) :
  col_add (col_add x y) z = col_add x (col_add y z).
Proof. destruct x, y, z; simpl; f_equal; lia. Qed.

Ltac big5_facets :=
  unfold col_add, six_minus;
  repeat match goal with
         | |- context [?r !! ?c] =>
             let o := fresh "o" in
             generalize (r !! c); intros o; destruct o
         end;
  cbn [fmap option_fmap option_map]; try reflexivity; f_equal; lia.

(** X17. Each of the five Big Five domains is the sum of its three facets: the
    six items of a domain are the items of its facets, each scored in the
    same direction, and a missing item makes the domain and its facet
    missing alike. *)
Theorem Big_5_domain_is_sum_of_facets (r : gmap string Z) :
  Big_5_Extraversion r
  = col_add (col_add (Big_5_Sociability r) (Big_5_Assertiveness r)) (Big_5_Energy_Level r)
  ∧ Big_5_Agreeableness r
    = col_add (col_add (Big_5_Compassion r) (Big_5_Respectfulness r)) (Big_5_Trust r)
  ∧ Big_5_Conscientiousness r
    = col_add (col_add (Big_5_Organization r) (Big_5_Productiveness r))
              (Big_5_Responsibility r)
  ∧ Big_5_Negative_Emotionality r
    = col_add (col_add (Big_5_Anxiety r) (Big_5_Depression r))
              (Big_5_Emotional_Volatility r)
  ∧ Big_5_Open_Mindedness r
    = col_add (col_add (Big_5_Aesthetic_Sensitivity r) (Big_5_Intellectual_Curiosity r))
              (Big_5_Creative_Imagination r).
Proof.
  repeat split.
  - unfold Big_5_Extraversion, Big_5_Sociability, Big_5_Assertiveness,
      Big_5_Energy_Level. big5_facets.
  - unfold Big_5_Agreeableness, Big_5_Compassion, Big_5_Respectfulness, Big_5_Trust.
    big5_facets.
  - unfold Big_5_Conscientiousness, Big_5_Organization, Big_5_Productiveness,
      Big_5_Responsibility. big5_facets.
  - unfold Big_5_Negative_Emotionality, Big_5_Anxiety, Big_5_Depression,
      Big_5_Emotional_Volatility. big5_facets.
  - unfold Big_5_Open_Mindedness, Big_5_Aesthetic_Sensitivity,
      Big_5_Intellectual_Curiosity, Big_5_Creative_Imagination. big5_facets.
Qed.

Lemma sum_skipna_false_app (cols1 cols2 : list string) (r : gmap string Z) :
  sum_skipna_false (cols1 ++ cols2) r
  = col_add (sum_skipna_false cols1 r) (sum_skipna_false cols2 r).
Proof.
  induction cols1 as [|c cols1 IH]; simpl.
  - by destruct (sum_skipna_false cols2 r).
  - fold (sum_skipna_false (cols1 ++ cols2) r). fold (sum_skipna_false cols1 r).
    rewrite IH. destruct (r !! c), (sum_skipna_false cols1 r),
      (sum_skipna_false cols2 r); simpl; f_equal; lia.
Qed.

(** X18. The total of the intolerance-of-uncertainty scale is the sum of its two
    sub-scales, and is missing exactly when one of them is. *)
Theorem IU_Total_is_sum (r : gmap string Z) :
  IU_Total r = col_add (IU_PA r) (IU_IA r)
  ∧ (IU_Total r = None ↔ IU_PA r = None ∨ IU_IA r = None).
Proof.
  assert (H : IU_Total r = col_add (IU_PA r) (IU_IA r))
    by apply (sum_skipna_false_app iu_1_7 iu_8_12).
  split; [exact H|]. rewrite H.
  destruct (IU_PA r), (IU_IA r); simpl; split; try done; try tauto.
  intros [?|?]; done.
Qed.

(** * Closed vocabularies *)

Lemma elem_of_map_values (d : gmap string string) (v : string) :
  v ∈ (map_to_list d).*2 ↔ ∃ k, d !! k = Some v.
Proof.
  rewrite list_elem_of_fmap. split.
  - intros ([k v'] & -> & Hin). exists k. by apply elem_of_map_to_list.
  - intros [k Hk]. exists (k, v). split; [done|]. by apply elem_of_map_to_list.
Qed.

(** X19. After the standardisation, a school response is missing or one of the
    values of [school_replace].  A response that is, once trimmed, a key of
    the dictionary becomes its value; any other response is kept when it is
    itself one of the values and set missing when it is not; a missing
    response stays missing. *)
Theorem standardize_school_vocabulary (school_replace : gmap string string)
    (school : Series string) :
  Forall2 (fun x y =>
             match x with
             | None => y = None
             | Some s =>
                 match school_replace !! str_strip s with
                 | Some v => y = Some v
                 | None =>
                     (y = Some (str_strip s) ∧ ∃ k, school_replace !! k = Some (str_strip s))
                     ∨ (y = None ∧ ¬ ∃ k, school_replace !! k = Some (str_strip s))
                 end
             end)
          school (standardize_school school_replace school)
  ∧ Forall (fun y => ∀ v, y = Some v → ∃ k, school_replace !! k = Some v)
           (standardize_school school_replace school).
Proof.
  unfold standardize_school. split.
  - rewrite <- !list_fmap_compose. apply Forall2_fmap_r, Forall_Forall2_diag.
    apply Forall_forall. intros [s|] _; cbn; [|done].
    unfold replace_dict. destruct (school_replace !! str_strip s) as [v|] eqn:E; cbn.
    + rewrite bool_decide_eq_true_2; [done|]. apply elem_of_map_values. eauto.
    + case_bool_decide as Hin; rewrite elem_of_map_values in Hin; [left|right]; done.
  - apply Forall_fmap, Forall_forall. intros [s|] _ v; cbn; [|done].
    case_bool_decide as Hin; [|done]. intros [= <-]. by apply elem_of_map_values.
Qed.

(** ** Vaccine type *)

Lemma vacc_types_kept (s : string) :
  s ∈ vacc_types → vacc_corrections !! s = None.
Proof.
  unfold vacc_types. rewrite !elem_of_cons, elem_of_nil.
  intros [->|[->|[->|[->|[->|[->|[->|[]]]]]]]]; vm_compute; reflexivity.
Qed.

Lemma vacc_corrections_values (s v : string) :
  vacc_corrections !! s = Some v → v ∈ vacc_types.
Proof.
  intros H. unfold vacc_corrections in H. apply elem_of_list_to_map_2 in H.
  rewrite !elem_of_cons, elem_of_nil in H.
  apply (bool_decide_unpack _).
  repeat (destruct H as [[= -> ->]|H]; [vm_compute; exact I|]). done.
Qed.

Lemma replace_vacc_type (s : string) :
  replace_dict vacc_corrections s ∈ vacc_types
  ↔ s ∈ vacc_types ∨ is_Some (vacc_corrections !! s).
Proof.
  unfold replace_dict. split.
  - destruct (vacc_corrections !! s) as [v|] eqn:E; cbn; [by right; eexists|by left].
  - intros [Hs | [v Hv]].
    + by rewrite (vacc_types_kept s Hs).
    + rewrite Hv. cbn. by apply (vacc_corrections_values s).
Qed.

(** X20. The vaccine types of round 9 pass exactly when every answer is, once
    trimmed and upper-cased, one of the seven types or one of the fifteen
    spellings of [vacc_corrections]; the only failure is the assertion.  The
    column returned then holds nothing but the seven types, an answer that
    was one of them being unchanged but for case and white space. *)
Theorem clean_vacc_type_accepts (vacc_type : Series string) :
  ((∃ out, clean_vacc_type vacc_type = Returns out)
   ↔ Forall (fun x => ∀ s, x = Some s →
               normalise s ∈ vacc_types ∨ is_Some (vacc_corrections !! normalise s))
            vacc_type)
  ∧ (∀ out, clean_vacc_type vacc_type = Returns out →
       Forall2 (fun x y =>
                  y = (fun s => replace_dict vacc_corrections (normalise s)) <$> x
                  ∧ (∀ v, y = Some v → v ∈ vacc_types)
                  ∧ (∀ s, x = Some s → normalise s ∈ vacc_types → y = Some (normalise s)))
               vacc_type out)
  ∧ ((¬ ∃ out, clean_vacc_type vacc_type = Returns out) →
     clean_vacc_type vacc_type = Raises AssertionError).
Proof.
  unfold clean_vacc_type. rewrite <- list_fmap_compose.
  set (f := fmap (M:=option) (replace_dict vacc_corrections) ∘ fmap (M:=option) normalise).
  set (ok := fun x : option string =>
               match x with Some s => bool_decide (s ∈ vacc_types) | None => true end).
  assert (Hok : ∀ x, ok (f x) = true ↔
            ∀ s, x = Some s →
                 normalise s ∈ vacc_types ∨ is_Some (vacc_corrections !! normalise s)).
  { intros [s|]; cbn; [|split; [intros _ s; discriminate|done]].
    rewrite bool_decide_eq_true, replace_vacc_type. split.
    - by intros H s' [= <-].
    - intros H. by apply H. }
  destruct (forallb ok (f <$> vacc_type)) eqn:E; cbn.
  - rewrite forallb_forall in E.
    assert (Hall : ∀ x, x ∈ vacc_type → ok (f x) = true).
    { intros x Hx. apply E, list_elem_of_In, list_elem_of_fmap. eauto. }
    split; [|split].
    + split; [|eauto]. intros _. apply Forall_forall. intros x Hx. by apply Hok, Hall.
    + intros out [= <-]. apply Forall2_fmap_r, Forall_Forall2_diag, Forall_forall.
      intros x Hx. specialize (Hall x Hx). unfold f, ok in Hall |- *.
      destruct x as [s|]; cbn [fmap option_fmap option_map compose] in Hall |- *.
      * apply bool_decide_eq_true_1 in Hall. split; [done|]. split.
        -- by intros v [= <-].
        -- intros s' [= <-] Hs. unfold replace_dict.
           by rewrite (vacc_types_kept _ Hs).
      * split; [done|]. split; [discriminate|discriminate].
    + intros H. exfalso. apply H. eauto.
  - split; [|split]; [|discriminate|done].
    split; [by intros [out ?]|]. intros Hall. exfalso.
    assert (forallb ok (f <$> vacc_type) = true); [|congruence].
    apply forallb_forall. intros y Hy.
    apply list_elem_of_In, list_elem_of_fmap in Hy as (x & -> & Hx).
    apply Hok. rewrite Forall_forall in Hall. by apply Hall.
Qed.

Example clean_vacc_type_examples :
  clean_vacc_type [Some " pfizer/BioNTech "; None; Some "Moderna"]
  = Returns [Some "PFIZER"; None; Some "MODERNA"]
  ∧ clean_vacc_type [Some "NOVAVAX"] = Raises AssertionError.
Proof. split; vm_compute; reflexivity. Qed.

(** * Round tables: order and failure *)

Lemma drop_duplicates_from_sorted {P} (seen : list Z) (t : list (row Z P)) :
  StronglySorted row_le t →
  StronglySorted (fun r1 r2 => subj r1 < subj r2) (drop_duplicates_from seen t).
Proof.
  intros Hs. revert seen. induction Hs as [|x t Hs IH Hx]; intros seen; simpl.
  - constructor.
  - case_bool_decide as Hseen; [apply IH|]. constructor; [apply IH|].
    apply Forall_forall. intros r Hr.
    apply drop_duplicates_from_elem in Hr as [Hr Hn].
    rewrite Forall_forall in Hx. specialize (Hx r Hr).
    rewrite not_elem_of_cons in Hn. unfold row_le in Hx. lia.
Qed.

Lemma drop_duplicates_from_fixed {P} (seen : list Z) (t : list (row Z P)) :
  NoDup (subj <$> t) → (∀ r, r ∈ t → subj r ∉ seen) →
  drop_duplicates_from seen t = t.
Proof.
  revert seen. induction t as [|x t IH]; intros seen Hnd Hseen; simpl; [done|].
  rewrite fmap_cons in Hnd. apply NoDup_cons in Hnd as [Hx Hnd].
  rewrite bool_decide_eq_false_2 by (apply Hseen; by left).
  f_equal. apply IH; [done|]. intros r Hr. rewrite not_elem_of_cons. split.
  - intros Heq. apply Hx. rewrite <- Heq. apply list_elem_of_fmap. eauto.
  - apply Hseen. by right.
Qed.

(** X21. A round table fails, on the assertion, exactly when a record id occurs
    twice.  Otherwise its rows come out in strictly increasing order of
    subject number, with exactly the subjects of the input, and removing
    the duplicates a second time changes nothing. *)
Theorem round_table_sorted {P : Type} (t : list (row Z P)) :
  (round_table t = Raises AssertionError ↔ ¬ NoDup (record_id <$> t))
  ∧ (∀ e, round_table t = Raises e → e = AssertionError)
  ∧ ∀ t', round_table t = Returns t' →
      StronglySorted (fun r1 r2 => subj r1 < subj r2) t'
      ∧ (∀ n, n ∈ subj <$> t' ↔ n ∈ subj <$> t)
      ∧ drop_duplicates t' = t'.
Proof.
  unfold round_table, index_and_sort.
  case_bool_decide as Hnd; cbn.
  - split; [split; [discriminate|done]|]. split; [discriminate|].
    intros t' [= <-].
    assert (Hs : StronglySorted row_le (merge_sort row_le t))
      by (apply StronglySorted_merge_sort; apply _).
    split; [by apply drop_duplicates_from_sorted|]. split.
    + intros n. rewrite !list_elem_of_fmap. split.
      * intros (r & -> & Hr). apply drop_duplicates_from_elem in Hr as [Hr _].
        rewrite merge_sort_Permutation in Hr. eauto.
      * intros (r & -> & Hr).
        destruct (drop_duplicates_from_least [] (merge_sort row_le t) Hs r)
          as (r' & Hr' & Heq & _).
        { by rewrite merge_sort_Permutation. }
        { apply not_elem_of_nil. }
        exists r'. split; [done|]. exact Hr'.
    + apply drop_duplicates_from_fixed; [apply drop_duplicates_from_NoDup|].
      intros r _. apply not_elem_of_nil.
  - split; [split; [done|by intros _]|]. split; [by intros e [= <-]|discriminate].
Qed.

Example round_table_sorted_example :
  round_table [Row 9 4 tt; Row 5 3 tt; Row 5 1 tt] = Returns [Row 5 1 tt; Row 9 4 tt]
  ∧ round_table [Row 9 4 tt; Row 5 4 tt] = Raises AssertionError.
Proof. split; vm_compute; reflexivity. Qed.

(** * Clock times as text *)

Lemma timedelta2str_minutes_check :
  forallb (fun k =>
             bool_decide
               (str_split (str_Timedelta (Timedelta_min k))
                = [pretty (k / 1440); "days";
                   two_digits (k / 60 mod 24) +:+ ":" +:+ two_digits (k mod 60) +:+ ":00"]
                ∧ String.substring 0 5
                    (List.last (str_split (str_Timedelta (Timedelta_min k))) EmptyString)
                  = two_digits (k / 60 mod 24) +:+ ":" +:+ two_digits (k mod 60)))
          (seqZ 0 1441) = true.
Proof. vm_compute. reflexivity. Qed.

(** X22. [timedelta2str] writes nothing for a missing time, fails an assertion
    exactly on a negative time or one above 24 hours, and otherwise writes
    the time rounded to the minute as [HH:MM], hours modulo 24: a time that
    rounds to 24:00 is written [00:00], like midnight. *)
Theorem timedelta2str_clock (v : Z) :
  timedelta2str None = Returns EmptyString
  ∧ (timedelta2str (Some v) = Raises AssertionError ↔ v < 0 ∨ Timedelta_hours 24 < v)
  ∧ (0 ≤ v ≤ Timedelta_hours 24 →
     ∃ k, 0 ≤ k ≤ 1440 ∧ round_half_even ns_per_min v = Timedelta_min k
          ∧ timedelta2str (Some v)
            = Returns (two_digits (k / 60 mod 24) +:+ ":" +:+ two_digits (k mod 60))).
Proof.
  split; [reflexivity|].
  assert (Hok : 0 ≤ v ≤ Timedelta_hours 24 →
     ∃ k, 0 ≤ k ≤ 1440 ∧ round_half_even ns_per_min v = Timedelta_min k
          ∧ timedelta2str (Some v)
            = Returns (two_digits (k / 60 mod 24) +:+ ":" +:+ two_digits (k mod 60))).
  { intros Hv. destruct (round_half_even_minutes v) as [k Hk].
    assert (Hr : 0 ≤ k ≤ 1440).
    { pose proof (round_half_even_bounds 0 1440 v) as Hb. rewrite Hk in Hb.
      unfold Timedelta_min, Timedelta_hours, ns_per_min, ns_per_hour in *. lia. }
    exists k. split; [done|]. split; [done|].
    unfold timedelta2str.
    assert ((0 <=? v) = true) as -> by lia.
    assert ((v <=? Timedelta_hours 24) = true) as -> by lia.
    cbn [assert mbind outcome_bind mret outcome_ret]. rewrite Hk. f_equal.
    pose proof timedelta2str_minutes_check as Hall. rewrite forallb_forall in Hall.
    specialize (Hall k). rewrite <- list_elem_of_In, elem_of_seqZ in Hall.
    apply bool_decide_eq_true_1 in Hall as [_ Hall]; [exact Hall|lia]. }
  split; [|exact Hok].
  split.
  - intros Hfail. destruct (decide (0 ≤ v ≤ Timedelta_hours 24)) as [Hv|Hv]; [|lia].
    destruct (Hok Hv) as (k & _ & _ & Hret). congruence.
  - intros Hv. unfold timedelta2str.
    destruct (0 <=? v) eqn:E0; [|done].
    assert ((v <=? Timedelta_hours 24) = false) as -> by lia. done.
Qed.

Lemma timedelta2str_clock_example :
  ∃ k, 0 ≤ k ≤ 1440
       ∧ round_half_even ns_per_min (clock 23 59 + 30000000000) = Timedelta_min k
       ∧ timedelta2str (Some (clock 23 59 + 30000000000))
         = Returns (two_digits (k / 60 mod 24) +:+ ":" +:+ two_digits (k mod 60)).
Proof.
  apply (timedelta2str_clock (clock 23 59 + 30000000000)).
  unfold clock, Timedelta_hours, Timedelta_min, ns_per_hour, ns_per_min. lia.
Defined.

Example timedelta2str_24h :
  timedelta2str (Some (clock 7 15)) = Returns "07:15"
  ∧ timedelta2str (Some (Timedelta_hours 24)) = Returns "00:00"
  ∧ timedelta2str (Some (clock 23 59 + 30000000000)) = Returns "00:00"
  ∧ timedelta2str (Some 0) = Returns "00:00".
Proof. repeat split; vm_compute; reflexivity. Qed.

(** * The index of the daily table *)

Lemma string_app_assoc' (a b c : string) : (a +:+ b) +:+ c = a +:+ (b +:+ c).
Proof.
  induction a as [|x a IH]; [done|].
  change (String x ((a +:+ b) +:+ c) = String x (a +:+ (b +:+ c))). by rewrite IH.
Qed.

Lemma no_capital_pretty_N_go (x : N) (s : string) :
  no_capital s = true → no_capital (pretty_N_go x s) = true.
Proof.
  revert s. induction (N.lt_wf_0 x) as [x _ IH]; intros s Hs.
  assert (x = 0 ∨ 0 < x)%N as [->|Hx] by lia.
  - by rewrite pretty_N_go_0.
  - rewrite pretty_N_go_step by done. apply IH; [by apply N.div_lt|].
    simpl. rewrite Hs, andb_true_r. unfold pretty_N_char. by repeat case_match.
Qed.

Lemma no_capital_pretty_Z (z : Z) : no_capital (pretty z) = true.
Proof.
  assert (HN : ∀ n : N, no_capital (pretty n) = true).
  { intros n. unfold pretty, pretty_N. case_decide; [done|].
    by apply no_capital_pretty_N_go. }
  destruct z as [|p|p]; [done|apply HN|].
  unfold pretty, pretty_Z. simpl. apply HN.
Qed.

(** A numeral followed by a tag that begins with a capital letter can be
    read back in one way only. *)
Lemma numeral_tag_inj (d1 d2 s1 s2 : string) (c1 c2 : ascii) :
  no_capital d1 = true → no_capital d2 = true →
  is_capital c1 = true → is_capital c2 = true →
  d1 +:+ String c1 s1 = d2 +:+ String c2 s2 →
  d1 = d2 ∧ String c1 s1 = String c2 s2.
Proof.
  revert d2. induction d1 as [|x d1 IH]; intros [|y d2] H1 H2 Hc1 Hc2 Heq;
    simpl in *.
  - done.
  - injection Heq as -> _. rewrite Hc1 in H2. done.
  - injection Heq as -> _. rewrite Hc2 in H1. done.
  - injection Heq as -> Heq.
    apply andb_true_iff in H1 as [_ H1]. apply andb_true_iff in H2 as [_ H2].
    destruct (IH d2 H1 H2 Hc1 Hc2 Heq) as [-> ?]. done.
Qed.

(** On a row that passes the checks of lines 408-409, the unique id is the
    record id followed by one of five tags. *)
Lemma unique_id_tag (r : survey_row) :
  instrument_known r = true → instrument_or_mark r = true →
  ∃ tag, unique_id r = inr (pretty (survey_record_id r) +:+ tag)
    ∧ ((tag = "L" ∧ redcap_repeat_instrument r = Some "covid19"
        ∧ isna (april_18_complete r) = true ∧ isna (nov15_complete r) = true)
       ∨ (tag = "S" ∧ redcap_repeat_instrument r = Some "covid19_short_survey"
          ∧ isna (april_18_complete r) = true ∧ isna (nov15_complete r) = true)
       ∨ (tag = "LA" ∧ redcap_repeat_instrument r = None
          ∧ isna (april_18_complete r) = false ∧ isna (nov15_complete r) = true)
       ∨ (tag = "LB" ∧ redcap_repeat_instrument r = None
          ∧ isna (april_18_complete r) = true ∧ isna (nov15_complete r) = false)
       ∨ (tag = "LALB" ∧ redcap_repeat_instrument r = None
          ∧ isna (april_18_complete r) = false ∧ isna (nov15_complete r) = false)).
Proof.
  unfold instrument_known, instrument_or_mark, unique_id.
  destruct r as [z ins a n]; cbn [survey_record_id redcap_repeat_instrument
    april_18_complete nov15_complete].
  intros Hk Hm. apply bool_decide_eq_true_1 in Hk.
  rewrite !elem_of_cons, elem_of_nil in Hk.
  destruct Hk as [-> | [-> | [-> | []]]]; destruct a, n; try discriminate Hm;
    cbn [isna negb py_str];
    rewrite ?bool_decide_eq_true_2 by done;
    rewrite ?bool_decide_eq_false_2 by done;
    cbn [py_str]; rewrite ?string_app_assoc'; eexists; (split; [reflexivity|]);
    cbn [String.append]; tauto.
Qed.

Lemma unique_id_inj (r1 r2 : survey_row) :
  instrument_known r1 = true → instrument_or_mark r1 = true →
  instrument_known r2 = true → instrument_or_mark r2 = true →
  unique_id r1 = unique_id r2 ↔ survey_kind r1 = survey_kind r2.
Proof.
  intros Hk1 Hm1 Hk2 Hm2.
  destruct (unique_id_tag r1 Hk1 Hm1) as (t1 & -> & Ht1).
  destruct (unique_id_tag r2 Hk2 Hm2) as (t2 & -> & Ht2).
  unfold survey_kind. split.
  - intros [= Heq].
    assert (pretty (survey_record_id r1) = pretty (survey_record_id r2) ∧ t1 = t2)
      as [Hz ->].
    { destruct Ht1 as [(-> & _)|[(-> & _)|[(-> & _)|[(-> & _)|(-> & _)]]]];
        destruct Ht2 as [(-> & _)|[(-> & _)|[(-> & _)|[(-> & _)|(-> & _)]]]];
        apply numeral_tag_inj in Heq; try apply no_capital_pretty_Z;
        try reflexivity; tauto. }
    apply (inj pretty) in Hz.
    destruct Ht1 as [(E1 & -> & -> & ->)|[(E1 & -> & -> & ->)|[(E1 & -> & -> & ->)
                    |[(E1 & -> & -> & ->)|(E1 & -> & -> & ->)]]]];
      destruct Ht2 as [(E2 & -> & -> & ->)|[(E2 & -> & -> & ->)|[(E2 & -> & -> & ->)
                      |[(E2 & -> & -> & ->)|(E2 & -> & -> & ->)]]]];
      try (rewrite E1 in E2; discriminate E2); by rewrite Hz.
  - intros [= Hz Hi Ha Hn]. rewrite Hz. do 2 f_equal.
    destruct Ht1 as [(-> & E1 & A1 & N1)|[(-> & E1 & A1 & N1)|[(-> & E1 & A1 & N1)
                    |[(-> & E1 & A1 & N1)|(-> & E1 & A1 & N1)]]]];
      destruct Ht2 as [(-> & E2 & A2 & N2)|[(-> & E2 & A2 & N2)|[(-> & E2 & A2 & N2)
                      |[(-> & E2 & A2 & N2)|(-> & E2 & A2 & N2)]]]];
      try reflexivity; congruence.
Qed.

Lemma NoDup_fmap_iff {A B C} (f : A → B) (g : A → C) (l : list A) :
  (∀ x y, x ∈ l → y ∈ l → f x = f y ↔ g x = g y) →
  NoDup (f <$> l) ↔ NoDup (g <$> l).
Proof.
  induction l as [|a l IH]; intros H; [split; intros _; apply NoDup_nil_2|].
  rewrite !fmap_cons, !NoDup_cons, IH.
  - assert (f a ∈ f <$> l ↔ g a ∈ g <$> l) as ->; [|done].
    rewrite !list_elem_of_fmap. split; intros (y & Hy & Hin); exists y;
      (split; [|done]); apply (H a y); try done; [by left|by right|by left|by right].
  - intros x y Hx Hy. apply H; by right.
Qed.

(** X23. The daily table is indexed without failure exactly when every row has
    a known instrument, has either an instrument or a completion mark of
    one of the longer surveys but not both, and no two rows share record
    id, instrument and marks; any failure is an assertion.  Every index
    value is then a string, the record id followed by L, S, LA, LB or LALB,
    and two rows get the same one only if they agree on all of these. *)
Theorem index_daily_unique (data : list survey_row) :
  ((∃ index, index_daily data = Returns index)
   ↔ forallb instrument_known data = true
     ∧ forallb instrument_or_mark data = true
     ∧ NoDup (survey_kind <$> data))
  ∧ (∀ e, index_daily data = Raises e → e = AssertionError)
  ∧ (∀ index, index_daily data = Returns index →
       index = unique_id <$> data
       ∧ Forall (fun r => ∃ tag, unique_id r = inr (pretty (survey_record_id r) +:+ tag)
                           ∧ tag ∈ ["L"; "S"; "LA"; "LB"; "LALB"]) data).
Proof.
  unfold index_daily.
  destruct (forallb instrument_known data) eqn:Hk; cbn;
    [|split; [split; [by intros [? ?]|by intros [? _]]|split; [by intros e [= <-]|done]]].
  destruct (forallb instrument_or_mark data) eqn:Hm; cbn;
    [|split; [split; [by intros [? ?]|by intros (_ & ? & _)]
             |split; [by intros e [= <-]|done]]].
  rewrite forallb_forall in Hk. rewrite forallb_forall in Hm.
  assert (Hnd : NoDup (unique_id <$> data) ↔ NoDup (survey_kind <$> data)).
  { apply NoDup_fmap_iff. intros x y Hx Hy.
    apply unique_id_inj; [apply Hk|apply Hm|apply Hk|apply Hm];
      by apply list_elem_of_In. }
  case_bool_decide as Hu; cbn.
  - split; [split; [intros _; repeat split; by apply Hnd|eauto]|].
    split; [discriminate|]. intros index [= <-]. split; [done|].
    apply Forall_forall. intros r Hr. apply list_elem_of_In in Hr.
    destruct (unique_id_tag r (Hk r Hr) (Hm r Hr)) as (tag & Htag & Hcases).
    exists tag. split; [done|].
    rewrite !elem_of_cons.
    destruct Hcases as [(-> & _)|[(-> & _)|[(-> & _)|[(-> & _)|(-> & _)]]]]; tauto.
  - split; [split; [by intros [? ?]|]|split; [by intros e [= <-]|done]].
    intros (_ & _ & H). by apply Hnd in H.
Qed.

Example index_daily_examples :
  index_daily [SurveyRow 12 (Some "covid19") None None;
               SurveyRow 12 (Some "covid19_short_survey") None None;
               SurveyRow 12 None (Some 2) None]
  = Returns [inr "12L"; inr "12S"; inr "12LA"]
  ∧ index_daily [SurveyRow 12 (Some "covid19") None None;
                 SurveyRow 12 (Some "covid19") None None]
    = Raises AssertionError
  ∧ index_daily [SurveyRow 12 None None None] = Raises AssertionError.
Proof. repeat split; vm_compute; reflexivity. Qed.
